(** * Recurring YooKassa charges: saved payment methods and the charge pass

    A shallow embedding of
    - [app/database/crud/yookassa_saved_payment_method.py] (module [Crud]),
    - [app/cabinet/routes/saved_payment_methods.py] (module [Cabinet]),
    - [app/services/yookassa_recurring_service.py] (module [Recurring]),
    with the constraints of the table [yookassa_saved_payment_methods] taken
    from migration 0005.

    Conventions.
    - A [datetime] is a timezone-aware UTC instant, counted in microseconds
      from 0001-01-01T00:00:00; Python's representable range is
      [0 .. DATETIME_MAX].
    - Python exceptions are values of [Exn]; every one of them is a subclass
      of [Exception] (signals that only derive from [BaseException], such as
      task cancellation, are outside the model).
    - Logging never raises; it is recorded in the trace. *)

From stdpp Require Import gmap strings list sorting pretty.
From Stdlib Require Import ZArith Lia.

Open Scope Z_scope.

(** ** Exceptions and results *)

Inductive Exn : Type :=
  | IntegrityError                                  (* sqlalchemy.exc *)
  | MultipleResultsFound                            (* scalar_one_or_none *)
  | OverflowError                                   (* datetime arithmetic *)
  | HTTPException (status_code : Z) (detail : string)
  | Exception (what : string).                      (* any other failure *)

Inductive Outcome (A : Type) : Type :=
  | Return (a : A)
  | Raise (e : Exn).
Arguments Return {A} a.
Arguments Raise {A} e.

Definition HTTP_404_NOT_FOUND : Z := 404.

(** ** Time *)

Definition datetime : Type := Z.

Definition SECOND : Z := 1000000.
Definition DAY : Z := 86400 * SECOND.
(* date.max.toordinal() = 3652059 *)
Definition DATETIME_MAX : datetime := 3652059 * DAY - 1.
Definition TIMEDELTA_MAX_DAYS : Z := 999999999.

(** ** Data model *)

Record User : Type := {
  u_id : Z;
  u_telegram_id : option Z;
}.

(** The ORM object of a subscription as the selector's query loads it:
    the columns the service reads, and the [user] relationship resolved by
    [selectinload]. *)
Record Subscription : Type := {
  s_id : Z;
  s_user : option User;
  s_status : string;
  s_autopay_enabled : bool;
  s_expires_at : option datetime;
  s_autopay_days_before : option Z;
  s_tariff_id : option Z;
}.

(** A row of [yookassa_saved_payment_methods] (migration 0005). *)
Record YooKassaSavedPaymentMethod : Type := {
  m_id : Z;
  m_user_id : Z;
  m_payment_method_id : string;
  m_payment_method_type : option string;
  m_card_first_six : option string;
  m_card_last_four : option string;
  m_card_type : option string;
  m_card_expiry_month : option string;
  m_card_expiry_year : option string;
  m_title : option string;
  m_is_active : bool;
  m_created_at : datetime;
  m_updated_at : datetime;
  m_source_payment_id : option Z;
}.

(** The stored tables a statement runs against. [users] and
    [yookassa_payments] are kept for the two foreign keys of the saved
    methods table. *)
Record Database : Type := {
  users : list User;
  yookassa_payments : list Z;
  subscriptions : list Subscription;
  yookassa_saved_payment_methods : list YooKassaSavedPaymentMethod;
}.

Definition with_saved_methods (db : Database)
    (rows : list YooKassaSavedPaymentMethod) : Database :=
  {| users := users db;
     yookassa_payments := yookassa_payments db;
     subscriptions := subscriptions db;
     yookassa_saved_payment_methods := rows |}.

(** * CRUD accessors of saved payment methods *)

Module Crud.

(** [UPDATE ... SET is_active = false, updated_at = now] on one row. *)
Definition deactivated (now : datetime) (m : YooKassaSavedPaymentMethod)
    : YooKassaSavedPaymentMethod :=
  {| m_id := m_id m;
     m_user_id := m_user_id m;
     m_payment_method_id := m_payment_method_id m;
     m_payment_method_type := m_payment_method_type m;
     m_card_first_six := m_card_first_six m;
     m_card_last_four := m_card_last_four m;
     m_card_type := m_card_type m;
     m_card_expiry_month := m_card_expiry_month m;
     m_card_expiry_year := m_card_expiry_year m;
     m_title := m_title m;
     m_is_active := false;
     m_created_at := m_created_at m;
     m_updated_at := now;
     m_source_payment_id := m_source_payment_id m |}.

(** Primary key with [autoincrement]: one more than the largest id stored. *)
Definition next_id (rows : list YooKassaSavedPaymentMethod) : Z :=
  1 + foldr (fun m acc => Z.max (m_id m) acc) 0 rows.

Definition token_stored (rows : list YooKassaSavedPaymentMethod)
    (token : string) : bool :=
  existsb (fun m => String.eqb (m_payment_method_id m) token) rows.

Definition user_exists (db : Database) (uid : Z) : bool :=
  existsb (fun u => u_id u =? uid) (users db).

Definition payment_exists (db : Database) (pid : option Z) : bool :=
  match pid with
  | None => true
  | Some p => existsb (Z.eqb p) (yookassa_payments db)
  end.

(** [db.add(method); await db.commit()]: the INSERT under the constraints the
    migration declares, [unique=True] on [payment_method_id] and the foreign
    keys of [user_id] and [source_payment_id]. A violated constraint raises
    [IntegrityError] and stores nothing. *)
Definition commit_insert (db : Database) (method : YooKassaSavedPaymentMethod)
    : Outcome Database :=
  if token_stored (yookassa_saved_payment_methods db) (m_payment_method_id method)
  then Raise IntegrityError
  else if negb (user_exists db (m_user_id method)) then Raise IntegrityError
  else if negb (payment_exists db (m_source_payment_id method))
  then Raise IntegrityError
  else Return (with_saved_methods db
                 (yookassa_saved_payment_methods db ++ [method])).

(** [select(...).where(payment_method_id == ...)], [scalar_one_or_none()]. *)
Definition get_saved_method_by_payment_method_id (db : Database)
    (payment_method_id : string)
    : Outcome (option YooKassaSavedPaymentMethod) :=
  match List.filter
          (fun m => String.eqb (m_payment_method_id m) payment_method_id)
          (yookassa_saved_payment_methods db) with
  | [] => Return None
  | [m] => Return (Some m)
  | _ => Raise MultipleResultsFound
  end.

Definition create_saved_payment_method (db : Database) (now : datetime)
    (user_id : Z) (payment_method_id : string)
    (payment_method_type card_first_six card_last_four card_type
     card_expiry_month card_expiry_year title : option string)
    (source_payment_id : option Z)
    : Outcome (option YooKassaSavedPaymentMethod) * Database :=
  let method :=
    {| m_id := next_id (yookassa_saved_payment_methods db);
       m_user_id := user_id;
       m_payment_method_id := payment_method_id;
       m_payment_method_type := payment_method_type;
       m_card_first_six := card_first_six;
       m_card_last_four := card_last_four;
       m_card_type := card_type;
       m_card_expiry_month := card_expiry_month;
       m_card_expiry_year := card_expiry_year;
       m_title := title;
       m_is_active := true;
       m_created_at := now;
       m_updated_at := now;
       m_source_payment_id := source_payment_id |} in
  match commit_insert db method with
  | Raise IntegrityError =>
      (* rollback, then look the token up *)
      (get_saved_method_by_payment_method_id db payment_method_id, db)
  | Raise e => (Raise e, db)
  | Return db' => (Return (Some method), db')
  end.

(** [ORDER BY created_at DESC]. Rows with equal creation times come in an
    order SQL leaves open; no theorem below depends on it. *)
Definition newer_or_equal (a b : YooKassaSavedPaymentMethod) : Prop :=
  m_created_at b <= m_created_at a.

Global Instance newer_or_equal_dec : RelDecision newer_or_equal.
Proof. intros a b. unfold newer_or_equal. apply _. Defined.

Definition order_by_created_at_desc (rows : list YooKassaSavedPaymentMethod)
    : list YooKassaSavedPaymentMethod :=
  merge_sort newer_or_equal rows.

Definition owned_and_active (user_id : Z) (m : YooKassaSavedPaymentMethod)
    : bool :=
  (m_user_id m =? user_id) && m_is_active m.

Definition get_active_saved_methods (db : Database) (user_id : Z)
    : list YooKassaSavedPaymentMethod :=
  order_by_created_at_desc
    (List.filter (owned_and_active user_id)
       (yookassa_saved_payment_methods db)).

Definition deactivate_saved_method (db : Database) (now : datetime)
    (method_id : Z) : Database :=
  with_saved_methods db
    (map (fun m => if m_id m =? method_id then deactivated now m else m)
       (yookassa_saved_payment_methods db)).

Definition deactivate_all_user_methods (db : Database) (now : datetime)
    (user_id : Z) : Database :=
  with_saved_methods db
    (map (fun m => if owned_and_active user_id m then deactivated now m else m)
       (yookassa_saved_payment_methods db)).

(** [m] is a stored, active method of the user [user_id]. *)
Definition active_method (db : Database) (user_id : Z)
    (m : YooKassaSavedPaymentMethod) : Prop :=
  m ∈ yookassa_saved_payment_methods db
  /\ m_user_id m = user_id /\ m_is_active m = true.

(** The gateway tokens stored, one per row. *)
Definition tokens (db : Database) : list string :=
  map m_payment_method_id (yookassa_saved_payment_methods db).

End Crud.

(** * Cabinet routes *)

Module Cabinet.

Record DeleteSavedMethodResponse : Type := {
  success : bool;
  message : string;
}.

(** [next((m for m in methods if m.id == method_id), None)] *)
Definition find_method (methods : list YooKassaSavedPaymentMethod)
    (method_id : Z) : option YooKassaSavedPaymentMethod :=
  List.find (fun m => m_id m =? method_id) methods.

Definition delete_saved_payment_method (db : Database) (now : datetime)
    (user : User) (method_id : Z)
    : Outcome DeleteSavedMethodResponse * Database :=
  let methods := Crud.get_active_saved_methods db (u_id user) in
  match find_method methods method_id with
  | None =>
      (Raise (HTTPException HTTP_404_NOT_FOUND "Saved payment method not found"),
       db)
  | Some _ =>
      (Return {| success := true;
                 message := "Payment method successfully unlinked" |},
       Crud.deactivate_saved_method db now method_id)
  end.

(** [SavedPaymentMethodResponse] and [SavedPaymentMethodsListResponse] of
    [app/cabinet/schemas/saved_payment_methods.py]. *)
Record SavedPaymentMethodResponse : Type := {
  r_id : Z;
  r_payment_method_type : option string;
  r_card_last_four : option string;
  r_card_type : option string;
  r_card_expiry_month : option string;
  r_card_expiry_year : option string;
  r_title : option string;
  r_is_active : bool;
  r_created_at : option datetime;
}.

Record SavedPaymentMethodsListResponse : Type := {
  items : list SavedPaymentMethodResponse;
  total : Z;
}.

(** The item of the list a stored method is rendered to. *)
Definition response_of (m : YooKassaSavedPaymentMethod)
    : SavedPaymentMethodResponse :=
  {| r_id := m_id m;
     r_payment_method_type := m_payment_method_type m;
     r_card_last_four := m_card_last_four m;
     r_card_type := m_card_type m;
     r_card_expiry_month := m_card_expiry_month m;
     r_card_expiry_year := m_card_expiry_year m;
     r_title := m_title m;
     r_is_active := m_is_active m;
     r_created_at := Some (m_created_at m) |}.

Definition list_saved_payment_methods (db : Database) (user : User)
    : SavedPaymentMethodsListResponse :=
  let methods := Crud.get_active_saved_methods db (u_id user) in
  let items := map response_of methods in
  {| items := items; total := Z.of_nat (length items) |}.

(** The order of the items of a list: newest first. *)
Definition listed_before (a b : SavedPaymentMethodResponse) : Prop :=
  forall ta tb, r_created_at a = Some ta -> r_created_at b = Some tb ->
                tb <= ta.

(** The method [method_id] is stored, active and owned by [user]. *)
Definition own_active (db : Database) (user : User) (method_id : Z) : Prop :=
  exists m, m ∈ yookassa_saved_payment_methods db
    /\ m_id m = method_id /\ m_user_id m = u_id user /\ m_is_active m = true.

End Cabinet.

(** * Migration 0005

    [migrations/alembic/versions/0005_add_yookassa_recurring.py] over a
    schema: the tables with their columns, and the named indexes. The
    operations of Alembic's [op] fail as the database makes them fail: a
    table, column or index is created once and dropped only when it is
    there, a foreign key needs its target, and a table that another table
    references is not dropped. *)

Module Migration.

Inductive ColumnType : Type :=
  | Integer
  | String (length : Z)
  | Boolean
  | DateTime (timezone : bool).

(** [sa.Column(...)] *)
Record Column : Type := {
  col_name : string;
  col_type : ColumnType;
  col_primary_key : bool;
  col_autoincrement : bool;
  col_nullable : bool;
  col_unique : bool;
  col_index : bool;
  (* ForeignKey('table.column') *)
  col_foreign_key : option (string * string);
  (* server_default, as SQL text *)
  col_server_default : option string;
}.

Record Index : Type := {
  ix_table : string;
  ix_columns : list string;
}.

Record Schema : Type := {
  tables : gmap string (list Column);
  indexes : gmap string Index;
}.

Definition has_column_named (name : string) (columns : list Column) : bool :=
  existsb (fun c => String.eqb (col_name c) name) columns.

(** [table in inspector.get_table_names()] *)
Definition _has_table (table : string) (s : Schema) : bool :=
  match tables s !! table with
  | Some _ => true
  | None => false
  end.

Definition _has_column (table column : string) (s : Schema) : bool :=
  match tables s !! table with
  | None => false
  | Some columns => has_column_named column columns
  end.

Definition ProgrammingError : Exn := Exception "ProgrammingError".

(** The target of the foreign key of [c], if it has one, is a column of
    [s], or a column of the table [own] being created with its columns
    [own_columns]. *)
Definition foreign_key_ok (s : Schema) (own : string)
    (own_columns : list Column) (c : Column) : bool :=
  match col_foreign_key c with
  | None => true
  | Some (t, x) =>
      if String.eqb t own then has_column_named x own_columns
      else _has_column t x s
  end.

(** No column of another table references [table]. *)
Definition unreferenced (s : Schema) (table : string) : Prop :=
  map_Forall
    (fun other columns =>
       other = table
       \/ Forall (fun c => fst <$> col_foreign_key c <> Some table) columns)
    (tables s).

Definition create_table (table : string) (columns : list Column) (s : Schema)
    : Outcome Schema :=
  if _has_table table s then Raise ProgrammingError
  else if forallb (foreign_key_ok s table columns) columns
  then Return {| tables := <[table := columns]> (tables s);
                 indexes := indexes s |}
  else Raise ProgrammingError.

Definition create_index (name table : string) (columns : list string)
    (s : Schema) : Outcome Schema :=
  match indexes s !! name, tables s !! table with
  | None, Some stored =>
      if forallb (fun x => has_column_named x stored) columns
      then Return {| tables := tables s;
                     indexes := <[name := {| ix_table := table;
                                             ix_columns := columns |}]>
                                  (indexes s) |}
      else Raise ProgrammingError
  | _, _ => Raise ProgrammingError
  end.

Definition add_column (table : string) (c : Column) (s : Schema)
    : Outcome Schema :=
  match tables s !! table with
  | None => Raise ProgrammingError
  | Some columns =>
      if has_column_named (col_name c) columns then Raise ProgrammingError
      else if foreign_key_ok s table columns c
      then Return {| tables := <[table := columns ++ [c]]> (tables s);
                     indexes := indexes s |}
      else Raise ProgrammingError
  end.

Definition drop_column (table column : string) (s : Schema)
    : Outcome Schema :=
  match tables s !! table with
  | None => Raise ProgrammingError
  | Some columns =>
      if has_column_named column columns
      then Return
             {| tables :=
                  <[table := List.filter
                               (fun c => negb (String.eqb (col_name c) column))
                               columns]> (tables s);
                indexes := indexes s |}
      else Raise ProgrammingError
  end.

Definition drop_index (name : string) (s : Schema) : Outcome Schema :=
  match indexes s !! name with
  | None => Raise ProgrammingError
  | Some _ => Return {| tables := tables s;
                        indexes := delete name (indexes s) |}
  end.

(** [DROP TABLE]: the indexes of the table go with it. *)
Definition drop_table (table : string) (s : Schema) : Outcome Schema :=
  if _has_table table s then
    if decide (unreferenced s table)
    then Return
           {| tables := delete table (tables s);
              indexes := filter (fun entry => ix_table entry.2 <> table)
                           (indexes s) |}
    else Raise ProgrammingError
  else Raise ProgrammingError.

(** One statement after another; the first error ends the migration. *)
Definition and_then {A B} (r : Outcome A) (k : A -> Outcome B) : Outcome B :=
  match r with
  | Return a => k a
  | Raise e => Raise e
  end.

Definition SAVED_METHODS : string := "yookassa_saved_payment_methods".
Definition PAYMENTS : string := "yookassa_payments".
Definition IX_USER_ACTIVE : string := "ix_yookassa_saved_pm_user_active".

(** A nullable column without further arguments. *)
Definition plain (name : string) (type : ColumnType) : Column :=
  {| col_name := name; col_type := type; col_primary_key := false;
     col_autoincrement := false; col_nullable := true; col_unique := false;
     col_index := false; col_foreign_key := None;
     col_server_default := None |}.

Definition with_default (name : string) (type : ColumnType)
    (default : string) : Column :=
  {| col_name := name; col_type := type; col_primary_key := false;
     col_autoincrement := false; col_nullable := true; col_unique := false;
     col_index := false; col_foreign_key := None;
     col_server_default := Some default |}.

Definition saved_methods_columns : list Column :=
  [ {| col_name := "id"; col_type := Integer; col_primary_key := true;
       col_autoincrement := true; col_nullable := false;
       col_unique := false; col_index := false; col_foreign_key := None;
       col_server_default := None |};
    {| col_name := "user_id"; col_type := Integer; col_primary_key := false;
       col_autoincrement := false; col_nullable := false;
       col_unique := false; col_index := true;
       col_foreign_key := Some ("users", "id");
       col_server_default := None |};
    {| col_name := "payment_method_id"; col_type := String 255;
       col_primary_key := false; col_autoincrement := false;
       col_nullable := false; col_unique := true; col_index := true;
       col_foreign_key := None; col_server_default := None |};
    plain "payment_method_type" (String 50);
    plain "card_first_six" (String 6);
    plain "card_last_four" (String 4);
    plain "card_type" (String 50);
    plain "card_expiry_month" (String 2);
    plain "card_expiry_year" (String 4);
    plain "title" (String 255);
    with_default "is_active" Boolean "true";
    with_default "created_at" (DateTime true) "now()";
    with_default "updated_at" (DateTime true) "now()";
    {| col_name := "source_payment_id"; col_type := Integer;
       col_primary_key := false; col_autoincrement := false;
       col_nullable := true; col_unique := false; col_index := false;
       col_foreign_key := Some (PAYMENTS, "id");
       col_server_default := None |} ].

Definition payment_method_id_column : Column :=
  {| col_name := "payment_method_id"; col_type := String 255;
     col_primary_key := false; col_autoincrement := false;
     col_nullable := true; col_unique := false; col_index := true;
     col_foreign_key := None; col_server_default := None |}.

Definition saved_payment_method_id_column : Column :=
  {| col_name := "saved_payment_method_id"; col_type := Integer;
     col_primary_key := false; col_autoincrement := false;
     col_nullable := true; col_unique := false; col_index := false;
     col_foreign_key := Some (SAVED_METHODS, "id");
     col_server_default := None |}.

(** [if not _has_column(table, c.name): op.add_column(table, c)] *)
Definition add_column_if_missing (table : string) (c : Column) (s : Schema)
    : Outcome Schema :=
  if _has_column table (col_name c) s then Return s else add_column table c s.

(** [if _has_column(table, column): op.drop_column(table, column)] *)
Definition drop_column_if_present (table column : string) (s : Schema)
    : Outcome Schema :=
  if _has_column table column s then drop_column table column s
  else Return s.

Definition upgrade (s : Schema) : Outcome Schema :=
  and_then
    (if _has_table SAVED_METHODS s then Return s
     else
       and_then (create_table SAVED_METHODS saved_methods_columns s)
         (create_index IX_USER_ACTIVE SAVED_METHODS ["user_id"; "is_active"]))
    (fun s =>
  and_then (add_column_if_missing PAYMENTS payment_method_id_column s)
    (fun s =>
  and_then
    (add_column_if_missing PAYMENTS
       (with_default "payment_method_saved" Boolean "false") s)
    (fun s =>
  and_then
    (add_column_if_missing PAYMENTS
       (with_default "is_recurring" Boolean "false") s)
    (fun s =>
  add_column_if_missing PAYMENTS saved_payment_method_id_column s)))).

Definition downgrade (s : Schema) : Outcome Schema :=
  and_then (drop_column_if_present PAYMENTS "saved_payment_method_id" s)
    (fun s =>
  and_then (drop_column_if_present PAYMENTS "is_recurring" s)
    (fun s =>
  and_then (drop_column_if_present PAYMENTS "payment_method_saved" s)
    (fun s =>
  and_then (drop_column_if_present PAYMENTS "payment_method_id" s)
    (fun s =>
  if _has_table SAVED_METHODS s then
    and_then (drop_index IX_USER_ACTIVE s) (drop_table SAVED_METHODS)
  else Return s)))).

(** The schema [upgrade] builds from one without the saved-methods table. *)
Definition upgraded_from (s : Schema) (payments : list Column) : Schema :=
  {| tables :=
       <[PAYMENTS :=
           payments
           ++ [payment_method_id_column;
               with_default "payment_method_saved" Boolean "false";
               with_default "is_recurring" Boolean "false";
               saved_payment_method_id_column]]>
         (<[SAVED_METHODS := saved_methods_columns]> (tables s));
     indexes :=
       <[IX_USER_ACTIVE := {| ix_table := SAVED_METHODS;
                              ix_columns := ["user_id"; "is_active"] |}]>
         (indexes s) |}.

(** The four columns the migration adds to [yookassa_payments]. *)
Definition added_columns : list string :=
  ["payment_method_id"; "payment_method_saved"; "is_recurring";
   "saved_payment_method_id"].

End Migration.

(** * The recurring-charge service *)

Module Recurring.

(** ** Values crossing the service's boundary *)

(** Values of the dict returned by the charge operation. *)
Inductive PyVal : Type :=
  | PyNone
  | PyBool (b : bool)
  | PyInt (z : Z)
  | PyStr (s : string).

Global Instance PyVal_eq_dec : EqDecision PyVal.
Proof. solve_decision. Defined.

Record Tariff : Type := {
  price_kopeks : option Z;
}.

Record ChargeRequest : Type := {
  c_user_id : Z;
  c_saved_method_id : Z;
  c_amount_kopeks : Z;
  c_description : string;
  c_metadata : gmap string string;
}.

(** The three texts the service sends; [price] is [settings.format_price]
    of the amount. *)
Inductive MessageText : Type :=
  | SuccessText (price : string)
  | FailureText (price : string)
  | NoMethodText.

Inductive Bot : Type := TelegramBot.

Record YooKassaRecurringService : Type := {
  _running : bool;
  _bot : option Bot;
  _check_interval_minutes : Z;
}.

Record Stats : Type := {
  checked : Z;
  charged : Z;
  no_method : Z;
  failed : Z;
  skipped : Z;
}.

Definition zero_stats : Stats :=
  {| checked := 0; charged := 0; no_method := 0; failed := 0; skipped := 0 |}.

(** One constructor per [logger] call of the service. *)
Inductive LogMessage : Type :=
  | NoSubscriptions
  | FoundSubscriptions (count : Z)
  | ChargeError (subscription_id : Z) (error : Exn)
  | FetchError (error : Exn)
  | Results (stats : Stats)
  | UserNotFound (subscription_id : Z)
  | NoSavedMethods (user_id subscription_id : Z)
  | CostNotComputed (subscription_id : Z)
  | ChargeSucceeded (user_id subscription_id amount_kopeks : Z)
  | ChargeNotSucceeded (user_id subscription_id : Z)
      (result : option (gmap string PyVal))
  | CostError (error : Exn)
  | NotifySuccessError (error : Exn)
  | NotifyFailureError (error : Exn)
  | NotifyNoMethodError (error : Exn).

Inductive Level : Type := DEBUG | INFO | WARNING | ERROR.

Definition level (msg : LogMessage) : Level :=
  match msg with
  | NoSubscriptions => DEBUG
  | FoundSubscriptions _ | Results _ | NoSavedMethods _ _
  | ChargeSucceeded _ _ _ => INFO
  | UserNotFound _ | CostNotComputed _ | ChargeNotSucceeded _ _ _
  | NotifySuccessError _ | NotifyFailureError _
  | NotifyNoMethodError _ => WARNING
  | ChargeError _ _ | FetchError _ | CostError _ => ERROR
  end.

(** What the service does to the outside, in order. *)
Inductive Event : Type :=
  | Charge (request : ChargeRequest)
  | SendMessage (chat_id : Z) (text : MessageText)
  | Log (msg : LogMessage).

(** ** Collaborators

    Everything the service calls and this repository's sources do not
    define: the clock, the database session, tariffs, settings, the payment
    service and the bot. A call may fail and may change the outside world. *)

Class Collaborators (World : Type) : Type := {
  (* datetime.now(UTC) *)
  now_utc : World -> datetime;
  (* await db.execute(...): the stored tables the statement sees *)
  db_execute : World -> Outcome Database * World;
  (* app.database.crud.tariff.get_tariff_by_id *)
  get_tariff_by_id : Z -> World -> Outcome (option Tariff) * World;
  (* settings.get_period_price_kopeks *)
  get_period_price_kopeks : Z -> World -> Outcome (option Z) * World;
  (* settings.get_subscription_payment_description *)
  get_subscription_payment_description : Z -> World -> Outcome string * World;
  (* settings.format_price, a total formatting function *)
  format_price : Z -> string;
  (* PaymentService(bot).create_recurring_charge *)
  create_recurring_charge :
    ChargeRequest -> World -> Outcome (option (gmap string PyVal)) * World;
  (* bot.send_message(chat_id, text, parse_mode='HTML') *)
  send_message : Z -> MessageText -> World -> Outcome unit * World;
}.

(** ** Python helpers *)

(** Truth value of [int | None]: [None] and [0] are false. *)
Definition truthy (x : option Z) : option Z :=
  match x with
  | Some z => if z =? 0 then None else Some z
  | None => None
  end.

(** [x or default] on [int | None]. *)
Definition or_default (x : option Z) (default : Z) : Z :=
  match truthy x with
  | Some z => z
  | None => default
  end.

(** [when - timedelta(days=days)] *)
Definition minus_days (when : datetime) (days : Z) : Outcome datetime :=
  if (days <? - TIMEDELTA_MAX_DAYS) || (TIMEDELTA_MAX_DAYS <? days)
  then Raise OverflowError
  else
    let threshold := when - days * DAY in
    if (threshold <? 0) || (DATETIME_MAX <? threshold)
    then Raise OverflowError
    else Return threshold.

(** [timedelta(days=...)] and the subtraction of the selector stay within
    Python's ranges for [sub]. *)
Definition threshold_representable (sub : Subscription) : Prop :=
  match s_expires_at sub with
  | None => True
  | Some expires_at =>
      let days_before := or_default (s_autopay_days_before sub) 3 in
      - TIMEDELTA_MAX_DAYS <= days_before <= TIMEDELTA_MAX_DAYS
      /\ 0 <= expires_at - days_before * DAY <= DATETIME_MAX
  end.

(** [SubscriptionStatus.ACTIVE.value]. Modelled from the spec: the enum
    lives in [app.database.models]; the spec names the status [active]. *)
Definition ACTIVE_value : string := "active".

(** ** The state the service runs in *)

Section Monad.

Context {World : Type}.

Record State : Type := {
  world : World;
  trace : list Event;
  (* the dict [stats] of the running pass *)
  stats : Stats;
}.

Definition M (A : Type) : Type := State -> Outcome A * State.

Definition ret {A} (a : A) : M A := fun st => (Return a, st).

Definition bind {A B} (m : M A) (k : A -> M B) : M B :=
  fun st =>
    match m st with
    | (Return a, st') => k a st'
    | (Raise e, st') => (Raise e, st')
    end.

(** [try: m  except Exception as e: handler e] *)
Definition try_except {A} (m : M A) (handler : Exn -> M A) : M A :=
  fun st =>
    match m st with
    | (Return a, st') => (Return a, st')
    | (Raise e, st') => handler e st'
    end.

Definition emit (ev : Event) : M unit :=
  fun st =>
    (Return tt,
     {| world := world st; trace := trace st ++ [ev]; stats := stats st |}).

Definition log (msg : LogMessage) : M unit := emit (Log msg).

(** A call of a collaborator. *)
Definition call {A} (f : World -> Outcome A * World) : M A :=
  fun st =>
    let '(r, w) := f (world st) in
    (r, {| world := w; trace := trace st; stats := stats st |}).

Definition get_stats : M Stats := fun st => (Return (stats st), st).

Definition update_stats (f : Stats -> Stats) : M unit :=
  fun st =>
    (Return tt,
     {| world := world st; trace := trace st; stats := f (stats st) |}).

(** The computation that ends as [r] says. *)
Definition ret_outcome {A} (r : Outcome A) : M A := fun st => (r, st).

(** A computation that leaves the counters of the pass alone, whether it
    returns or raises. *)
Definition keeps_stats {A} (m : M A) : Prop :=
  forall st r st', m st = (r, st') -> stats st' = stats st.

End Monad.

Notation "'let!' x ':=' m 'in' k" := (bind m (fun x => k))
  (at level 10, x name, m at level 100, k at level 200, only parsing).
Notation "m >>> k" := (bind m (fun _ => k))
  (at level 100, k at level 200, only parsing).

Section Service.

Context {World : Type} `{Collaborators World}.

(** ** Eligibility selector *)

(** The WHERE clause of the selector's query. *)
Definition due_for_autopay_query (sub : Subscription) : bool :=
  String.eqb (s_status sub) ACTIVE_value
  && s_autopay_enabled sub
  && bool_decide (s_expires_at sub <> None).

(** The loop that filters by [autopay_days_before]. *)
Fixpoint filter_eligible (now : datetime) (all_subscriptions : list Subscription)
    (eligible : list Subscription) : Outcome (list Subscription) :=
  match all_subscriptions with
  | [] => Return eligible
  | sub :: rest =>
      match s_expires_at sub with
      | None => filter_eligible now rest eligible
      | Some expires_at =>
          let days_before := or_default (s_autopay_days_before sub) 3 in
          match minus_days expires_at days_before with
          | Raise e => Raise e
          | Return threshold =>
              if threshold <=? now
              then filter_eligible now rest (eligible ++ [sub])
              else filter_eligible now rest eligible
          end
      end
  end.

Definition _get_subscriptions_for_recurring (self : YooKassaRecurringService)
    : World -> Outcome (list Subscription) * World :=
  fun w =>
    let now := now_utc w in
    match db_execute w with
    | (Raise e, w') => (Raise e, w')
    | (Return db, w') =>
        let all_subscriptions :=
          List.filter due_for_autopay_query (subscriptions db) in
        (filter_eligible now all_subscriptions [], w')
    end.

(** ** Notifications *)

Definition _notify_recurring_success (self : YooKassaRecurringService)
    (user : User) (amount_kopeks : Z) : M unit :=
  match _bot self, truthy (u_telegram_id user) with
  | Some _, Some chat_id =>
      try_except
        (emit (SendMessage chat_id (SuccessText (format_price amount_kopeks)))
         >>> call (send_message chat_id
                     (SuccessText (format_price amount_kopeks))))
        (fun e => log (NotifySuccessError e))
  | _, _ => ret tt
  end.

Definition _notify_recurring_failure (self : YooKassaRecurringService)
    (user : User) (amount_kopeks : Z) : M unit :=
  match _bot self, truthy (u_telegram_id user) with
  | Some _, Some chat_id =>
      try_except
        (emit (SendMessage chat_id (FailureText (format_price amount_kopeks)))
         >>> call (send_message chat_id
                     (FailureText (format_price amount_kopeks))))
        (fun e => log (NotifyFailureError e))
  | _, _ => ret tt
  end.

Definition _notify_no_payment_method (self : YooKassaRecurringService)
    (user : User) : M unit :=
  match _bot self, truthy (u_telegram_id user) with
  | Some _, Some chat_id =>
      try_except
        (emit (SendMessage chat_id NoMethodText)
         >>> call (send_message chat_id NoMethodText))
        (fun e => log (NotifyNoMethodError e))
  | _, _ => ret tt
  end.

(** ** Price calculator *)

Definition period_price (period_days : Z) : M (option Z) :=
  let! price := call (get_period_price_kopeks period_days) in
  ret (match truthy price with
       | Some p => if 0 <? p then Some p else None
       | None => None
       end).

Definition _calculate_renewal_cost (self : YooKassaRecurringService)
    (subscription : Subscription) : M (option Z) :=
  try_except
    (let period_days := 30 in
     match truthy (s_tariff_id subscription) with
     | Some tariff_id =>
         let! tariff := call (get_tariff_by_id tariff_id) in
         match tariff with
         | Some t => ret (price_kopeks t)
         | None => period_price period_days
         end
     | None => period_price period_days
     end)
    (fun e => log (CostError e) >>> ret None).

(** ** One subscription *)

Definition charge_metadata (subscription : Subscription) (user : User)
    : gmap string string :=
  <["type" := "recurring_renewal"]>
  (<["subscription_id" := pretty (s_id subscription)]>
  (<["user_id" := pretty (u_id user)]>
  (<["user_telegram_id" :=
       match truthy (u_telegram_id user) with
       | Some t => pretty t
       | None => EmptyString
       end]> ∅))).

(** [result and result.get('status') == 'succeeded'] *)
Definition succeeded (result : option (gmap string PyVal)) : bool :=
  match result with
  | None => false
  | Some r =>
      negb (bool_decide (r = ∅))
      && bool_decide (r !! "status" = Some (PyStr "succeeded"))
  end.

(** The keyword arguments of [create_recurring_charge]. *)
Definition charge_request (subscription : Subscription) (user : User)
    (saved_method : YooKassaSavedPaymentMethod) (amount_kopeks : Z)
    (description : string) : ChargeRequest :=
  {| c_user_id := u_id user;
     c_saved_method_id := m_id saved_method;
     c_amount_kopeks := amount_kopeks;
     c_description := description;
     c_metadata := charge_metadata subscription user |}.

Definition _process_single_recurring (self : YooKassaRecurringService)
    (subscription : Subscription) : M string :=
  match s_user subscription with
  | None => log (UserNotFound (s_id subscription)) >>> ret "skipped"
  | Some user =>
      let! db := call db_execute in
      let saved_methods := Crud.get_active_saved_methods db (u_id user) in
      match saved_methods with
      | [] =>
          log (NoSavedMethods (u_id user) (s_id subscription)) >>>
          _notify_no_payment_method self user >>>
          ret "no_method"
      | saved_method :: _ =>
          let! amount := _calculate_renewal_cost self subscription in
          match truthy amount with
          | None =>
              log (CostNotComputed (s_id subscription)) >>> ret "skipped"
          | Some amount_kopeks =>
              if amount_kopeks <=? 0
              then log (CostNotComputed (s_id subscription)) >>> ret "skipped"
              else
                let! description :=
                  call (get_subscription_payment_description amount_kopeks) in
                let request :=
                  charge_request subscription user saved_method
                    amount_kopeks description in
                let! result :=
                  (emit (Charge request) >>>
                   call (create_recurring_charge request)) in
                if succeeded result
                then
                  log (ChargeSucceeded (u_id user) (s_id subscription)
                         amount_kopeks) >>>
                  _notify_recurring_success self user amount_kopeks >>>
                  ret "charged"
                else
                  log (ChargeNotSucceeded (u_id user) (s_id subscription)
                         result) >>>
                  _notify_recurring_failure self user amount_kopeks >>>
                  ret "failed"
          end
      end
  end.

(** ** One pass *)

Definition set_checked (n : Z) (s : Stats) : Stats :=
  {| checked := n; charged := charged s; no_method := no_method s;
     failed := failed s; skipped := skipped s |}.

Definition add_charged (s : Stats) : Stats :=
  {| checked := checked s; charged := charged s + 1;
     no_method := no_method s; failed := failed s; skipped := skipped s |}.

Definition add_no_method (s : Stats) : Stats :=
  {| checked := checked s; charged := charged s;
     no_method := no_method s + 1; failed := failed s; skipped := skipped s |}.

Definition add_failed (s : Stats) : Stats :=
  {| checked := checked s; charged := charged s; no_method := no_method s;
     failed := failed s + 1; skipped := skipped s |}.

Definition add_skipped (s : Stats) : Stats :=
  {| checked := checked s; charged := charged s; no_method := no_method s;
     failed := failed s; skipped := skipped s + 1 |}.

(** The [if/elif/else] over the result of one subscription. *)
Definition count_result (result : string) : Stats -> Stats :=
  if String.eqb result "charged" then add_charged
  else if String.eqb result "no_method" then add_no_method
  else if String.eqb result "failed" then add_failed
  else add_skipped.

(** The body of [for subscription in subscriptions]. *)
Definition process_one (self : YooKassaRecurringService)
    (subscription : Subscription) : M unit :=
  try_except
    (let! result := _process_single_recurring self subscription in
     update_stats (count_result result))
    (fun e =>
       update_stats add_failed >>>
       log (ChargeError (s_id subscription) e)).

Fixpoint for_each_subscription (self : YooKassaRecurringService)
    (subscriptions : list Subscription) : M unit :=
  match subscriptions with
  | [] => ret tt
  | subscription :: rest =>
      process_one self subscription >>> for_each_subscription self rest
  end.

(** [process_recurring_charges]. The [try] block yields [true] when it left
    the function through [return stats], [false] when control goes on to the
    summary below it. *)
Definition process_recurring_charges (self : YooKassaRecurringService)
    : M Stats :=
  update_stats (fun _ => zero_stats) >>>
  let! returned :=
    try_except
      (let! subscriptions := call (_get_subscriptions_for_recurring self) in
       update_stats (set_checked (Z.of_nat (length subscriptions))) >>>
       match subscriptions with
       | [] => log NoSubscriptions >>> ret true
       | _ =>
           log (FoundSubscriptions (Z.of_nat (length subscriptions))) >>>
           for_each_subscription self subscriptions >>>
           ret false
       end)
      (fun e => log (FetchError e) >>> ret false) in
  let! stats := get_stats in
  if returned then ret stats
  else
    (if (0 <? charged stats) || (0 <? failed stats)
     then log (Results stats) else ret tt) >>>
    ret stats.

(** ** Reading a trace *)

(** The charge operations invoked, in order. *)
Fixpoint charges_of (tr : list Event) : list ChargeRequest :=
  match tr with
  | [] => []
  | Charge request :: tr' => request :: charges_of tr'
  | _ :: tr' => charges_of tr'
  end.

(** The messages handed to the bot, in order. *)
Fixpoint sends_of (tr : list Event) : list (Z * MessageText) :=
  match tr with
  | [] => []
  | SendMessage chat_id text :: tr' => (chat_id, text) :: sends_of tr'
  | _ :: tr' => sends_of tr'
  end.

(** The sum of the four outcome counters. *)
Definition outcomes (s : Stats) : Z :=
  charged s + no_method s + failed s + skipped s.

(** Nothing was charged, nothing was sent and no counter moved between
    two states. *)
Definition quiet (st st' : @State World) : Prop :=
  stats st' = stats st
  /\ charges_of (trace st') = charges_of (trace st)
  /\ sends_of (trace st') = sends_of (trace st).

(** What a notifier hands to the bot for [user]: nothing when the service
    has no bot or the user has no Telegram id. *)
Definition notified (self : YooKassaRecurringService) (user : User)
    (text : MessageText) : list (Z * MessageText) :=
  match _bot self, truthy (u_telegram_id user) with
  | Some _, Some chat_id => [(chat_id, text)]
  | _, _ => []
  end.

(** The state after a collaborator answered in world [w]. *)
Definition with_world (st : @State World) (w : World) : State :=
  {| world := w; trace := trace st; stats := stats st |}.

(** Processing [subscription] from state [st] gets as far as the charge
    operation: the user is loaded, [saved_method] heads the resolver's
    result, the price calculator returns the positive [amount_kopeks]
    (leaving state [st2]) and the settings give [description]; [w] is the
    world the charge operation is then invoked in. *)
Definition reaches_charge (self : YooKassaRecurringService)
    (subscription : Subscription) (st : @State World) (user : User)
    (saved_method : YooKassaSavedPaymentMethod) (amount_kopeks : Z)
    (description : string) (st2 : @State World) (w : World) : Prop :=
  s_user subscription = Some user
  /\ exists db w1 others,
       db_execute (world st) = (Return db, w1)
       /\ Crud.get_active_saved_methods db (u_id user)
          = saved_method :: others
       /\ _calculate_renewal_cost self subscription (with_world st w1)
          = (Return (Some amount_kopeks), st2)
       /\ 0 < amount_kopeks
       /\ get_subscription_payment_description amount_kopeks (world st2)
          = (Return description, w).

(** The state right after the charge operation answered in world [w]. *)
Definition after_charge (st2 : @State World) (request : ChargeRequest)
    (w : World)
    : State :=
  {| world := w; trace := trace st2 ++ [Charge request]; stats := stats st2 |}.

(** The summaries of a pass ([Results]) logged, in order. *)
Fixpoint summaries_of (tr : list Event) : list Stats :=
  match tr with
  | [] => []
  | Log (Results s) :: tr' => s :: summaries_of tr'
  | _ :: tr' => summaries_of tr'
  end.

(** A computation that only adds events to the trace, none of them a
    summary. *)
Definition no_summary {A} (m : @M World A) : Prop :=
  forall st r st',
    m st = (r, st') ->
    exists new, trace st' = trace st ++ new /\ summaries_of new = [].

(** The outcome counters moved from [s] to [s'] in step with [charges]
    charge operations and [messages] messages: no counter went down, every
    subscription counted as charged was charged, every charge is counted as
    charged or failed, and every message belongs to a subscription counted
    as charged, without method or failed. *)
Definition accounted (s s' : Stats) (charges messages : Z) : Prop :=
  charged s <= charged s' /\ no_method s <= no_method s'
  /\ failed s <= failed s' /\ skipped s <= skipped s'
  /\ charged s' - charged s <= charges
  /\ charges <= (charged s' - charged s) + (failed s' - failed s)
  /\ messages <= (charged s' - charged s) + (no_method s' - no_method s)
                 + (failed s' - failed s).

(** Whether a pass ends with the summary in the log. *)
Definition worth_a_summary (s : Stats) : bool :=
  (0 <? charged s) || (0 <? failed s).

End Service.

End Recurring.

(** * Concrete collaborators and records

    A scripted outside world: every collaborator answers as the script says
    and leaves the world as it is, but for the charge operation, which counts
    its calls. *)

Module Scripted.
Import Recurring.

Record Script : Type := {
  clock : datetime;
  database : Outcome Database;
  tariff : Outcome (option Tariff);
  period_price_kopeks : Outcome (option Z);
  description : Outcome string;
  charge : Outcome (option (gmap string PyVal));
  delivery : Outcome unit;
  charges_made : Z;
}.

Definition charged_once (w : Script) : Script :=
  {| clock := clock w; database := database w; tariff := tariff w;
     period_price_kopeks := period_price_kopeks w;
     description := description w; charge := charge w;
     delivery := delivery w; charges_made := charges_made w + 1 |}.

Global Instance scripted : Collaborators Script := {|
  now_utc w := clock w;
  db_execute w := (database w, w);
  get_tariff_by_id _ w := (tariff w, w);
  get_period_price_kopeks _ w := (period_price_kopeks w, w);
  get_subscription_payment_description _ w := (description w, w);
  format_price amount := pretty amount;
  create_recurring_charge _ w := (charge w, charged_once w);
  send_message _ _ w := (delivery w, w);
|}.

Definition service : YooKassaRecurringService :=
  {| _running := true; _bot := Some TelegramBot;
     _check_interval_minutes := 60 |}.

Definition alice : User := {| u_id := 7; u_telegram_id := Some 1001 |}.
(* a user without a Telegram id *)
Definition bob : User := {| u_id := 8; u_telegram_id := None |}.

Definition card (id user_id : Z) (token : string) (active : bool)
    (created : datetime) : YooKassaSavedPaymentMethod :=
  {| m_id := id; m_user_id := user_id; m_payment_method_id := token;
     m_payment_method_type := Some "bank_card";
     m_card_first_six := None; m_card_last_four := Some "4444";
     m_card_type := Some "Visa"; m_card_expiry_month := Some "12";
     m_card_expiry_year := Some "2030"; m_title := None;
     m_is_active := active; m_created_at := created;
     m_updated_at := created; m_source_payment_id := None |}.

(* 2026-01-01T00:00:00Z *)
Definition t0 : datetime := 739616 * DAY.

Definition alice_old_card := card 1 7 "pm-old" true (t0 - 40 * DAY).
Definition alice_new_card := card 2 7 "pm-new" true (t0 - 10 * DAY).
Definition alice_closed_card := card 3 7 "pm-closed" false (t0 - 5 * DAY).
Definition bob_card := card 4 8 "pm-bob" true (t0 - 20 * DAY).

Definition subscription_of (id : Z) (user : User) (expires : datetime)
    (days_before : option Z) : Subscription :=
  {| s_id := id; s_user := Some user; s_status := "active";
     s_autopay_enabled := true; s_expires_at := Some expires;
     s_autopay_days_before := days_before; s_tariff_id := None |}.

(* expires on t0 + 5 days, lead time 2 days *)
Definition alice_sub := subscription_of 11 alice (t0 + 5 * DAY) (Some 2).
(* lead time stored as 0 *)
Definition zero_lead_sub := subscription_of 12 alice (t0 + 5 * DAY) (Some 0).
Definition bob_sub := subscription_of 13 bob (t0 + 5 * DAY) None.

Definition shop : Database :=
  {| users := [alice; bob];
     yookassa_payments := [];
     subscriptions := [alice_sub; bob_sub];
     yookassa_saved_payment_methods :=
       [alice_old_card; alice_new_card; alice_closed_card; bob_card] |}.

Definition shop_without_cards : Database :=
  with_saved_methods shop [].

Definition succeeded_dict : gmap string PyVal :=
  <["status" := PyStr "succeeded"]> (<["paid" := PyBool true]> ∅).

(* the gateway answers [succeeded], the price of a period is 14900 kopeks *)
Definition fine_day (now : datetime) (db : Database) : Script :=
  {| clock := now; database := Return db; tariff := Return None;
     period_price_kopeks := Return (Some 14900);
     description := Return "Subscription renewal";
     charge := Return (Some succeeded_dict);
     delivery := Return tt; charges_made := 0 |}.

Definition with_charge (w : Script)
    (r : Outcome (option (gmap string PyVal))) : Script :=
  {| clock := clock w; database := database w; tariff := tariff w;
     period_price_kopeks := period_price_kopeks w;
     description := description w; charge := r;
     delivery := delivery w; charges_made := charges_made w |}.

Definition with_period_price (w : Script) (p : Outcome (option Z)) : Script :=
  {| clock := clock w; database := database w; tariff := tariff w;
     period_price_kopeks := p;
     description := description w; charge := charge w;
     delivery := delivery w; charges_made := charges_made w |}.

Definition with_database (w : Script) (d : Outcome Database) : Script :=
  {| clock := clock w; database := d; tariff := tariff w;
     period_price_kopeks := period_price_kopeks w;
     description := description w; charge := charge w;
     delivery := delivery w; charges_made := charges_made w |}.

(* three days before [alice_sub] and [bob_sub] expire *)
Definition early_day : Script := fine_day (t0 + 2 * DAY) shop.

(* two days before they expire *)
Definition due_day : Script := fine_day (t0 + 3 * DAY) shop.

(* the payment service raises *)
Definition gateway_down : Script :=
  with_charge due_day (Raise (Exception "gateway unavailable")).

(* no price is configured for the period *)
Definition no_price : Script := with_period_price due_day (Return None).

(* nobody has a saved method *)
Definition cardless_day : Script :=
  with_database due_day (Return shop_without_cards).

(* the database cannot be reached *)
Definition database_down : Script :=
  with_database due_day (Raise (Exception "connection refused")).

(* one second before [zero_lead_sub] expires *)
Definition last_second : Script :=
  fine_day (t0 + 5 * DAY - 0 * DAY - SECOND)
    {| users := [alice; bob]; yookassa_payments := [];
       subscriptions := [zero_lead_sub];
       yookassa_saved_payment_methods := [alice_new_card] |}.

Definition start (w : Script) : State :=
  {| world := w; trace := []; stats := zero_stats |}.

Definition alice_request : ChargeRequest :=
  charge_request alice_sub alice alice_new_card 14900 "Subscription renewal".

Definition bob_request : ChargeRequest :=
  charge_request bob_sub bob bob_card 14900 "Subscription renewal".


(** More scripted worlds. *)

Definition with_description (w : Script) (d : Outcome string) : Script :=
  {| clock := clock w; database := database w; tariff := tariff w;
     period_price_kopeks := period_price_kopeks w;
     description := d; charge := charge w;
     delivery := delivery w; charges_made := charges_made w |}.

(* the settings cannot give the description of the payment *)
Definition settings_down : Script :=
  with_description due_day (Raise (Exception "settings unavailable")).

Definition canceled_dict : gmap string PyVal :=
  <["status" := PyStr "canceled"]> ∅.

(* the gateway declines the charge *)
Definition declined_day : Script :=
  with_charge due_day (Return (Some canceled_dict)).

(* a lead time beyond the range of timedelta *)
Definition overflow_sub : Subscription :=
  subscription_of 14 bob (t0 + 5 * DAY) (Some 1000000000).

Definition shop_with_overflow : Database :=
  {| users := [alice; bob];
     yookassa_payments := [];
     subscriptions := [alice_sub; overflow_sub];
     yookassa_saved_payment_methods :=
       [alice_old_card; alice_new_card; alice_closed_card; bob_card] |}.

Definition overflow_day : Script :=
  with_database due_day (Return shop_with_overflow).

(* no subscription is stored *)
Definition shop_without_subscriptions : Database :=
  {| users := [alice; bob];
     yookassa_payments := [];
     subscriptions := [];
     yookassa_saved_payment_methods :=
       [alice_old_card; alice_new_card; alice_closed_card; bob_card] |}.

Definition idle_day : Script :=
  with_database due_day (Return shop_without_subscriptions).

(* the answer of a deletion that succeeded *)
Definition unlinked : Cabinet.DeleteSavedMethodResponse :=
  {| Cabinet.success := true;
     Cabinet.message := "Payment method successfully unlinked" |}.

(** Schemas for the migration. *)

Definition id_column : Migration.Column :=
  {| Migration.col_name := "id"; Migration.col_type := Migration.Integer;
     Migration.col_primary_key := true; Migration.col_autoincrement := true;
     Migration.col_nullable := false; Migration.col_unique := false;
     Migration.col_index := false; Migration.col_foreign_key := None;
     Migration.col_server_default := None |}.

Definition old_payments_columns : list Migration.Column :=
  [id_column; Migration.plain "amount_kopeks" Migration.Integer].

(* the schema before the migration *)
Definition old_schema : Migration.Schema :=
  {| Migration.tables :=
       <["users" := [id_column;
                     Migration.plain "telegram_id" Migration.Integer]]>
         (<[Migration.PAYMENTS := old_payments_columns]> ∅);
     Migration.indexes := ∅ |}.

(* a schema in which the saved-methods table was made by other means,
   without constraints and without the index *)
Definition schema_with_bare_table : Migration.Schema :=
  {| Migration.tables :=
       <[Migration.SAVED_METHODS :=
           [id_column;
            Migration.plain "payment_method_id" (Migration.String 255)]]>
         (Migration.tables old_schema);
     Migration.indexes := ∅ |}.

Definition schema_without_payments : Migration.Schema :=
  {| Migration.tables := <["users" := [id_column]]> ∅;
     Migration.indexes := ∅ |}.

End Scripted.

(** * Facts about the CRUD accessors *)

Module CrudFacts.
Import Crud.

Lemma token_stored_true rows token :
  token_stored rows token = true <->
  exists m, m ∈ rows /\ m_payment_method_id m = token.
Proof.
  unfold token_stored. rewrite existsb_exists. split.
  - intros (m & Hin & Heq). exists m. split.
    + by apply list_elem_of_In.
    + by apply String.eqb_eq.
  - intros (m & Hin & Heq). exists m. split.
    + by apply list_elem_of_In.
    + by apply String.eqb_eq.
Qed.


Lemma filter_token_absent rows token :
  token ∉ map m_payment_method_id rows ->
  List.filter (fun m => String.eqb (m_payment_method_id m) token) rows = [].
Proof.
  induction rows as [|x rows IH]; simpl; [done|].
  intros Hn. apply not_elem_of_cons in Hn as [Hx Hrest].
  destruct (String.eqb_spec (m_payment_method_id x) token); [done|].
  by apply IH.
Qed.



Lemma lookup_absent_token db token :
  token ∉ tokens db ->
  get_saved_method_by_payment_method_id db token = Return None.
Proof.
  intros Hn. unfold get_saved_method_by_payment_method_id.
  by rewrite filter_token_absent.
Qed.

(** The two UPDATE statements leave the tokens alone. *)
Lemma deactivate_saved_method_tokens db now method_id :
  tokens (deactivate_saved_method db now method_id) = tokens db.
Proof.
  unfold tokens, deactivate_saved_method. simpl.
  induction (yookassa_saved_payment_methods db) as [|x l IH]; simpl; [done|].
  rewrite IH. by destruct (m_id x =? method_id).
Qed.

Lemma deactivate_all_user_methods_tokens db now user_id :
  tokens (deactivate_all_user_methods db now user_id) = tokens db.
Proof.
  unfold tokens, deactivate_all_user_methods. simpl.
  induction (yookassa_saved_payment_methods db) as [|x l IH]; simpl; [done|].
  rewrite IH. by destruct (owned_and_active user_id x).
Qed.


Global Instance newer_or_equal_total : Total newer_or_equal.
Proof. intros a b. unfold newer_or_equal. lia. Qed.

Global Instance newer_or_equal_trans : Transitive newer_or_equal.
Proof. intros a b c. unfold newer_or_equal. lia. Qed.

Lemma owned_and_active_true user_id m :
  owned_and_active user_id m = true <->
  m_user_id m = user_id /\ m_is_active m = true.
Proof.
  unfold owned_and_active. rewrite andb_true_iff, Z.eqb_eq. tauto.
Qed.

(** The resolver returns the active methods of the user and nothing else. *)
Lemma get_active_saved_methods_elem db user_id m :
  m ∈ get_active_saved_methods db user_id <->
  m ∈ yookassa_saved_payment_methods db
  /\ m_user_id m = user_id /\ m_is_active m = true.
Proof.
  unfold get_active_saved_methods, order_by_created_at_desc.
  rewrite merge_sort_Permutation.
  rewrite list_elem_of_In, filter_In, <- list_elem_of_In.
  by rewrite owned_and_active_true.
Qed.

(** ... newest first. *)
Lemma get_active_saved_methods_sorted db user_id :
  StronglySorted newer_or_equal (get_active_saved_methods db user_id).
Proof. apply StronglySorted_merge_sort; apply _. Qed.

(** A method that is strictly newer than every other active method of the
    user heads the resolver's result. *)
Lemma get_active_saved_methods_head db user_id newest :
  newest ∈ get_active_saved_methods db user_id ->
  (forall m, m ∈ get_active_saved_methods db user_id ->
             m = newest \/ m_created_at m < m_created_at newest) ->
  exists rest, get_active_saved_methods db user_id = newest :: rest.
Proof.
  intros Hin Hnewest.
  pose proof (get_active_saved_methods_sorted db user_id) as Hsorted.
  destruct (get_active_saved_methods db user_id) as [|h rest].
  - by apply elem_of_nil in Hin.
  - exists rest. f_equal.
    destruct (Hnewest h) as [->|Hlt]; [left|done|].
    apply StronglySorted_inv in Hsorted as [_ Hall].
    apply elem_of_cons in Hin as [->|Hin]; [done|].
    rewrite Forall_forall in Hall. apply Hall in Hin.
    unfold newer_or_equal in Hin. lia.
Qed.

(** ** More about the accessors *)

Lemma token_not_stored rows token :
  token ∉ map m_payment_method_id rows -> token_stored rows token = false.
Proof.
  intros Hn. destruct (token_stored rows token) eqn:E; [|done].
  apply token_stored_true in E as (m & Hin & <-).
  exfalso. apply Hn. apply list_elem_of_fmap. eauto.
Qed.

(** What the two UPDATE statements leave for the resolver's WHERE clause. *)
Lemma filter_after_deactivate rows now method_id user_id :
  List.filter (owned_and_active user_id)
    (map (fun m => if m_id m =? method_id then deactivated now m else m) rows)
  = List.filter
      (fun m => owned_and_active user_id m && negb (m_id m =? method_id)) rows.
Proof.
  induction rows as [|x rows IH]; simpl; [done|].
  rewrite IH. destruct (m_id x =? method_id); simpl.
  - unfold owned_and_active at 1. simpl. by rewrite !andb_false_r.
  - by rewrite andb_true_r.
Qed.

Lemma filter_after_deactivate_all rows now user_id :
  List.filter (owned_and_active user_id)
    (map (fun m => if owned_and_active user_id m then deactivated now m else m)
       rows)
  = [].
Proof.
  induction rows as [|x rows IH]; simpl; [done|].
  destruct (owned_and_active user_id x) eqn:E.
  - unfold owned_and_active at 1. simpl. by rewrite andb_false_r.
  - by rewrite E.
Qed.

Lemma filter_other_after_deactivate_all rows now user_id other :
  other <> user_id ->
  List.filter (owned_and_active other)
    (map (fun m => if owned_and_active user_id m then deactivated now m else m)
       rows)
  = List.filter (owned_and_active other) rows.
Proof.
  intros Hne. induction rows as [|x rows IH]; simpl; [done|].
  rewrite IH. destruct (owned_and_active user_id x) eqn:E; [|done].
  apply owned_and_active_true in E as [Hu _].
  unfold owned_and_active. simpl.
  destruct (Z.eqb_spec (m_user_id x) other); [congruence|done].
Qed.

Lemma get_active_after_deactivate db now method_id user_id m :
  m ∈ get_active_saved_methods (deactivate_saved_method db now method_id)
        user_id
  <-> m ∈ get_active_saved_methods db user_id /\ m_id m <> method_id.
Proof.
  unfold get_active_saved_methods, order_by_created_at_desc,
    deactivate_saved_method. simpl.
  rewrite filter_after_deactivate, !merge_sort_Permutation.
  rewrite !list_elem_of_In, !filter_In.
  rewrite andb_true_iff, negb_true_iff, Z.eqb_neq. tauto.
Qed.

(** X1. The resolver returns the stored methods that belong to the user and
    are active, each as often as it is stored, and no method of another user
    and no inactive method; the result is ordered newest first. *)
Theorem resolver_returns_own_active_methods db user_id :
  get_active_saved_methods db user_id
    ≡ₚ List.filter (owned_and_active user_id)
         (yookassa_saved_payment_methods db)
  /\ Forall (fun m => m_user_id m = user_id /\ m_is_active m = true)
       (get_active_saved_methods db user_id)
  /\ StronglySorted newer_or_equal (get_active_saved_methods db user_id).
Proof.
  split; [apply merge_sort_Permutation|]. split.
  - apply Forall_forall. intros m Hin.
    by apply get_active_saved_methods_elem in Hin as (_ & ? & ?).
  - apply get_active_saved_methods_sorted.
Qed.

Lemma next_id_above rows old :
  old ∈ rows -> m_id old < next_id rows.
Proof.
  unfold next_id. induction rows as [|m rows IH]; intros Hin.
  - by apply elem_of_nil in Hin.
  - simpl. apply elem_of_cons in Hin as [Heq | Hin].
    + subst old. lia.
    + specialize (IH Hin). lia.
Qed.

Lemma create_fresh db now user_id token ptype first_six last_four ctype
    month year title source :
  token ∉ tokens db ->
  user_exists db user_id = true ->
  payment_exists db source = true ->
  let m :=
    {| m_id := next_id (yookassa_saved_payment_methods db);
       m_user_id := user_id;
       m_payment_method_id := token;
       m_payment_method_type := ptype;
       m_card_first_six := first_six;
       m_card_last_four := last_four;
       m_card_type := ctype;
       m_card_expiry_month := month;
       m_card_expiry_year := year;
       m_title := title;
       m_is_active := true;
       m_created_at := now;
       m_updated_at := now;
       m_source_payment_id := source |} in
  create_saved_payment_method db now user_id token ptype first_six
    last_four ctype month year title source
  = (Return (Some m),
     with_saved_methods db (yookassa_saved_payment_methods db ++ [m])).
Proof.
  intros Hfresh Hu Hp.
  unfold create_saved_payment_method, commit_insert. simpl.
  by rewrite (token_not_stored _ _ Hfresh), Hu, Hp.
Qed.

Lemma lookup_appended db m :
  m_payment_method_id m ∉ tokens db ->
  get_saved_method_by_payment_method_id
    (with_saved_methods db (yookassa_saved_payment_methods db ++ [m]))
    (m_payment_method_id m)
  = Return (Some m).
Proof.
  intros Hfresh. unfold get_saved_method_by_payment_method_id. simpl.
  rewrite List.filter_app, (filter_token_absent _ _ Hfresh). simpl.
  by rewrite String.eqb_refl.
Qed.

(** X2. Creating a method with a token that is not stored yet, for a stored
    user (and a stored source payment, when one is given), appends one active
    record with the arguments of the call: every argument is stored in its
    own field, the id is one no stored record has, and the other tables are
    left as they are. Looking the token up afterwards returns that record,
    and the resolver lists it for its user. *)
Theorem create_then_lookup db now user_id token ptype first_six last_four
    ctype month year title source :
  token ∉ tokens db ->
  user_exists db user_id = true ->
  payment_exists db source = true ->
  exists m db',
    create_saved_payment_method db now user_id token ptype first_six
      last_four ctype month year title source
    = (Return (Some m), db')
    /\ yookassa_saved_payment_methods db'
       = yookassa_saved_payment_methods db ++ [m]
    /\ m_payment_method_id m = token
    /\ m_user_id m = user_id
    /\ m_is_active m = true
    /\ m_created_at m = now
    /\ get_saved_method_by_payment_method_id db' token = Return (Some m)
    /\ m ∈ get_active_saved_methods db' user_id
    /\ m_payment_method_type m = ptype
    /\ m_card_first_six m = first_six
    /\ m_card_last_four m = last_four
    /\ m_card_type m = ctype
    /\ m_card_expiry_month m = month
    /\ m_card_expiry_year m = year
    /\ m_title m = title
    /\ m_source_payment_id m = source
    /\ m_updated_at m = now
    /\ (forall old, old ∈ yookassa_saved_payment_methods db ->
                    m_id old <> m_id m)
    /\ users db' = users db
    /\ yookassa_payments db' = yookassa_payments db
    /\ subscriptions db' = subscriptions db.
Proof.
  intros Hfresh Hu Hp.
  pose proof (create_fresh db now user_id token ptype first_six last_four
                ctype month year title source Hfresh Hu Hp) as E.
  cbv zeta in E. eexists _, _. split; [exact E|]. split; [done|].
  do 4 (split; [done|]). split; [|split].
  - apply lookup_appended. exact Hfresh.
  - apply get_active_saved_methods_elem. simpl. split; [|done].
    apply elem_of_app. right. left.
  - do 9 (split; [done|]). split; [|done].
    intros old Hin. apply next_id_above in Hin. simpl. lia.
Qed.

(** X3. Creating a method with a token that is not stored, for a user that
    is not stored (or with a source payment that is not stored), stores
    nothing and returns no record: the integrity error of the foreign key is
    handled like the one of a duplicate token. *)
Theorem create_with_broken_reference_returns_none db now user_id token ptype
    first_six last_four ctype month year title source :
  token ∉ tokens db ->
  user_exists db user_id = false \/ payment_exists db source = false ->
  create_saved_payment_method db now user_id token ptype first_six
    last_four ctype month year title source
  = (Return None, db).
Proof.
  intros Hfresh Hbroken.
  unfold create_saved_payment_method, commit_insert. simpl.
  rewrite (token_not_stored _ _ Hfresh).
  destruct Hbroken as [-> | Hp]; simpl.
  - by rewrite lookup_absent_token.
  - destruct (user_exists db user_id); simpl; rewrite ?Hp; simpl;
      by rewrite lookup_absent_token.
Qed.

(** X4. A second creation with the token of a record just created, whatever
    its other arguments, returns that first record and stores nothing. *)
Theorem create_twice_returns_first db now user_id token ptype first_six
    last_four ctype month year title source m db'
    now2 user_id2 ptype2 first_six2 last_four2 ctype2 month2 year2 title2
    source2 :
  token ∉ tokens db ->
  create_saved_payment_method db now user_id token ptype first_six
    last_four ctype month year title source
  = (Return (Some m), db') ->
  create_saved_payment_method db' now2 user_id2 token ptype2 first_six2
    last_four2 ctype2 month2 year2 title2 source2
  = (Return (Some m), db').
Proof.
  intros Hfresh. unfold create_saved_payment_method at 1, commit_insert.
  simpl. rewrite (token_not_stored _ _ Hfresh).
  destruct (negb (user_exists db user_id)); simpl;
    [by rewrite lookup_absent_token|].
  destruct (negb (payment_exists db source)); simpl;
    [by rewrite lookup_absent_token|].
  intros [= <- <-].
  unfold create_saved_payment_method, commit_insert. simpl.
  assert (token_stored
            (yookassa_saved_payment_methods db
             ++ [{| m_id := next_id (yookassa_saved_payment_methods db);
                    m_user_id := user_id; m_payment_method_id := token;
                    m_payment_method_type := ptype;
                    m_card_first_six := first_six;
                    m_card_last_four := last_four; m_card_type := ctype;
                    m_card_expiry_month := month;
                    m_card_expiry_year := year; m_title := title;
                    m_is_active := true; m_created_at := now;
                    m_updated_at := now;
                    m_source_payment_id := source |}]) token = true) as ->.
  { apply token_stored_true. eexists. split; [apply elem_of_app; right; left|].
    done. }
  f_equal.
  match goal with
  | |- get_saved_method_by_payment_method_id
         (with_saved_methods db (_ ++ [?m])) _ = _ =>
      exact (lookup_appended db m Hfresh)
  end.
Qed.

(** X5. Deactivating a method deletes nothing: the stored records keep their
    number, ids, owners, tokens and creation times, the other tables are
    untouched, and a record that is active afterwards is a record of before
    with another id. *)
Theorem deactivation_is_soft db now method_id :
  let db' := deactivate_saved_method db now method_id in
  map (fun m => (m_id m, m_user_id m, m_payment_method_id m, m_created_at m))
    (yookassa_saved_payment_methods db')
  = map (fun m => (m_id m, m_user_id m, m_payment_method_id m, m_created_at m))
      (yookassa_saved_payment_methods db)
  /\ users db' = users db
  /\ yookassa_payments db' = yookassa_payments db
  /\ subscriptions db' = subscriptions db
  /\ forall m, m ∈ yookassa_saved_payment_methods db' ->
       m_is_active m = true ->
       m ∈ yookassa_saved_payment_methods db /\ m_id m <> method_id.
Proof.
  cbn zeta. split; [|split; [done|split; [done|split; [done|]]]].
  - unfold deactivate_saved_method. simpl.
    induction (yookassa_saved_payment_methods db) as [|x l IH]; simpl; [done|].
    rewrite IH. by destruct (m_id x =? method_id).
  - unfold deactivate_saved_method. simpl. intros m Hin Ha.
    apply list_elem_of_fmap in Hin as (x & -> & Hx).
    destruct (Z.eqb_spec (m_id x) method_id); [discriminate|done].
Qed.

(** X6. After a method id is deactivated the resolver returns, for every
    user, the methods it returned before except those with that id. *)
Theorem resolver_after_deactivation db now method_id user_id m :
  m ∈ get_active_saved_methods (deactivate_saved_method db now method_id)
        user_id
  <-> m ∈ get_active_saved_methods db user_id /\ m_id m <> method_id.
Proof. apply get_active_after_deactivate. Qed.

(** X7. After all methods of a user are deactivated the resolver returns
    nothing for that user and, for every other user, exactly what it
    returned before; no record is removed and no token changes. *)
Theorem deactivate_all_only_hits_the_user db now user_id :
  let db' := deactivate_all_user_methods db now user_id in
  get_active_saved_methods db' user_id = []
  /\ (forall other, other <> user_id ->
        get_active_saved_methods db' other = get_active_saved_methods db other)
  /\ tokens db' = tokens db
  /\ length (yookassa_saved_payment_methods db')
     = length (yookassa_saved_payment_methods db).
Proof.
  cbn zeta. unfold get_active_saved_methods, deactivate_all_user_methods.
  simpl. split; [|split; [|split]].
  - by rewrite filter_after_deactivate_all.
  - intros other Hne. by rewrite filter_other_after_deactivate_all.
  - apply (deactivate_all_user_methods_tokens db now user_id).
  - by rewrite length_map.
Qed.

End CrudFacts.

(** * Facts about the cabinet route *)

Module CabinetFacts.
Import Crud Cabinet.

Lemma find_method_some db user method_id m :
  find_method (get_active_saved_methods db (u_id user)) method_id = Some m ->
  own_active db user method_id.
Proof.
  unfold find_method. intros Hf. apply find_some in Hf as [Hin Hid].
  apply list_elem_of_In, CrudFacts.get_active_saved_methods_elem in Hin.
  exists m. apply Z.eqb_eq in Hid. tauto.
Qed.

Lemma find_method_none db user method_id :
  find_method (get_active_saved_methods db (u_id user)) method_id = None ->
  ~ own_active db user method_id.
Proof.
  unfold find_method. intros Hf (m & Hin & Hid & Hu & Ha).
  assert (m ∈ get_active_saved_methods db (u_id user)) as Hm
    by (by apply CrudFacts.get_active_saved_methods_elem).
  apply list_elem_of_In in Hm.
  apply (find_none _ _ Hf) in Hm. apply Z.eqb_neq in Hm. done.
Qed.

Lemma deactivate_saved_method_rows db now method_id m :
  m ∈ yookassa_saved_payment_methods
        (deactivate_saved_method db now method_id) ->
  (m_id m = method_id /\ m_is_active m = false)
  \/ (m_id m <> method_id /\ m ∈ yookassa_saved_payment_methods db).
Proof.
  unfold deactivate_saved_method. simpl.
  intros Hin. apply list_elem_of_fmap in Hin as (x & -> & Hx).
  destruct (Z.eqb_spec (m_id x) method_id) as [Heq|Hne]; simpl; auto.
Qed.

Lemma deactivate_saved_method_others db now method_id m :
  m ∈ yookassa_saved_payment_methods db -> m_id m <> method_id ->
  m ∈ yookassa_saved_payment_methods
        (deactivate_saved_method db now method_id).
Proof.
  unfold deactivate_saved_method. simpl. intros Hin Hne.
  apply list_elem_of_fmap. exists m. split; [|done].
  by destruct (Z.eqb_spec (m_id m) method_id).
Qed.

(** C10. The delete route deactivates a method exactly when the method is
    stored, active and owned by the requesting user: then it answers with
    success, every record with that id is inactive afterwards and the other
    records are as before. For every other method id (inactive, not stored,
    or of another user) it raises the 404 error and the database is
    unchanged. *)
Theorem delete_saved_payment_method_only_own_active db now user method_id :
  (own_active db user method_id ->
     exists response db',
       delete_saved_payment_method db now user method_id
       = (Return response, db')
       /\ success response = true
       /\ (forall m, m ∈ yookassa_saved_payment_methods db' ->
             (m_id m = method_id /\ m_is_active m = false)
             \/ (m_id m <> method_id
                 /\ m ∈ yookassa_saved_payment_methods db))
       /\ (forall m, m ∈ yookassa_saved_payment_methods db ->
             m_id m <> method_id ->
             m ∈ yookassa_saved_payment_methods db'))
  /\ (~ own_active db user method_id ->
        delete_saved_payment_method db now user method_id
        = (Raise (HTTPException 404 "Saved payment method not found"), db))
  /\ (forall response db',
        delete_saved_payment_method db now user method_id
        = (Return response, db') ->
        own_active db user method_id).
Proof.
  unfold delete_saved_payment_method.
  destruct (find_method (get_active_saved_methods db (u_id user)) method_id)
    as [m|] eqn:Hf.
  - apply find_method_some in Hf. split; [|split].
    + intros _. eexists _, _. split; [done|]. split; [done|]. split.
      * apply deactivate_saved_method_rows.
      * apply deactivate_saved_method_others.
    + done.
    + done.
  - apply find_method_none in Hf. split; [|split]; [done| |done].
    intros _. done.
Qed.

(** ** Listing, and listing after a deletion *)

Lemma same_id_same_row (rows : list YooKassaSavedPaymentMethod) m m' :
  NoDup (map m_id rows) -> m ∈ rows -> m' ∈ rows -> m_id m = m_id m' ->
  m = m'.
Proof.
  induction rows as [|x rows IH]; simpl; intros Hnd Hm Hm' Hid.
  - by apply elem_of_nil in Hm.
  - apply NoDup_cons in Hnd as [Hx Hnd].
    apply elem_of_cons in Hm as [-> | Hm];
      apply elem_of_cons in Hm' as [-> | Hm']; [done| | |by apply IH].
    + exfalso. apply Hx. rewrite Hid. apply list_elem_of_fmap. eauto.
    + exfalso. apply Hx. rewrite <- Hid. apply list_elem_of_fmap. eauto.
Qed.

Lemma filter_without_absent_id (P : YooKassaSavedPaymentMethod -> bool)
    rows method_id :
  method_id ∉ map m_id rows ->
  List.filter (fun m => P m && negb (m_id m =? method_id)) rows
  = List.filter P rows.
Proof.
  induction rows as [|x rows IH]; simpl; [done|].
  intros Hn. apply not_elem_of_cons in Hn as [Hx Hrest].
  rewrite (IH Hrest).
  destruct (Z.eqb_spec (m_id x) method_id); [congruence|].
  by rewrite andb_true_r.
Qed.

Lemma filter_without_one (P : YooKassaSavedPaymentMethod -> bool)
    rows method_id m :
  NoDup (map m_id rows) -> m ∈ rows -> m_id m = method_id -> P m = true ->
  S (length (List.filter (fun x => P x && negb (m_id x =? method_id)) rows))
  = length (List.filter P rows).
Proof.
  induction rows as [|x rows IH]; simpl; intros Hnd Hin Hid HP.
  - by apply elem_of_nil in Hin.
  - apply NoDup_cons in Hnd as [Hx Hnd].
    apply elem_of_cons in Hin as [<- | Hin].
    + rewrite HP, Hid, Z.eqb_refl. simpl.
      rewrite filter_without_absent_id; [done|]. by rewrite <- Hid.
    + destruct (Z.eqb_spec (m_id x) method_id) as [Heq|Hne].
      * exfalso. apply Hx. rewrite Heq, <- Hid.
        apply list_elem_of_fmap. eauto.
      * rewrite andb_true_r. destruct (P x); simpl; rewrite <- IH; done.
Qed.

Lemma filter_other_user_after_deactivate rows method_id user_id other m :
  NoDup (map m_id rows) -> m ∈ rows -> m_id m = method_id ->
  m_user_id m = user_id -> other <> user_id ->
  List.filter
    (fun x => owned_and_active other x && negb (m_id x =? method_id)) rows
  = List.filter (owned_and_active other) rows.
Proof.
  intros Hnd Hin Hid Hu Hne. apply filter_ext_in. intros x Hx.
  destruct (Z.eqb_spec (m_id x) method_id) as [Heq|_];
    [|by rewrite andb_true_r].
  apply list_elem_of_In in Hx.
  assert (x = m) as -> by (apply (same_id_same_row rows); congruence).
  unfold owned_and_active.
  destruct (Z.eqb_spec (m_user_id m) other); [congruence|done].
Qed.

Lemma delete_own_active db now user method_id :
  own_active db user method_id ->
  delete_saved_payment_method db now user method_id
  = (Return {| success := true;
               message := "Payment method successfully unlinked" |},
     deactivate_saved_method db now method_id).
Proof.
  intros Hown. unfold delete_saved_payment_method.
  destruct (find_method (get_active_saved_methods db (u_id user)) method_id)
    eqn:Hf; [done|].
  by apply find_method_none in Hf.
Qed.

Lemma delete_not_own_active db now user method_id :
  ~ own_active db user method_id ->
  delete_saved_payment_method db now user method_id
  = (Raise (HTTPException 404 "Saved payment method not found"), db).
Proof.
  intros Hnot. unfold delete_saved_payment_method.
  destruct (find_method (get_active_saved_methods db (u_id user)) method_id)
    eqn:Hf; [|done].
  by apply find_method_some in Hf.
Qed.

Lemma listed_before_response a b :
  newer_or_equal a b -> listed_before (response_of a) (response_of b).
Proof.
  unfold newer_or_equal, listed_before. simpl. intros Hle ta tb [= <-] [= <-].
  done.
Qed.

(** X8. The list route answers with one item per stored active method of the
    requesting user: [total] is their number and the number of items, every
    item is active and renders such a method, and the items come newest
    first. *)
Theorem list_shows_own_active_methods db user :
  let response := list_saved_payment_methods db user in
  total response
  = Z.of_nat
      (length (List.filter (owned_and_active (u_id user))
                 (yookassa_saved_payment_methods db)))
  /\ total response = Z.of_nat (length (items response))
  /\ (forall item, item ∈ items response ->
        r_is_active item = true
        /\ exists m, Crud.active_method db (u_id user) m
                     /\ item = response_of m)
  /\ StronglySorted listed_before (items response).
Proof.
  cbn zeta. unfold list_saved_payment_methods. simpl.
  split; [|split; [done|split]].
  - rewrite length_map. f_equal. apply Permutation_length.
    apply merge_sort_Permutation.
  - intros item Hin. apply list_elem_of_fmap in Hin as (m & -> & Hm).
    apply CrudFacts.get_active_saved_methods_elem in Hm.
    split; [simpl; tauto|]. by exists m.
  - apply (StronglySorted_fmap response_of newer_or_equal listed_before).
    + intros x y. apply listed_before_response.
    + apply CrudFacts.get_active_saved_methods_sorted.
Qed.

(** X9. With ids that identify the stored records: after a user deleted an
    own active method, the user's list has no item with that id and one item
    fewer, and the list of every other user is as before. *)
Theorem delete_then_list db now user method_id response db' :
  NoDup (map m_id (yookassa_saved_payment_methods db)) ->
  delete_saved_payment_method db now user method_id
  = (Return response, db') ->
  (forall item, item ∈ items (list_saved_payment_methods db' user) ->
                r_id item <> method_id)
  /\ total (list_saved_payment_methods db' user)
     = total (list_saved_payment_methods db user) - 1
  /\ forall other, u_id other <> u_id user ->
       list_saved_payment_methods db' other
       = list_saved_payment_methods db other.
Proof.
  intros Hnd Hdel.
  assert (own_active db user method_id) as Hown.
  { unfold delete_saved_payment_method in Hdel.
    destruct (find_method _ method_id) eqn:Hf; [|discriminate].
    by apply find_method_some in Hf. }
  rewrite (delete_own_active _ _ _ _ Hown) in Hdel.
  injection Hdel as _ <-.
  destruct Hown as (m & Hin & Hid & Hu & Ha).
  split; [|split].
  - intros item Hitem. unfold list_saved_payment_methods in Hitem.
    simpl in Hitem. apply list_elem_of_fmap in Hitem as (x & -> & Hx).
    apply CrudFacts.get_active_after_deactivate in Hx as [_ Hne]. done.
  - unfold list_saved_payment_methods, get_active_saved_methods,
      order_by_created_at_desc, deactivate_saved_method. simpl.
    rewrite !length_map, CrudFacts.filter_after_deactivate.
    rewrite !(Permutation_length (merge_sort_Permutation _ _)).
    rewrite <- (filter_without_one (owned_and_active (u_id user)) _
                  method_id m Hnd Hin Hid);
      [lia|by apply CrudFacts.owned_and_active_true].
  - intros other Hne.
    unfold list_saved_payment_methods, get_active_saved_methods,
      deactivate_saved_method. simpl.
    rewrite CrudFacts.filter_after_deactivate.
    by rewrite (filter_other_user_after_deactivate _ method_id (u_id user)
                  (u_id other) m Hnd Hin Hid Hu Hne).
Qed.

(** X10. Deleting a method twice: after a deletion that succeeded, the same
    request raises the 404 error and leaves the database as the first
    deletion left it. No route makes a method active again. *)
Theorem delete_twice_is_not_found db now user method_id response db' now2 :
  delete_saved_payment_method db now user method_id
  = (Return response, db') ->
  delete_saved_payment_method db' now2 user method_id
  = (Raise (HTTPException 404 "Saved payment method not found"), db').
Proof.
  intros Hdel. unfold delete_saved_payment_method in Hdel.
  destruct (find_method _ method_id) eqn:Hf; [|discriminate].
  injection Hdel as _ <-.
  apply delete_not_own_active.
  intros (m & Hin & Hid & Hu & Ha).
  apply deactivate_saved_method_rows in Hin as [[_ Hoff]|[Hne _]];
    congruence.
Qed.

End CabinetFacts.

(** * Facts about the recurring-charge service *)

Module RecurringFacts.
Import Recurring.

Section Pass.

Context {World : Type} `{Collaborators World}.

Implicit Types (st : @State World) (self : YooKassaRecurringService).

Lemma charges_of_app (a b : list Event) :
  charges_of (a ++ b) = charges_of a ++ charges_of b.
Proof.
  induction a as [|[]]; simpl; [done|by f_equal|done|done].
Qed.

Lemma sends_of_app (a b : list Event) :
  sends_of (a ++ b) = sends_of a ++ sends_of b.
Proof.
  induction a as [|[]]; simpl; [done|done|by f_equal|done].
Qed.

Lemma quiet_refl st : quiet st st.
Proof. by unfold quiet. Qed.

Lemma quiet_trans st1 st2 st3 : quiet st1 st2 -> quiet st2 st3 -> quiet st1 st3.
Proof. unfold quiet. intros (-> & -> & ->) (-> & -> & ->). done. Qed.

Lemma quiet_log st msg st' :
  log msg st = (Return tt, st') -> quiet st st'.
Proof.
  unfold log, emit. intros [= <-]. unfold quiet. simpl.
  rewrite charges_of_app, sends_of_app. simpl. by rewrite !app_nil_r.
Qed.

Lemma quiet_with_world st w : quiet st (with_world st w).
Proof. by unfold quiet. Qed.

(** Unfolding of the monad's operations. *)
Ltac run :=
  unfold bind, ret, try_except, call, log, emit, update_stats, get_stats,
    with_world in *;
  simpl in *.

(** ** The notifiers never raise and send at most one message *)

Lemma notify_recurring_success_spec self user amount st :
  exists st',
    _notify_recurring_success self user amount st = (Return tt, st')
    /\ stats st' = stats st
    /\ charges_of (trace st') = charges_of (trace st)
    /\ sends_of (trace st')
       = sends_of (trace st)
         ++ notified self user (SuccessText (format_price amount)).
Proof.
  unfold _notify_recurring_success, notified.
  destruct (_bot self), (truthy (u_telegram_id user)); run;
    try (eexists; split; [done|]; by rewrite app_nil_r).
  destruct (send_message _ _ (world st)) as [[[]|e] w]; run;
    (eexists; split; [done|]); simpl;
    rewrite ?charges_of_app, ?sends_of_app; simpl;
    by rewrite ?app_nil_r.
Qed.

Lemma notify_recurring_failure_spec self user amount st :
  exists st',
    _notify_recurring_failure self user amount st = (Return tt, st')
    /\ stats st' = stats st
    /\ charges_of (trace st') = charges_of (trace st)
    /\ sends_of (trace st')
       = sends_of (trace st)
         ++ notified self user (FailureText (format_price amount)).
Proof.
  unfold _notify_recurring_failure, notified.
  destruct (_bot self), (truthy (u_telegram_id user)); run;
    try (eexists; split; [done|]; by rewrite app_nil_r).
  destruct (send_message _ _ (world st)) as [[[]|e] w]; run;
    (eexists; split; [done|]); simpl;
    rewrite ?charges_of_app, ?sends_of_app; simpl;
    by rewrite ?app_nil_r.
Qed.

Lemma notify_no_payment_method_spec self user st :
  exists st',
    _notify_no_payment_method self user st = (Return tt, st')
    /\ stats st' = stats st
    /\ charges_of (trace st') = charges_of (trace st)
    /\ sends_of (trace st')
       = sends_of (trace st) ++ notified self user NoMethodText.
Proof.
  unfold _notify_no_payment_method, notified.
  destruct (_bot self), (truthy (u_telegram_id user)); run;
    try (eexists; split; [done|]; by rewrite app_nil_r).
  destruct (send_message _ _ (world st)) as [[[]|e] w]; run;
    (eexists; split; [done|]); simpl;
    rewrite ?charges_of_app, ?sends_of_app; simpl;
    by rewrite ?app_nil_r.
Qed.

(** ** The price calculator never raises, charges or sends *)

Lemma period_price_quiet period_days st r st' :
  period_price period_days st = (r, st') -> quiet st st'.
Proof.
  unfold period_price. run.
  destruct (get_period_price_kopeks _ (world st)) as [[p|e] w];
    intros [= <- <-]; by unfold quiet.
Qed.

Lemma calculate_renewal_cost_spec self subscription st :
  exists amount st',
    _calculate_renewal_cost self subscription st = (Return amount, st')
    /\ quiet st st'.
Proof.
  unfold _calculate_renewal_cost.
  assert (forall st0, quiet st st0 ->
    exists amount st',
      try_except (period_price 30)
        (fun e => log (CostError e) >>> ret None) st0 = (Return amount, st')
      /\ quiet st st') as Hfallback.
  { intros st0 Hq. unfold try_except at 1.
    destruct (period_price 30 st0) as [[p|e] st1] eqn:Hp.
    - eexists _, _. split; [done|].
      eapply quiet_trans; [done|]. by eapply period_price_quiet.
    - run. eexists _, _. split; [done|].
      eapply quiet_trans; [done|].
      apply period_price_quiet in Hp.
      eapply quiet_trans; [done|]. by eapply quiet_log. }
  destruct (truthy (s_tariff_id subscription)) as [tariff_id|].
  - unfold try_except at 1, bind at 1, call at 1.
    destruct (get_tariff_by_id tariff_id (world st)) as [[[t|]|e] w] eqn:Ht.
    + run. eexists _, _. split; [done|]. by unfold quiet.
    + specialize (Hfallback (with_world st w) (quiet_with_world st w)).
      unfold try_except at 1 in Hfallback. unfold with_world in Hfallback.
      destruct (period_price 30 _) as [[p|e] st1]; exact Hfallback.
    + run. eexists _, _. split; [done|].
      unfold quiet. simpl.
      rewrite charges_of_app, sends_of_app. simpl. by rewrite !app_nil_r.
  - apply Hfallback, quiet_refl.
Qed.

(** ** What moves the counters *)

Lemma keeps_ret {A} (a : A) : keeps_stats (World:=World) (ret a).
Proof. intros st r st' [= <- <-]. done. Qed.

Lemma keeps_emit ev : keeps_stats (World:=World) (emit ev).
Proof. intros st r st' [= <- <-]. done. Qed.

Lemma keeps_log msg : keeps_stats (World:=World) (log msg).
Proof. apply keeps_emit. Qed.

Lemma keeps_call {A} (f : World -> Outcome A * World) : keeps_stats (call f).
Proof.
  intros st r st'. unfold call. destruct (f (world st)). by intros [= <- <-].
Qed.

Lemma keeps_bind {A B} (m : @M World A) (k : A -> @M World B) :
  keeps_stats m -> (forall a, keeps_stats (k a)) -> keeps_stats (bind m k).
Proof.
  intros Hm Hk st r st'. unfold bind.
  destruct (m st) as [[a|e] st1] eqn:E; apply Hm in E.
  - intros Hka. apply Hk in Hka. congruence.
  - intros [= <- <-]. done.
Qed.

Lemma keeps_try {A} (m : @M World A) (handler : Exn -> @M World A) :
  keeps_stats m -> (forall e, keeps_stats (handler e)) ->
  keeps_stats (try_except m handler).
Proof.
  intros Hm Hh st r st'. unfold try_except.
  destruct (m st) as [[a|e] st1] eqn:E; apply Hm in E.
  - intros [= <- <-]. done.
  - intros Hhe. apply Hh in Hhe. congruence.
Qed.

Ltac keeps :=
  repeat first
    [ apply keeps_ret | apply keeps_log | apply keeps_emit | apply keeps_call
    | apply keeps_bind; [|intros ?]
    | apply keeps_try; [|intros ?]
    | match goal with
      | |- keeps_stats (match ?x with _ => _ end) => destruct x
      end ].

Lemma process_single_recurring_keeps_stats self subscription :
  keeps_stats (_process_single_recurring self subscription).
Proof.
  unfold _process_single_recurring, _notify_no_payment_method,
    _notify_recurring_success, _notify_recurring_failure,
    _calculate_renewal_cost, period_price.
  keeps.
Qed.

Lemma count_result_cases result :
  count_result result = add_charged \/ count_result result = add_no_method
  \/ count_result result = add_failed \/ count_result result = add_skipped.
Proof.
  unfold count_result.
  destruct (String.eqb result "charged"); [tauto|].
  destruct (String.eqb result "no_method"); [tauto|].
  destruct (String.eqb result "failed"); tauto.
Qed.

(** One subscription: the body of the loop returns, and one outcome counter
    went up by one. *)
Lemma process_one_counts self subscription st :
  exists st',
    process_one self subscription st = (Return tt, st')
    /\ checked (stats st') = checked (stats st)
    /\ outcomes (stats st') = outcomes (stats st) + 1.
Proof.
  unfold process_one, try_except, bind at 1.
  destruct (_process_single_recurring self subscription st)
    as [[result|e] st1] eqn:E;
    apply process_single_recurring_keeps_stats in E.
  - run. eexists. split; [done|]. simpl. rewrite E.
    destruct (count_result_cases result) as [-> | [-> | [-> | ->]]];
      unfold outcomes; simpl; lia.
  - run. eexists. split; [done|]. simpl. rewrite E.
    unfold outcomes; simpl; lia.
Qed.

Lemma for_each_subscription_counts self subscriptions st :
  exists st',
    for_each_subscription self subscriptions st = (Return tt, st')
    /\ checked (stats st') = checked (stats st)
    /\ outcomes (stats st')
       = outcomes (stats st) + Z.of_nat (length subscriptions).
Proof.
  revert st. induction subscriptions as [|s rest IH]; intros st.
  - exists st. simpl. split; [done|]. split; [done|]. lia.
  - destruct (process_one_counts self s st) as (st1 & E1 & Hc1 & Ho1).
    destruct (IH st1) as (st2 & E2 & Hc2 & Ho2).
    exists st2. cbn [for_each_subscription]. unfold bind at 1.
    rewrite E1. split; [done|]. split; [congruence|].
    rewrite Ho2, Ho1. cbn [length]. lia.
Qed.

Lemma for_each_subscription_app self before rest st0 st :
  for_each_subscription self before st0 = (Return tt, st) ->
  for_each_subscription self (before ++ rest) st0
  = for_each_subscription self rest st.
Proof.
  revert st0. induction before as [|s before IH]; intros st0.
  - simpl. by intros [= <-].
  - cbn [for_each_subscription app]. unfold bind.
    destruct (process_one_counts self s st0) as [st1 [-> _]].
    apply IH.
Qed.

Lemma process_recurring_charges_counts self st subscriptions w :
  _get_subscriptions_for_recurring self (world st)
  = (Return subscriptions, w) ->
  exists result st',
    process_recurring_charges self st = (Return result, st')
    /\ checked result = Z.of_nat (length subscriptions)
    /\ charged result + no_method result + failed result + skipped result
       = Z.of_nat (length subscriptions).
Proof.
  intros Hsel. unfold process_recurring_charges.
  unfold bind at 1, update_stats at 1, bind at 1, try_except, bind at 1,
    call at 1.
  cbn [world]. rewrite Hsel.
  destruct subscriptions as [|s rest].
  - run. eexists _, _. split; [done|]. simpl. done.
  - unfold bind at 1, update_stats at 1, bind at 1, log at 1, emit at 1,
      bind at 1.
    match goal with
    | |- context [for_each_subscription self ?l ?s0] =>
        destruct (for_each_subscription_counts self l s0)
          as [st1 [-> [Hc Ho]]]
    end.
    simpl in Hc, Ho. unfold outcomes in Ho. simpl in Ho.
    unfold ret at 1, bind at 1, get_stats at 1.
    destruct ((0 <? charged (stats st1)) || (0 <? failed (stats st1)));
      run; eexists _, _; (split; [done|]); simpl; split; lia.
Qed.

(** The pass never lets an exception out. *)
Lemma process_recurring_charges_returns self st :
  exists result st', process_recurring_charges self st = (Return result, st').
Proof.
  destruct (_get_subscriptions_for_recurring self (world st))
    as [[subscriptions|e] w] eqn:Hsel.
  - destruct (process_recurring_charges_counts self st subscriptions w Hsel)
      as (r & st' & E & _). eauto.
  - unfold process_recurring_charges. run. rewrite Hsel. run. eauto.
Qed.

(** ** One subscription, step by step *)

Lemma truthy_positive amount : 0 < amount -> truthy (Some amount) = Some amount.
Proof. intros Hpos. unfold truthy. destruct (Z.eqb_spec amount 0); [lia|done]. Qed.

Lemma calculate_renewal_cost_quiet self subscription st amount st' :
  _calculate_renewal_cost self subscription st = (Return amount, st') ->
  quiet st st'.
Proof.
  intros E.
  destruct (calculate_renewal_cost_spec self subscription st)
    as (amount' & st'' & E' & Hq).
  rewrite E in E'. by injection E' as <- <-.
Qed.

(** From the charge operation on. *)
Lemma process_single_recurring_at_charge
    self subscription st user saved_method amount description st2 w :
  reaches_charge self subscription st user saved_method amount description
    st2 w ->
  quiet st st2
  /\ _process_single_recurring self subscription st
     = let request :=
         charge_request subscription user saved_method amount description in
       match create_recurring_charge request w with
       | (Raise e, w') => (Raise e, after_charge st2 request w')
       | (Return result, w') =>
           if succeeded result
           then (log (ChargeSucceeded (u_id user) (s_id subscription) amount)
                 >>> _notify_recurring_success self user amount
                 >>> ret "charged") (after_charge st2 request w')
           else (log (ChargeNotSucceeded (u_id user) (s_id subscription)
                        result)
                 >>> _notify_recurring_failure self user amount
                 >>> ret "failed") (after_charge st2 request w')
       end.
Proof.
  intros (Hu & db & w1 & others & Hdb & Hm & Hc & Hpos & Hd). split.
  { apply calculate_renewal_cost_quiet in Hc.
    eapply quiet_trans; [apply (quiet_with_world st w1)|done]. }
  unfold _process_single_recurring. rewrite Hu.
  unfold bind at 1, call at 1. rewrite Hdb, Hm.
  unfold bind at 1.
  change {| world := w1; trace := trace st; stats := stats st |}
    with (with_world st w1).
  rewrite Hc, (truthy_positive _ Hpos).
  destruct (Z.leb_spec amount 0) as [|_]; [lia|].
  unfold bind at 1, call at 1. rewrite Hd.
  unfold bind at 1, bind at 1, emit at 1, call at 1. cbn [world trace stats].
  unfold after_charge.
  destruct (create_recurring_charge _ w) as [[result|e] w'];
    [by destruct (succeeded result)|done].
Qed.

Lemma process_one_of_return self subscription st result st1 :
  _process_single_recurring self subscription st = (Return result, st1) ->
  process_one self subscription st
  = (Return tt,
     {| world := world st1; trace := trace st1;
        stats := count_result result (stats st1) |}).
Proof. intros E. unfold process_one, try_except, bind. by rewrite E. Qed.

Lemma process_one_of_raise self subscription st e st1 :
  _process_single_recurring self subscription st = (Raise e, st1) ->
  process_one self subscription st
  = (Return tt,
     {| world := world st1;
        trace := trace st1 ++ [Log (ChargeError (s_id subscription) e)];
        stats := add_failed (stats st1) |}).
Proof. intros E. unfold process_one, try_except, bind at 1. by rewrite E. Qed.

Lemma succeeded_status (r : gmap string PyVal) :
  r !! "status" = Some (PyStr "succeeded") -> succeeded (Some r) = true.
Proof.
  intros Hs. unfold succeeded.
  rewrite bool_decide_eq_false_2, bool_decide_eq_true_2; [done|done|].
  intros ->. by rewrite lookup_empty in Hs.
Qed.

Lemma no_active_method_empty db user_id :
  (forall m, ~ Crud.active_method db user_id m) ->
  Crud.get_active_saved_methods db user_id = [].
Proof.
  intros Hnone.
  destruct (Crud.get_active_saved_methods db user_id) as [|m l] eqn:E; [done|].
  exfalso. apply (Hnone m).
  apply CrudFacts.get_active_saved_methods_elem. rewrite E. left.
Qed.

(** When the charge operation raises: counted as failed, nothing sent. *)
Lemma process_one_charge_raises
    self subscription st user saved_method amount description st2 w e w' :
  reaches_charge self subscription st user saved_method amount description
    st2 w ->
  create_recurring_charge
    (charge_request subscription user saved_method amount description) w
  = (Raise e, w') ->
  exists st',
    process_one self subscription st = (Return tt, st')
    /\ stats st' = add_failed (stats st)
    /\ sends_of (trace st') = sends_of (trace st)
    /\ charges_of (trace st')
       = charges_of (trace st)
         ++ [charge_request subscription user saved_method amount description].
Proof.
  intros Hreach Hcharge.
  apply process_single_recurring_at_charge in Hreach as [(Hs & Hc & Hm) E].
  cbn zeta in E. rewrite Hcharge in E.
  apply process_one_of_raise in E. eexists. split; [exact E|].
  unfold after_charge. cbn [stats trace].
  rewrite !charges_of_app, !sends_of_app, Hs, Hc, Hm. simpl.
  by rewrite !app_nil_r.
Qed.

(** When the charge operation answers [succeeded]. *)
Lemma process_single_charge_succeeded
    self subscription st user saved_method amount description st2 w r w' :
  reaches_charge self subscription st user saved_method amount description
    st2 w ->
  create_recurring_charge
    (charge_request subscription user saved_method amount description) w
  = (Return (Some r), w') ->
  r !! "status" = Some (PyStr "succeeded") ->
  exists st1,
    _process_single_recurring self subscription st = (Return "charged", st1)
    /\ stats st1 = stats st
    /\ sends_of (trace st1)
       = sends_of (trace st)
         ++ notified self user (SuccessText (format_price amount))
    /\ charges_of (trace st1)
       = charges_of (trace st)
         ++ [charge_request subscription user saved_method amount description].
Proof.
  intros Hreach Hcharge Hstatus.
  apply process_single_recurring_at_charge in Hreach as [(Hs & Hc & Hm) E].
  cbn zeta in E. rewrite Hcharge, (succeeded_status _ Hstatus) in E.
  unfold bind at 1, log at 1, emit at 1, bind at 1 in E.
  match type of E with
  | context [_notify_recurring_success self user amount ?s0] =>
      destruct (notify_recurring_success_spec self user amount s0)
        as (st1 & En & Hs1 & Hc1 & Hm1)
  end.
  rewrite En in E. exists st1. split; [exact E|].
  rewrite Hs1, Hc1, Hm1. unfold after_charge. cbn [stats trace].
  rewrite !charges_of_app, !sends_of_app, Hs, Hc, Hm. simpl.
  by rewrite !app_nil_r.
Qed.

(** Without a saved method. *)
Lemma process_single_no_method self subscription st user db w1 :
  s_user subscription = Some user ->
  db_execute (world st) = (Return db, w1) ->
  Crud.get_active_saved_methods db (u_id user) = [] ->
  exists st1,
    _process_single_recurring self subscription st = (Return "no_method", st1)
    /\ stats st1 = stats st
    /\ sends_of (trace st1)
       = sends_of (trace st) ++ notified self user NoMethodText
    /\ charges_of (trace st1) = charges_of (trace st).
Proof.
  intros Hu Hdb Hm. unfold _process_single_recurring. rewrite Hu.
  unfold bind at 1, call at 1. rewrite Hdb, Hm.
  unfold bind at 1, log at 1, emit at 1, bind at 1.
  match goal with
  | |- context [_notify_no_payment_method self user ?s0] =>
      destruct (notify_no_payment_method_spec self user s0)
        as (st1 & -> & Hs1 & Hc1 & Hm1)
  end.
  exists st1. split; [done|]. rewrite Hs1, Hc1, Hm1. cbn [stats trace].
  rewrite !charges_of_app, !sends_of_app. simpl. by rewrite !app_nil_r.
Qed.

(** Without a usable price. *)
Lemma process_single_no_price
    self subscription st user db w1 saved_method others amount st2 :
  s_user subscription = Some user ->
  db_execute (world st) = (Return db, w1) ->
  Crud.get_active_saved_methods db (u_id user) = saved_method :: others ->
  _calculate_renewal_cost self subscription (with_world st w1)
  = (Return amount, st2) ->
  amount = None \/ (exists a, amount = Some a /\ a <= 0) ->
  exists st1,
    _process_single_recurring self subscription st = (Return "skipped", st1)
    /\ quiet st st1.
Proof.
  intros Hu Hdb Hm Hc Hamount. unfold _process_single_recurring. rewrite Hu.
  unfold bind at 1, call at 1. rewrite Hdb, Hm.
  unfold bind at 1.
  change {| world := w1; trace := trace st; stats := stats st |}
    with (with_world st w1).
  rewrite Hc.
  apply calculate_renewal_cost_quiet in Hc.
  assert (quiet st st2) as Hq
    by (eapply quiet_trans; [apply (quiet_with_world st w1)|done]).
  assert (exists st1,
            (log (CostNotComputed (s_id subscription)) >>> ret "skipped") st2
            = (Return "skipped", st1) /\ quiet st st1) as Hskip.
  { run. eexists. split; [done|]. destruct Hq as (Hs & Hcs & Hms).
    unfold quiet. cbn [stats trace].
    rewrite charges_of_app, sends_of_app. simpl. by rewrite !app_nil_r. }
  destruct Hamount as [->|(a & -> & Ha)]; [exact Hskip|].
  unfold truthy. destruct (Z.eqb_spec a 0); [exact Hskip|].
  destruct (Z.leb_spec a 0); [exact Hskip|lia].
Qed.

(** Whatever the charge operation answers, it was invoked once. *)
Lemma process_single_charges_once
    self subscription st user saved_method amount description st2 w r st1 :
  reaches_charge self subscription st user saved_method amount description
    st2 w ->
  _process_single_recurring self subscription st = (r, st1) ->
  charges_of (trace st1)
  = charges_of (trace st)
    ++ [charge_request subscription user saved_method amount description].
Proof.
  intros Hreach.
  apply process_single_recurring_at_charge in Hreach as [(Hs & Hc & Hm) E].
  cbn zeta in E. rewrite E. clear E.
  assert (forall msg,
    charges_of (trace (after_charge st2
       (charge_request subscription user saved_method amount description) w)
       ++ [Log msg])
    = charges_of (trace st)
      ++ [charge_request subscription user saved_method amount description])
    as Hlogged.
  { intros msg. unfold after_charge. cbn [trace].
    rewrite !charges_of_app, Hc. simpl. by rewrite app_nil_r. }
  destruct (create_recurring_charge _ w) as [[result|e] w1].
  - destruct (succeeded result).
    + unfold bind at 1, log at 1, emit at 1, bind at 1.
      match goal with
      | |- context [_notify_recurring_success self user amount ?s0] =>
          destruct (notify_recurring_success_spec self user amount s0)
            as (st3 & -> & _ & Hc3 & _)
      end.
      intros [= <- <-]. rewrite Hc3. cbn [trace].
      unfold after_charge in Hlogged. cbn [trace] in Hlogged.
      apply Hlogged.
    + unfold bind at 1, log at 1, emit at 1, bind at 1.
      match goal with
      | |- context [_notify_recurring_failure self user amount ?s0] =>
          destruct (notify_recurring_failure_spec self user amount s0)
            as (st3 & -> & _ & Hc3 & _)
      end.
      intros [= <- <-]. rewrite Hc3. cbn [trace].
      unfold after_charge in Hlogged. cbn [trace] in Hlogged.
      apply Hlogged.
  - intros [= <- <-]. unfold after_charge. cbn [trace].
    rewrite charges_of_app, Hc. done.
Qed.

(** ** The selector *)

Lemma minus_days_in_range when days :
  - TIMEDELTA_MAX_DAYS <= days <= TIMEDELTA_MAX_DAYS ->
  0 <= when - days * DAY <= DATETIME_MAX ->
  minus_days when days = Return (when - days * DAY).
Proof.
  intros Hd Ht. unfold minus_days.
  destruct (Z.ltb_spec days (- TIMEDELTA_MAX_DAYS)); [lia|].
  destruct (Z.ltb_spec TIMEDELTA_MAX_DAYS days); [lia|]. simpl.
  destruct (Z.ltb_spec (when - days * DAY) 0); [lia|].
  destruct (Z.ltb_spec DATETIME_MAX (when - days * DAY)); [lia|]. done.
Qed.

Lemma filter_eligible_spec now all_subscriptions acc :
  (forall sub, sub ∈ all_subscriptions -> threshold_representable sub) ->
  exists eligible,
    filter_eligible now all_subscriptions acc = Return eligible
    /\ forall sub,
         sub ∈ eligible <->
         sub ∈ acc
         \/ (sub ∈ all_subscriptions
             /\ exists expires_at,
                  s_expires_at sub = Some expires_at
                  /\ expires_at - or_default (s_autopay_days_before sub) 3 * DAY
                     <= now).
Proof.
  revert acc. induction all_subscriptions as [|x l IH]; intros acc Hrep.
  - exists acc. split; [done|]. intros sub. split; [auto|].
    intros [?|[Hin _]]; [done|]. by apply elem_of_nil in Hin.
  - assert (forall sub, sub ∈ l -> threshold_representable sub) as Hl
      by (intros sub Hin; apply Hrep; by right).
    pose proof (Hrep x ltac:(left)) as Hx. unfold threshold_representable in Hx.
    cbn [filter_eligible].
    destruct (s_expires_at x) as [expires_at|] eqn:Hexp.
    + destruct Hx as [Hd Ht].
      rewrite (minus_days_in_range _ _ Hd Ht).
      destruct (Z.leb_spec
                  (expires_at - or_default (s_autopay_days_before x) 3 * DAY)
                  now) as [Hdue|Hnot].
      * destruct (IH (acc ++ [x]) Hl) as (eligible & -> & Hiff).
        exists eligible. split; [done|]. intros sub. rewrite Hiff.
        rewrite elem_of_app, list_elem_of_singleton, elem_of_cons.
        split.
        -- intros [[?| ->]|[? ?]]; eauto 10.
        -- intros [?|[[->|?] ?]]; eauto 10.
      * destruct (IH acc Hl) as (eligible & -> & Hiff).
        exists eligible. split; [done|]. intros sub. rewrite Hiff.
        rewrite elem_of_cons. split.
        -- intros [?|[? ?]]; eauto 10.
        -- intros [?|[[->|?] (E & HE & Hle)]]; eauto 10.
           rewrite Hexp in HE. injection HE as <-. lia.
    + destruct (IH acc Hl) as (eligible & -> & Hiff).
      exists eligible. split; [done|]. intros sub. rewrite Hiff.
      rewrite elem_of_cons. split.
      -- intros [?|[? ?]]; eauto 10.
      -- intros [?|[[->|?] (E & HE & Hle)]]; eauto 10. congruence.
Qed.

Lemma due_for_autopay_query_true sub expires_at :
  s_status sub = ACTIVE_value -> s_autopay_enabled sub = true ->
  s_expires_at sub = Some expires_at ->
  due_for_autopay_query sub = true.
Proof.
  intros Hs Ha He. unfold due_for_autopay_query.
  by rewrite Hs, Ha, He, String.eqb_refl.
Qed.

(** The selector returns when every threshold can be computed, and then it
    selects a subscription of the query exactly when its threshold has
    passed. *)
Lemma get_subscriptions_for_recurring_spec self w db w' :
  db_execute w = (Return db, w') ->
  (forall sub, sub ∈ subscriptions db -> due_for_autopay_query sub = true ->
               threshold_representable sub) ->
  exists eligible,
    _get_subscriptions_for_recurring self w = (Return eligible, w')
    /\ forall sub expires_at,
         sub ∈ subscriptions db ->
         s_status sub = ACTIVE_value ->
         s_autopay_enabled sub = true ->
         s_expires_at sub = Some expires_at ->
         (sub ∈ eligible <->
          expires_at - or_default (s_autopay_days_before sub) 3 * DAY
          <= now_utc w).
Proof.
  intros Hdb Hrep. unfold _get_subscriptions_for_recurring. rewrite Hdb.
  destruct (filter_eligible_spec (now_utc w)
              (List.filter due_for_autopay_query (subscriptions db)) [])
    as (eligible & -> & Hiff).
  { intros sub Hin.
    apply list_elem_of_In, filter_In in Hin as [Hin Hquery].
    apply Hrep; [by apply list_elem_of_In|done]. }
  exists eligible. split; [done|].
  intros sub expires_at Hin Hs Ha He. rewrite Hiff. split.
  - intros [Hnil|[_ (E & HE & Hle)]]; [by apply elem_of_nil in Hnil|].
    rewrite He in HE. by injection HE as <-.
  - intros Hle. right. split; [|eauto].
    apply list_elem_of_In, filter_In. split; [by apply list_elem_of_In|].
    by eapply due_for_autopay_query_true.
Qed.

(** C3. When the selector returns N subscriptions, the pass returns its
    statistics, whatever raised while the items were processed, with
    checked = N and charged + no_method + failed + skipped = N. *)
Theorem pass_counts_every_subscription self st subscriptions w :
  _get_subscriptions_for_recurring self (world st)
  = (Return subscriptions, w) ->
  exists result st',
    process_recurring_charges self st = (Return result, st')
    /\ checked result = Z.of_nat (length subscriptions)
    /\ charged result + no_method result + failed result + skipped result
       = Z.of_nat (length subscriptions).
Proof. apply process_recurring_charges_counts. Qed.

(** C2, amended. When the charge operation raises for a subscription, the
    subscription counts as failed (failed goes up by one, the other counters
    stay), no message is sent for it, and the loop goes on with the
    subscriptions after it, each of which gets its outcome counted. *)
Theorem charge_exception_counts_failed
    self subscription st user saved_method amount description st2 w e w' :
  reaches_charge self subscription st user saved_method amount description
    st2 w ->
  create_recurring_charge
    (charge_request subscription user saved_method amount description) w
  = (Raise e, w') ->
  exists st',
    process_one self subscription st = (Return tt, st')
    /\ stats st' = add_failed (stats st)
    /\ sends_of (trace st') = sends_of (trace st)
    /\ charges_of (trace st')
       = charges_of (trace st)
         ++ [charge_request subscription user saved_method amount description]
    /\ forall before rest st0,
         for_each_subscription self before st0 = (Return tt, st) ->
         for_each_subscription self (before ++ subscription :: rest) st0
         = for_each_subscription self rest st'
         /\ exists st'',
              for_each_subscription self rest st' = (Return tt, st'')
              /\ outcomes (stats st'')
                 = outcomes (stats st') + Z.of_nat (length rest).
Proof.
  intros Hreach Hcharge.
  destruct (process_one_charge_raises _ _ _ _ _ _ _ _ _ _ _ Hreach Hcharge)
    as (st' & E & Hs & Hm & Hc).
  exists st'. repeat (split; [done|]).
  intros before rest st0 Hbefore. split.
  - rewrite (for_each_subscription_app _ _ _ _ _ Hbefore).
    cbn [for_each_subscription]. unfold bind at 1. by rewrite E.
  - destruct (for_each_subscription_counts self rest st')
      as (st'' & Erest & _ & Ho). eauto.
Qed.

(** C4, amended. When the charge operation returns a result whose status is
    [succeeded], the subscription's outcome is [charged], charged goes up by
    one and the other counters stay, and the success message is handed to the
    bot once if the service has a bot and the user a Telegram id, and not at
    all otherwise. *)
Theorem succeeded_charge_counts_charged
    self subscription st user saved_method amount description st2 w r w' :
  reaches_charge self subscription st user saved_method amount description
    st2 w ->
  create_recurring_charge
    (charge_request subscription user saved_method amount description) w
  = (Return (Some r), w') ->
  r !! "status" = Some (PyStr "succeeded") ->
  exists st1 st',
    _process_single_recurring self subscription st = (Return "charged", st1)
    /\ process_one self subscription st = (Return tt, st')
    /\ stats st' = add_charged (stats st)
    /\ sends_of (trace st')
       = sends_of (trace st)
         ++ match _bot self, truthy (u_telegram_id user) with
            | Some _, Some chat_id =>
                [(chat_id, SuccessText (format_price amount))]
            | _, _ => []
            end.
Proof.
  intros Hreach Hcharge Hstatus.
  destruct (process_single_charge_succeeded _ _ _ _ _ _ _ _ _ _ _
              Hreach Hcharge Hstatus) as (st1 & E & Hs & Hm & Hc).
  eexists st1, _. split; [exact E|].
  split; [by apply process_one_of_return|].
  cbn [stats trace]. rewrite Hs, Hm. split; [done|].
  unfold notified. by destruct (_bot self), (truthy (u_telegram_id user)).
Qed.

(** C5, amended. When the user of a subscription has no active saved
    method, the outcome is [no_method], the charge operation is not invoked,
    and the no-method message is handed to the bot once if the service has a
    bot and the user a Telegram id, and not at all otherwise. *)
Theorem no_saved_method_counts_no_method self subscription st user db w1 :
  s_user subscription = Some user ->
  db_execute (world st) = (Return db, w1) ->
  (forall m, ~ Crud.active_method db (u_id user) m) ->
  exists st1 st',
    _process_single_recurring self subscription st = (Return "no_method", st1)
    /\ process_one self subscription st = (Return tt, st')
    /\ stats st' = add_no_method (stats st)
    /\ charges_of (trace st') = charges_of (trace st)
    /\ sends_of (trace st')
       = sends_of (trace st)
         ++ match _bot self, truthy (u_telegram_id user) with
            | Some _, Some chat_id => [(chat_id, NoMethodText)]
            | _, _ => []
            end.
Proof.
  intros Hu Hdb Hnone. apply no_active_method_empty in Hnone.
  destruct (process_single_no_method self subscription st user db w1
              Hu Hdb Hnone)
    as (st1 & E & Hs & Hm & Hc).
  eexists st1, _. split; [exact E|].
  split; [by apply process_one_of_return|].
  cbn [stats trace]. rewrite Hs, Hm, Hc. split; [done|]. split; [done|].
  unfold notified. by destruct (_bot self), (truthy (u_telegram_id user)).
Qed.

(** C7. When the price calculator, called for a subscription, returns no
    value or an amount that is not positive, the outcome is [skipped], the
    charge operation is not invoked and no message is sent. *)
Theorem unusable_price_is_skipped
    self subscription st user db w1 saved_method others amount st2 :
  s_user subscription = Some user ->
  db_execute (world st) = (Return db, w1) ->
  Crud.get_active_saved_methods db (u_id user) = saved_method :: others ->
  _calculate_renewal_cost self subscription (with_world st w1)
  = (Return amount, st2) ->
  amount = None \/ (exists a, amount = Some a /\ a <= 0) ->
  exists st1 st',
    _process_single_recurring self subscription st = (Return "skipped", st1)
    /\ process_one self subscription st = (Return tt, st')
    /\ stats st' = add_skipped (stats st)
    /\ charges_of (trace st') = charges_of (trace st)
    /\ sends_of (trace st') = sends_of (trace st).
Proof.
  intros Hu Hdb Hm Hc Hamount.
  destruct (process_single_no_price self subscription st user db w1
              saved_method others amount st2 Hu Hdb Hm Hc Hamount)
    as (st1 & E & Hs & Hcs & Hms).
  eexists st1, _. split; [exact E|].
  split; [by apply process_one_of_return|].
  cbn [stats trace]. by rewrite Hs, Hcs, Hms.
Qed.

(** C8. When the query of the selector raises, the pass lets no exception
    out: it logs the error and returns the statistics, all of them zero. *)
Theorem pass_survives_query_failure self st e w :
  db_execute (world st) = (Raise e, w) ->
  process_recurring_charges self st
  = (Return zero_stats,
     {| world := w; trace := trace st ++ [Log (FetchError e)];
        stats := zero_stats |}).
Proof.
  intros Hdb. unfold process_recurring_charges, _get_subscriptions_for_recurring.
  run. rewrite Hdb. by run.
Qed.

(** X29. Let the query of the selector succeed and the threshold of every
    subscription it yields be computable. Then the selector returns, and a
    stored subscription that is active, has autopay enabled and expires at E
    is selected iff now >= E - D days when its lead time is D days, D set and
    not 0, and iff now >= E - 3 days when its lead time is unset. In both
    cases it is not selected one second before that instant and selected at
    it. Nothing is said here of a lead time stored as 0. *)
Theorem selector_selects_when_due self w db w' :
  db_execute w = (Return db, w') ->
  (forall sub, sub ∈ subscriptions db -> due_for_autopay_query sub = true ->
               threshold_representable sub) ->
  exists eligible,
    _get_subscriptions_for_recurring self w = (Return eligible, w')
    /\ forall sub E,
         sub ∈ subscriptions db ->
         s_status sub = ACTIVE_value ->
         s_autopay_enabled sub = true ->
         s_expires_at sub = Some E ->
         (forall D, s_autopay_days_before sub = Some D -> D <> 0 ->
            (sub ∈ eligible <-> E - D * DAY <= now_utc w)
            /\ (now_utc w = E - D * DAY - SECOND -> sub ∉ eligible)
            /\ (now_utc w = E - D * DAY -> sub ∈ eligible))
         /\ (s_autopay_days_before sub = None ->
            (sub ∈ eligible <-> E - 3 * DAY <= now_utc w)
            /\ (now_utc w = E - 3 * DAY - SECOND -> sub ∉ eligible)
            /\ (now_utc w = E - 3 * DAY -> sub ∈ eligible)).
Proof.
  intros Hdb Hrep.
  destruct (get_subscriptions_for_recurring_spec self w db w' Hdb Hrep)
    as (eligible & E & Hiff).
  exists eligible. split; [exact E|].
  intros sub expires_at Hin Hs Ha He.
  specialize (Hiff sub expires_at Hin Hs Ha He).
  assert (0 < SECOND) as Hsec by done.
  split.
  - intros D HD Hne. rewrite HD in Hiff. unfold or_default, truthy in Hiff.
    destruct (Z.eqb_spec D 0); [done|].
    split; [exact Hiff|]. rewrite Hiff. lia.
  - intros Hunset.
    assert (or_default (s_autopay_days_before sub) 3 = 3) as Hd
      by (by rewrite Hunset).
    rewrite Hd in Hiff. split; [exact Hiff|]. rewrite Hiff. lia.
Qed.

(** C6. With the query answered from a database in which [newest] is an
    active method of the subscription's user, created after every other
    active method of that user ([older] being one of them): the resolver's
    result is ordered newest first, [newest] is at its index 0, and the
    charge operation is invoked once, with the id of [newest]. *)
Theorem newest_method_is_charged
    self subscription st user db w1 older newest amount description st2 w :
  s_user subscription = Some user ->
  db_execute (world st) = (Return db, w1) ->
  Crud.active_method db (u_id user) older ->
  Crud.active_method db (u_id user) newest ->
  m_created_at older < m_created_at newest ->
  (forall m, Crud.active_method db (u_id user) m ->
             m = newest \/ m_created_at m < m_created_at newest) ->
  _calculate_renewal_cost self subscription (with_world st w1)
  = (Return (Some amount), st2) ->
  0 < amount ->
  get_subscription_payment_description amount (world st2)
  = (Return description, w) ->
  StronglySorted Crud.newer_or_equal
    (Crud.get_active_saved_methods db (u_id user))
  /\ Crud.get_active_saved_methods db (u_id user) !! 0%nat = Some newest
  /\ forall r st1,
       _process_single_recurring self subscription st = (r, st1) ->
       exists request,
         charges_of (trace st1) = charges_of (trace st) ++ [request]
         /\ c_saved_method_id request = m_id newest
         /\ request
            = charge_request subscription user newest amount description.
Proof.
  intros Hu Hdb _ Hnewest _ Hmax Hc Hpos Hd.
  split; [apply CrudFacts.get_active_saved_methods_sorted|].
  destruct (CrudFacts.get_active_saved_methods_head db (u_id user) newest)
    as (rest & Hhead).
  { by apply CrudFacts.get_active_saved_methods_elem. }
  { intros m Hm. apply Hmax.
    by apply CrudFacts.get_active_saved_methods_elem. }
  split; [by rewrite Hhead|].
  intros r st1 E.
  exists (charge_request subscription user newest amount description).
  split; [|done].
  eapply process_single_charges_once; [|exact E].
  split; [done|]. eauto 10.
Qed.

(** ** Every way one subscription can go *)

Lemma notified_length self user text :
  (length (notified self user text) <= 1)%nat.
Proof.
  unfold notified.
  destruct (_bot self), (truthy (u_telegram_id user)); simpl; lia.
Qed.

Lemma succeeded_true result :
  succeeded result = true ->
  exists r, result = Some r /\ r !! "status" = Some (PyStr "succeeded").
Proof.
  destruct result as [r|]; [|done]. simpl. intros Hs.
  apply andb_true_iff in Hs as [_ Hs]. apply bool_decide_eq_true in Hs. eauto.
Qed.

Lemma process_single_no_user self subscription st :
  s_user subscription = None ->
  _process_single_recurring self subscription st
  = (Return "skipped",
     {| world := world st;
        trace := trace st ++ [Log (UserNotFound (s_id subscription))];
        stats := stats st |}).
Proof. intros Hu. unfold _process_single_recurring. by rewrite Hu. Qed.

Lemma process_single_db_raises self subscription st user e w1 :
  s_user subscription = Some user ->
  db_execute (world st) = (Raise e, w1) ->
  _process_single_recurring self subscription st
  = (Raise e, with_world st w1).
Proof.
  intros Hu Hdb. unfold _process_single_recurring. rewrite Hu.
  unfold bind at 1, call at 1. by rewrite Hdb.
Qed.

Lemma process_single_description_raises
    self subscription st user db w1 saved_method others amount st2 e w :
  s_user subscription = Some user ->
  db_execute (world st) = (Return db, w1) ->
  Crud.get_active_saved_methods db (u_id user) = saved_method :: others ->
  _calculate_renewal_cost self subscription (with_world st w1)
  = (Return (Some amount), st2) ->
  0 < amount ->
  get_subscription_payment_description amount (world st2) = (Raise e, w) ->
  _process_single_recurring self subscription st
  = (Raise e, with_world st2 w)
  /\ quiet st st2.
Proof.
  intros Hu Hdb Hm Hc Hpos Hd. split.
  - unfold _process_single_recurring. rewrite Hu.
    unfold bind at 1, call at 1. rewrite Hdb, Hm.
    unfold bind at 1.
    change {| world := w1; trace := trace st; stats := stats st |}
      with (with_world st w1).
    rewrite Hc, (truthy_positive _ Hpos).
    destruct (Z.leb_spec amount 0) as [|_]; [lia|].
    unfold bind at 1, call at 1. by rewrite Hd.
  - apply calculate_renewal_cost_quiet in Hc.
    eapply quiet_trans; [apply (quiet_with_world st w1)|done].
Qed.

(** When the charge operation returns anything but a succeeded result. *)
Lemma process_single_charge_not_succeeded
    self subscription st user saved_method amount description st2 w result
    w' :
  reaches_charge self subscription st user saved_method amount description
    st2 w ->
  create_recurring_charge
    (charge_request subscription user saved_method amount description) w
  = (Return result, w') ->
  succeeded result = false ->
  exists st1,
    _process_single_recurring self subscription st = (Return "failed", st1)
    /\ stats st1 = stats st
    /\ sends_of (trace st1)
       = sends_of (trace st)
         ++ notified self user (FailureText (format_price amount))
    /\ charges_of (trace st1)
       = charges_of (trace st)
         ++ [charge_request subscription user saved_method amount description].
Proof.
  intros Hreach Hcharge Hnot.
  apply process_single_recurring_at_charge in Hreach as [(Hs & Hc & Hm) E].
  cbn zeta in E. rewrite Hcharge, Hnot in E.
  unfold bind at 1, log at 1, emit at 1, bind at 1 in E.
  match type of E with
  | context [_notify_recurring_failure self user amount ?s0] =>
      destruct (notify_recurring_failure_spec self user amount s0)
        as (st1 & En & Hs1 & Hc1 & Hm1)
  end.
  rewrite En in E. exists st1. split; [exact E|].
  rewrite Hs1, Hc1, Hm1. unfold after_charge. cbn [stats trace].
  rewrite !charges_of_app, !sends_of_app, Hs, Hc, Hm. simpl.
  by rewrite !app_nil_r.
Qed.

(** The result of one subscription, with the charges and messages it added:
    a label with at most one charge and one message, or an exception with at
    most one charge and no message. *)
Lemma process_single_cases self subscription st :
  exists r st1 cs ms,
    _process_single_recurring self subscription st = (r, st1)
    /\ stats st1 = stats st
    /\ charges_of (trace st1) = charges_of (trace st) ++ cs
    /\ sends_of (trace st1) = sends_of (trace st) ++ ms
    /\ Forall (fun c => 0 < c_amount_kopeks c) cs
    /\ match r with
       | Raise _ => (length cs <= 1)%nat /\ ms = []
       | Return label =>
           (label = "charged" /\ length cs = 1%nat /\ (length ms <= 1)%nat)
           \/ (label = "no_method" /\ cs = [] /\ (length ms <= 1)%nat)
           \/ (label = "failed" /\ length cs = 1%nat /\ (length ms <= 1)%nat)
           \/ (label = "skipped" /\ cs = [] /\ ms = [])
       end.
Proof.
  destruct (s_user subscription) as [user|] eqn:Hu.
  2:{ rewrite (process_single_no_user _ _ _ Hu).
      eexists _, _, [], []. split; [done|]. cbn [stats trace].
      rewrite charges_of_app, sends_of_app. simpl.
      repeat (split; [done|]). auto 10. }
  destruct (db_execute (world st)) as [[db|e] w1] eqn:Hdb.
  2:{ rewrite (process_single_db_raises _ _ _ _ _ _ Hu Hdb).
      eexists _, _, [], []. split; [done|]. cbn [stats trace with_world].
      rewrite !app_nil_r. repeat (split; [done|]). simpl. split; [lia|done]. }
  destruct (Crud.get_active_saved_methods db (u_id user))
    as [|saved_method others] eqn:Hm.
  { destruct (process_single_no_method self subscription st user db w1
                Hu Hdb Hm) as (st1 & -> & Hs & Hms & Hcs).
    eexists _, st1, [], _. split; [done|]. split; [done|].
    rewrite app_nil_r. split; [done|]. split; [exact Hms|].
    split; [done|]. right. left. split; [done|]. split; [done|].
    apply notified_length. }
  destruct (calculate_renewal_cost_spec self subscription (with_world st w1))
    as (amount & st2 & Hc & Hq2).
  assert (amount = None \/ (exists a, amount = Some a /\ a <= 0)
          \/ (exists a, amount = Some a /\ 0 < a)) as [Hnone|[Hlow|Hpos]].
  { destruct amount as [a|]; [|by left]. right.
    destruct (Z.le_gt_cases a 0); [left|right]; eauto. }
  1,2: destruct (process_single_no_price self subscription st user db w1
                   saved_method others amount st2 Hu Hdb Hm Hc)
         as (st1 & -> & Hs & Hcs & Hms); [tauto|];
       eexists _, st1, [], []; split; [done|]; rewrite !app_nil_r;
       repeat (split; [done|]); auto 10.
  destruct Hpos as (a & -> & Hpos).
  destruct (get_subscription_payment_description a (world st2))
    as [[description|e] w] eqn:Hd.
  2:{ destruct (process_single_description_raises self subscription st user
                  db w1 saved_method others a st2 e w Hu Hdb Hm Hc Hpos Hd)
        as [-> (Hs & Hcs & Hms)].
      eexists _, _, [], []. split; [done|]. cbn [stats trace with_world].
      rewrite !app_nil_r. repeat (split; [done|]). simpl. split; [lia|done]. }
  assert (reaches_charge self subscription st user saved_method a description
            st2 w) as Hreach
    by (split; [done|]; eauto 10).
  assert (Forall (fun c => 0 < c_amount_kopeks c)
            [charge_request subscription user saved_method a description])
    as Hamount by (by constructor).
  destruct (create_recurring_charge
              (charge_request subscription user saved_method a description) w)
    as [[result|e] w'] eqn:Hcharge.
  - destruct (succeeded result) eqn:Hsucc.
    + apply succeeded_true in Hsucc as (r & -> & Hstatus).
      destruct (process_single_charge_succeeded _ _ _ _ _ _ _ _ _ _ _
                  Hreach Hcharge Hstatus) as (st1 & -> & Hs & Hms & Hcs).
      eexists _, st1, _, _. split; [done|]. split; [done|].
      split; [exact Hcs|]. split; [exact Hms|]. split; [done|].
      left. split; [done|]. split; [done|]. apply notified_length.
    + destruct (process_single_charge_not_succeeded _ _ _ _ _ _ _ _ _ _ _
                  Hreach Hcharge Hsucc) as (st1 & -> & Hs & Hms & Hcs).
      eexists _, st1, _, _. split; [done|]. split; [done|].
      split; [exact Hcs|]. split; [exact Hms|]. split; [done|].
      right. right. left. split; [done|]. split; [done|].
      apply notified_length.
  - pose proof Hreach as Hreach'.
    apply process_single_recurring_at_charge in Hreach' as [(Hs & Hcs & Hms) E].
    cbn zeta in E. rewrite Hcharge in E. rewrite E.
    eexists _, _,
      [charge_request subscription user saved_method a description], [].
    split; [done|]. unfold after_charge.
    cbn [stats trace]. rewrite charges_of_app, sends_of_app, Hs, Hcs, Hms.
    simpl. rewrite !app_nil_r. split; [done|]. split; [done|].
    split; [done|]. split; [done|]. simpl. split; [lia|done].
Qed.

Lemma process_one_cases self subscription st :
  exists st' cs ms,
    process_one self subscription st = (Return tt, st')
    /\ charges_of (trace st') = charges_of (trace st) ++ cs
    /\ sends_of (trace st') = sends_of (trace st) ++ ms
    /\ Forall (fun c => 0 < c_amount_kopeks c) cs
    /\ accounted (stats st) (stats st')
         (Z.of_nat (length cs)) (Z.of_nat (length ms)).
Proof.
  destruct (process_single_cases self subscription st)
    as (r & st1 & cs & ms & E & Hs & Hcs & Hms & Hpos & Hcase).
  destruct r as [label|e].
  - rewrite (process_one_of_return _ _ _ _ _ E).
    eexists _, cs, ms. split; [done|]. cbn [stats trace].
    repeat (split; [done|]). rewrite Hs.
    destruct Hcase as [(-> & Hc & Hm)|[(-> & -> & Hm)|[(-> & Hc & Hm)
                      |(-> & -> & ->)]]];
      unfold accounted, count_result; simpl; lia.
  - rewrite (process_one_of_raise _ _ _ _ _ E).
    eexists _, cs, ms. split; [done|]. cbn [stats trace].
    rewrite charges_of_app, sends_of_app. simpl. rewrite !app_nil_r.
    repeat (split; [done|]). rewrite Hs. destruct Hcase as [Hc ->].
    unfold accounted. simpl. lia.
Qed.

Lemma accounted_trans s1 s2 s3 c1 c2 m1 m2 :
  accounted s1 s2 c1 m1 -> accounted s2 s3 c2 m2 ->
  accounted s1 s3 (c1 + c2) (m1 + m2).
Proof. unfold accounted. lia. Qed.

Lemma for_each_subscription_cases self subscriptions st :
  exists st' cs ms,
    for_each_subscription self subscriptions st = (Return tt, st')
    /\ charges_of (trace st') = charges_of (trace st) ++ cs
    /\ sends_of (trace st') = sends_of (trace st) ++ ms
    /\ Forall (fun c => 0 < c_amount_kopeks c) cs
    /\ accounted (stats st) (stats st')
         (Z.of_nat (length cs)) (Z.of_nat (length ms)).
Proof.
  revert st. induction subscriptions as [|s rest IH]; intros st.
  - exists st, [], []. simpl. rewrite !app_nil_r.
    repeat (split; [done|]). unfold accounted. lia.
  - destruct (process_one_cases self s st)
      as (st1 & cs1 & ms1 & E1 & Hc1 & Hm1 & Hp1 & Ha1).
    destruct (IH st1) as (st2 & cs2 & ms2 & E2 & Hc2 & Hm2 & Hp2 & Ha2).
    exists st2, (cs1 ++ cs2), (ms1 ++ ms2).
    cbn [for_each_subscription]. unfold bind at 1. rewrite E1.
    split; [done|]. rewrite Hc2, Hc1, Hm2, Hm1, !app_assoc.
    split; [done|]. split; [done|].
    split; [by apply Forall_app|].
    rewrite !length_app, !Nat2Z.inj_add. by eapply accounted_trans.
Qed.

(** The three ways a pass can go. *)
Lemma process_recurring_charges_shape self st :
  (exists e w,
     _get_subscriptions_for_recurring self (world st) = (Raise e, w)
     /\ process_recurring_charges self st
        = (Return zero_stats,
           {| world := w; trace := trace st ++ [Log (FetchError e)];
              stats := zero_stats |}))
  \/ (exists w,
        _get_subscriptions_for_recurring self (world st) = (Return [], w)
        /\ process_recurring_charges self st
           = (Return zero_stats,
              {| world := w; trace := trace st ++ [Log NoSubscriptions];
                 stats := zero_stats |}))
  \/ (exists subscriptions w st1,
        _get_subscriptions_for_recurring self (world st)
        = (Return subscriptions, w)
        /\ subscriptions <> []
        /\ for_each_subscription self subscriptions
             {| world := w;
                trace := trace st
                         ++ [Log (FoundSubscriptions
                                    (Z.of_nat (length subscriptions)))];
                stats := set_checked (Z.of_nat (length subscriptions))
                           zero_stats |}
           = (Return tt, st1)
        /\ process_recurring_charges self st
           = (Return (stats st1),
              {| world := world st1;
                 trace := trace st1
                          ++ (if worth_a_summary (stats st1)
                              then [Log (Results (stats st1))] else []);
                 stats := stats st1 |})).
Proof.
  assert (forall r w,
    _get_subscriptions_for_recurring self (world st) = (r, w) ->
    process_recurring_charges self st
    = (let! returned :=
         try_except
           (let! subscriptions := ret_outcome r in
            update_stats (set_checked (Z.of_nat (length subscriptions))) >>>
            match subscriptions with
            | [] => log NoSubscriptions >>> ret true
            | _ =>
                log (FoundSubscriptions (Z.of_nat (length subscriptions))) >>>
                for_each_subscription self subscriptions >>>
                ret false
            end)
           (fun e => log (FetchError e) >>> ret false) in
       let! stats := get_stats in
       if returned then ret stats
       else
         (if (0 <? charged stats) || (0 <? failed stats)
          then log (Results stats) else ret tt) >>>
         ret stats)
        {| world := w; trace := trace st; stats := zero_stats |}) as Hpass.
  { intros r w Hsel. unfold process_recurring_charges.
    unfold bind at 1, update_stats at 1, bind at 1, try_except, bind at 1,
      call at 1.
    cbn [world]. rewrite Hsel.
    unfold bind at 3, try_except, bind at 3, ret_outcome.
    by destruct r. }
  destruct (_get_subscriptions_for_recurring self (world st))
    as [[subscriptions|e] w] eqn:Hsel;
    rewrite (Hpass _ _ eq_refl); clear Hpass.
  - destruct subscriptions as [|s rest].
    + right. left. exists w. split; [done|]. by run.
    + right. right.
      unfold bind at 1, try_except, bind at 1, ret_outcome, bind at 1,
        update_stats at 1, bind at 1, log at 1, emit at 1, bind at 1.
      cbn [world trace stats].
      match goal with
      | |- context [for_each_subscription self ?l ?s0] =>
          destruct (for_each_subscription_counts self l s0)
            as [st1 [E _]]
      end.
      exists (s :: rest), w, st1. split; [done|]. split; [done|].
      split; [exact E|]. rewrite E.
      unfold ret at 1, bind at 1, get_stats at 1, worth_a_summary.
      destruct ((0 <? charged (stats st1)) || (0 <? failed (stats st1)));
        run; [done|]. rewrite app_nil_r. by destruct st1.
  - left. exists e, w. split; [done|]. by run.
Qed.

(** What a whole pass adds to the trace and to the counters. *)
Lemma process_recurring_charges_effects self st :
  exists result st' cs ms,
    process_recurring_charges self st = (Return result, st')
    /\ charges_of (trace st') = charges_of (trace st) ++ cs
    /\ sends_of (trace st') = sends_of (trace st) ++ ms
    /\ Forall (fun c => 0 < c_amount_kopeks c) cs
    /\ accounted zero_stats result
         (Z.of_nat (length cs)) (Z.of_nat (length ms))
    /\ outcomes result = checked result.
Proof.
  destruct (process_recurring_charges_shape self st)
    as [(e & w & _ & ->)|[(w & _ & ->)|(subs & w & st1 & _ & _ & E & ->)]].
  - exists zero_stats; eexists _, [], []. split; [done|]. cbn [trace].
    rewrite charges_of_app, sends_of_app. simpl.
    split; [done|]. split; [done|]. split; [done|].
    split; [unfold accounted; simpl; lia|done].
  - exists zero_stats; eexists _, [], []. split; [done|]. cbn [trace].
    rewrite charges_of_app, sends_of_app. simpl.
    split; [done|]. split; [done|]. split; [done|].
    split; [unfold accounted; simpl; lia|done].
  - match type of E with
    | for_each_subscription self subs ?s0 = _ =>
        destruct (for_each_subscription_cases self subs s0)
          as (st1' & cs & ms & E' & Hc & Hm & Hp & Ha);
        destruct (for_each_subscription_counts self subs s0)
          as (st1'' & E'' & Hck & Ho)
    end.
    rewrite E in E', E''. injection E' as <-. injection E'' as <-.
    cbn [trace stats] in Hc, Hm, Ha, Hck, Ho.
    eexists _, _, cs, ms. split; [done|]. cbn [trace].
    rewrite !charges_of_app, !sends_of_app in *. simpl in Hc, Hm.
    rewrite !app_nil_r in Hc, Hm.
    assert (charges_of (if worth_a_summary (stats st1)
                        then [Log (Results (stats st1))] else []) = []) as ->
      by (by destruct (worth_a_summary (stats st1))).
    assert (sends_of (if worth_a_summary (stats st1)
                      then [Log (Results (stats st1))] else []) = []) as ->
      by (by destruct (worth_a_summary (stats st1))).
    rewrite !app_nil_r. split; [done|]. split; [done|]. split; [done|].
    split.
    + unfold accounted in *. simpl in *. lia.
    + unfold outcomes in *. simpl in *. lia.
Qed.

(** ** What gets into the log *)

Lemma summaries_of_app (a b : list Event) :
  summaries_of (a ++ b) = summaries_of a ++ summaries_of b.
Proof.
  induction a as [|[| |[]]]; simpl; try done. by f_equal.
Qed.

Lemma no_summary_ret {A} (a : A) : no_summary (World:=World) (ret a).
Proof. intros st r st' [= <- <-]. exists []. by rewrite app_nil_r. Qed.

Lemma no_summary_emit ev :
  summaries_of [ev] = [] -> no_summary (World:=World) (emit ev).
Proof. intros Hev st r st' [= <- <-]. by exists [ev]. Qed.

Lemma no_summary_call {A} (f : World -> Outcome A * World) :
  no_summary (call f).
Proof.
  intros st r st'. unfold call. destruct (f (world st)).
  intros [= <- <-]. exists []. by rewrite app_nil_r.
Qed.

Lemma no_summary_update f : no_summary (World:=World) (update_stats f).
Proof. intros st r st' [= <- <-]. exists []. by rewrite app_nil_r. Qed.

Lemma no_summary_bind {A B} (m : @M World A) (k : A -> @M World B) :
  no_summary m -> (forall a, no_summary (k a)) -> no_summary (bind m k).
Proof.
  intros Hm Hk st r st'. unfold bind.
  destruct (m st) as [[a|e] st1] eqn:E; apply Hm in E as (n1 & E1 & H1).
  - intros Hka. apply Hk in Hka as (n2 & E2 & H2).
    exists (n1 ++ n2). rewrite E2, E1, app_assoc, summaries_of_app, H1, H2.
    done.
  - intros [= <- <-]. eauto.
Qed.

Lemma no_summary_try {A} (m : @M World A) (handler : Exn -> @M World A) :
  no_summary m -> (forall e, no_summary (handler e)) ->
  no_summary (try_except m handler).
Proof.
  intros Hm Hh st r st'. unfold try_except.
  destruct (m st) as [[a|e] st1] eqn:E; apply Hm in E as (n1 & E1 & H1).
  - intros [= <- <-]. eauto.
  - intros Hhe. apply Hh in Hhe as (n2 & E2 & H2).
    exists (n1 ++ n2). rewrite E2, E1, app_assoc, summaries_of_app, H1, H2.
    done.
Qed.

Ltac no_summaries :=
  repeat first
    [ apply no_summary_ret | apply no_summary_call | apply no_summary_update
    | apply no_summary_emit; reflexivity
    | apply no_summary_bind; [|intros ?]
    | apply no_summary_try; [|intros ?]
    | match goal with
      | |- no_summary (match ?x with _ => _ end) => destruct x
      end ].

Lemma process_one_no_summary self subscription :
  no_summary (process_one self subscription).
Proof.
  unfold process_one, _process_single_recurring, _notify_no_payment_method,
    _notify_recurring_success, _notify_recurring_failure,
    _calculate_renewal_cost, period_price, log.
  no_summaries.
Qed.

Lemma for_each_subscription_no_summary self subscriptions :
  no_summary (for_each_subscription self subscriptions).
Proof.
  induction subscriptions as [|s rest IH]; cbn [for_each_subscription].
  - apply no_summary_ret.
  - apply no_summary_bind; [apply process_one_no_summary|by intros _].
Qed.

Lemma process_recurring_charges_summary self st :
  exists result st' new,
    process_recurring_charges self st = (Return result, st')
    /\ trace st' = trace st ++ new
    /\ summaries_of new = if worth_a_summary result then [result] else [].
Proof.
  destruct (process_recurring_charges_shape self st)
    as [(e & w & _ & ->)|[(w & _ & ->)|(subs & w & st1 & _ & _ & E & ->)]].
  - by eexists _, _, [_].
  - by eexists _, _, [_].
  - apply for_each_subscription_no_summary in E as (new & E & Hnew).
    cbn [trace] in E. eexists _, _, _. split; [done|]. cbn [trace].
    rewrite E, <- !app_assoc. split; [done|].
    rewrite !summaries_of_app, Hnew. simpl.
    by destruct (worth_a_summary (stats st1)).
Qed.

(** ** More about the selector *)

Lemma minus_days_return when days threshold :
  minus_days when days = Return threshold -> threshold = when - days * DAY.
Proof.
  unfold minus_days.
  destruct ((days <? - TIMEDELTA_MAX_DAYS) || (TIMEDELTA_MAX_DAYS <? days));
    [done|]. cbn zeta.
  destruct ((when - days * DAY <? 0) || (DATETIME_MAX <? when - days * DAY));
    [done|]. by intros [= <-].
Qed.

Lemma minus_days_raise when days e :
  minus_days when days = Raise e -> e = OverflowError.
Proof.
  unfold minus_days.
  destruct ((days <? - TIMEDELTA_MAX_DAYS) || (TIMEDELTA_MAX_DAYS <? days));
    [by intros [= <-]|]. cbn zeta.
  destruct ((when - days * DAY <? 0) || (DATETIME_MAX <? when - days * DAY));
    [by intros [= <-]|done].
Qed.

Lemma minus_days_out_of_range when days :
  ~ (- TIMEDELTA_MAX_DAYS <= days <= TIMEDELTA_MAX_DAYS
     /\ 0 <= when - days * DAY <= DATETIME_MAX) ->
  minus_days when days = Raise OverflowError.
Proof.
  intros Hout. unfold minus_days.
  destruct (Z.ltb_spec days (- TIMEDELTA_MAX_DAYS)); [done|].
  destruct (Z.ltb_spec TIMEDELTA_MAX_DAYS days); [done|]. simpl.
  destruct (Z.ltb_spec (when - days * DAY) 0); [done|].
  destruct (Z.ltb_spec DATETIME_MAX (when - days * DAY)); [done|].
  exfalso. apply Hout. lia.
Qed.

Lemma filter_sublist {A} (f : A -> bool) (l : list A) :
  sublist (List.filter f l) l.
Proof.
  induction l as [|x l IH]; simpl; [constructor|].
  destruct (f x); by constructor.
Qed.

Lemma filter_eligible_sound now all_subscriptions acc eligible :
  filter_eligible now all_subscriptions acc = Return eligible ->
  exists picked,
    eligible = acc ++ picked
    /\ sublist picked all_subscriptions
    /\ forall sub, sub ∈ picked ->
         exists expires_at,
           s_expires_at sub = Some expires_at
           /\ expires_at - or_default (s_autopay_days_before sub) 3 * DAY
              <= now.
Proof.
  revert acc. induction all_subscriptions as [|x l IH]; intros acc.
  - simpl. intros [= <-]. exists []. rewrite app_nil_r.
    split; [done|]. split; [constructor|]. intros sub Hin.
    by apply elem_of_nil in Hin.
  - cbn [filter_eligible].
    destruct (s_expires_at x) as [expires_at|] eqn:Hexp.
    + destruct (minus_days expires_at
                  (or_default (s_autopay_days_before x) 3))
        as [threshold|e] eqn:Hminus; [|done].
      apply minus_days_return in Hminus as ->.
      destruct (Z.leb_spec
                  (expires_at - or_default (s_autopay_days_before x) 3 * DAY)
                  now) as [Hdue|Hnot].
      * intros Hrest. apply IH in Hrest as (picked & -> & Hsub & Hall).
        exists (x :: picked). rewrite <- app_assoc. split; [done|].
        split; [by constructor|].
        intros sub Hin. apply elem_of_cons in Hin as [-> | Hin]; eauto.
      * intros Hrest. apply IH in Hrest as (picked & -> & Hsub & Hall).
        exists picked. split; [done|]. split; [by constructor|done].
    + intros Hrest. apply IH in Hrest as (picked & -> & Hsub & Hall).
      exists picked. split; [done|]. split; [by constructor|done].
Qed.

Lemma filter_eligible_overflow now all_subscriptions acc bad :
  bad ∈ all_subscriptions -> ~ threshold_representable bad ->
  filter_eligible now all_subscriptions acc = Raise OverflowError.
Proof.
  revert acc. induction all_subscriptions as [|x l IH]; intros acc Hin Hbad.
  - by apply elem_of_nil in Hin.
  - cbn [filter_eligible].
    destruct (s_expires_at x) as [expires_at|] eqn:Hexp.
    + destruct (minus_days expires_at
                  (or_default (s_autopay_days_before x) 3))
        as [threshold|e] eqn:Hminus.
      * apply elem_of_cons in Hin as [-> | Hin].
        { exfalso. unfold threshold_representable in Hbad.
          rewrite Hexp in Hbad. cbn zeta in Hbad.
          rewrite (minus_days_out_of_range _ _ Hbad) in Hminus. done. }
        destruct (_ <=? now); by apply IH.
      * by apply minus_days_raise in Hminus as ->.
    + apply elem_of_cons in Hin as [-> | Hin].
      { exfalso. apply Hbad. unfold threshold_representable. by rewrite Hexp. }
      by apply IH.
Qed.

Lemma due_for_autopay_query_sound sub :
  due_for_autopay_query sub = true ->
  s_status sub = ACTIVE_value /\ s_autopay_enabled sub = true
  /\ s_expires_at sub <> None.
Proof.
  unfold due_for_autopay_query. rewrite !andb_true_iff.
  intros [[Hs Ha] He]. apply String.eqb_eq in Hs.
  apply bool_decide_eq_true in He. done.
Qed.

Lemma get_subscriptions_for_recurring_sound self w eligible w' :
  _get_subscriptions_for_recurring self w = (Return eligible, w') ->
  exists db,
    db_execute w = (Return db, w')
    /\ sublist eligible (subscriptions db)
    /\ forall sub, sub ∈ eligible ->
         due_for_autopay_query sub = true
         /\ exists expires_at,
              s_expires_at sub = Some expires_at
              /\ expires_at - or_default (s_autopay_days_before sub) 3 * DAY
                 <= now_utc w.
Proof.
  unfold _get_subscriptions_for_recurring.
  destruct (db_execute w) as [[db|e] w1]; [|done].
  intros [= Hf <-]. exists db. split; [done|].
  apply filter_eligible_sound in Hf as (picked & -> & Hsub & Hall).
  simpl. split.
  - etrans; [exact Hsub|apply filter_sublist].
  - intros sub Hin. split; [|by apply Hall].
    assert (sub ∈ List.filter due_for_autopay_query (subscriptions db))
      as Hq by (eapply elem_of_submseteq, sublist_submseteq; done).
    by apply list_elem_of_In, filter_In in Hq as [_ ?].
Qed.

Lemma get_subscriptions_for_recurring_overflow self w db w' bad :
  db_execute w = (Return db, w') ->
  bad ∈ subscriptions db -> due_for_autopay_query bad = true ->
  ~ threshold_representable bad ->
  _get_subscriptions_for_recurring self w = (Raise OverflowError, w').
Proof.
  intros Hdb Hin Hq Hbad. unfold _get_subscriptions_for_recurring.
  rewrite Hdb. f_equal. apply (filter_eligible_overflow _ _ _ bad); [|done].
  apply list_elem_of_In, filter_In. split; [by apply list_elem_of_In|done].
Qed.

(** ** More about the price *)

Lemma period_price_some period_days st a st' :
  period_price period_days st = (Return (Some a), st') ->
  0 < a
  /\ get_period_price_kopeks period_days (world st)
     = (Return (Some a), world st')
  /\ trace st' = trace st.
Proof.
  unfold period_price, bind, call, ret.
  destruct (get_period_price_kopeks period_days (world st))
    as [[[p|]|e] w]; simpl; try done.
  unfold truthy. destruct (p =? 0); [done|].
  destruct (Z.ltb_spec 0 p); [|done]. by intros [= <- <-].
Qed.

Lemma calculate_renewal_cost_fallback self subscription st a st' :
  truthy (s_tariff_id subscription) = None ->
  _calculate_renewal_cost self subscription st = (Return (Some a), st') ->
  0 < a
  /\ get_period_price_kopeks 30 (world st) = (Return (Some a), world st')
  /\ trace st' = trace st.
Proof.
  intros Hnone. unfold _calculate_renewal_cost. rewrite Hnone.
  unfold try_except.
  destruct (period_price 30 st) as [[p|e] st1] eqn:Hp.
  - intros [= -> <-]. by apply period_price_some in Hp.
  - by run.
Qed.

(** X11. The selector selects no subscription that is not active, none with
    autopay disabled, none without an expiry time and none whose threshold
    (expiry minus lead time) is still ahead, whatever else is stored. *)
Theorem selector_never_selects_unqualified self w eligible w' sub :
  _get_subscriptions_for_recurring self w = (Return eligible, w') ->
  sub ∈ eligible ->
  s_status sub = ACTIVE_value
  /\ s_autopay_enabled sub = true
  /\ exists expires_at,
       s_expires_at sub = Some expires_at
       /\ expires_at - or_default (s_autopay_days_before sub) 3 * DAY
          <= now_utc w.
Proof.
  intros Hsel Hin.
  apply get_subscriptions_for_recurring_sound in Hsel as (db & _ & _ & Hall).
  destruct (Hall sub Hin) as [Hq Hdue].
  apply due_for_autopay_query_sound in Hq as (? & ? & _). done.
Qed.

(** X12. What the selector returns is what the subscriptions table holds,
    with rows left out: the selected subscriptions come in the order of the
    table and none more often than it is stored. *)
Theorem selector_keeps_table_order self w eligible w' :
  _get_subscriptions_for_recurring self w = (Return eligible, w') ->
  exists db,
    db_execute w = (Return db, w')
    /\ sublist eligible (subscriptions db).
Proof.
  intros Hsel.
  apply get_subscriptions_for_recurring_sound in Hsel as (db & ? & ? & _).
  eauto.
Qed.

(** X13. One stored subscription of the query whose threshold cannot be
    computed (a lead time beyond the range of [timedelta], or a threshold
    outside the range of [datetime]) makes the selector raise
    [OverflowError]; the pass then charges nobody, also not the other
    subscriptions that are due, logs the error and returns all-zero
    statistics. *)
Theorem unrepresentable_threshold_aborts_pass self st db w bad :
  db_execute (world st) = (Return db, w) ->
  bad ∈ subscriptions db ->
  due_for_autopay_query bad = true ->
  ~ threshold_representable bad ->
  _get_subscriptions_for_recurring self (world st) = (Raise OverflowError, w)
  /\ process_recurring_charges self st
     = (Return zero_stats,
        {| world := w; trace := trace st ++ [Log (FetchError OverflowError)];
           stats := zero_stats |}).
Proof.
  intros Hdb Hin Hq Hbad.
  pose proof (get_subscriptions_for_recurring_overflow self _ _ _ _
                Hdb Hin Hq Hbad) as Hsel.
  split; [exact Hsel|].
  destruct (process_recurring_charges_shape self st)
    as [(e & w1 & E & ->)|[(w1 & E & _)|(subs & w1 & st1 & E & _)]];
    rewrite Hsel in E; [|done|done].
  by injection E as <- <-.
Qed.

(** X14. When the charge operation returns without a succeeded result (no
    result, an empty one, or another status), the outcome is [failed], the
    failed counter goes up by one and no other, the charge operation was
    invoked once, and the failure message is handed to the bot once if the
    service has a bot and the user a Telegram id, and not at all
    otherwise. *)
Theorem unsuccessful_charge_counts_failed
    self subscription st user saved_method amount description st2 w result
    w' :
  reaches_charge self subscription st user saved_method amount description
    st2 w ->
  create_recurring_charge
    (charge_request subscription user saved_method amount description) w
  = (Return result, w') ->
  result = None
  \/ (exists r, result = Some r
                /\ r !! "status" <> Some (PyStr "succeeded")) ->
  exists st1 st',
    _process_single_recurring self subscription st = (Return "failed", st1)
    /\ process_one self subscription st = (Return tt, st')
    /\ stats st' = add_failed (stats st)
    /\ charges_of (trace st')
       = charges_of (trace st)
         ++ [charge_request subscription user saved_method amount description]
    /\ sends_of (trace st')
       = sends_of (trace st)
         ++ match _bot self, truthy (u_telegram_id user) with
            | Some _, Some chat_id =>
                [(chat_id, FailureText (format_price amount))]
            | _, _ => []
            end.
Proof.
  intros Hreach Hcharge Hresult.
  assert (succeeded result = false) as Hnot.
  { destruct Hresult as [-> | (r & -> & Hstatus)]; [done|]. simpl.
    by rewrite (bool_decide_eq_false_2 _ Hstatus), andb_false_r. }
  destruct (process_single_charge_not_succeeded _ _ _ _ _ _ _ _ _ _ _
              Hreach Hcharge Hnot) as (st1 & E & Hs & Hm & Hc).
  eexists st1, _. split; [exact E|].
  split; [by apply process_one_of_return|].
  cbn [stats trace]. rewrite Hs, Hm, Hc. split; [done|]. split; [done|].
  unfold notified. by destruct (_bot self), (truthy (u_telegram_id user)).
Qed.

(** X15. Whatever raises while a subscription is processed (the database,
    the settings, the payment service), the loop body returns: the
    subscription counts as failed, the error is logged with the id of the
    subscription, and no message is sent for it. *)
Theorem any_exception_counts_failed self subscription st e st1 :
  _process_single_recurring self subscription st = (Raise e, st1) ->
  exists st',
    process_one self subscription st = (Return tt, st')
    /\ stats st' = add_failed (stats st)
    /\ trace st' = trace st1 ++ [Log (ChargeError (s_id subscription) e)]
    /\ sends_of (trace st') = sends_of (trace st).
Proof.
  intros E.
  destruct (process_single_cases self subscription st)
    as (r & st1' & cs & ms & E' & Hs & _ & Hm & _ & Hcase).
  rewrite E in E'. injection E' as <- <-. destruct Hcase as [_ ->].
  rewrite (process_one_of_raise _ _ _ _ _ E).
  eexists. split; [done|]. cbn [stats trace]. rewrite Hs.
  split; [done|]. split; [done|].
  rewrite sends_of_app, Hm. simpl. by rewrite !app_nil_r.
Qed.

(** X16. In every pass, whatever the collaborators do: every charge
    operation is invoked with a positive amount; every subscription counted
    as charged was charged and every charge is counted as charged or failed
    (charged <= number of charges <= charged + failed); and there are no
    more charges than selected subscriptions. *)
Theorem pass_charges_are_accounted self st :
  exists result st' cs,
    process_recurring_charges self st = (Return result, st')
    /\ charges_of (trace st') = charges_of (trace st) ++ cs
    /\ Forall (fun c => 0 < c_amount_kopeks c) cs
    /\ charged result <= Z.of_nat (length cs)
    /\ Z.of_nat (length cs) <= charged result + failed result
    /\ Z.of_nat (length cs) <= checked result.
Proof.
  destruct (process_recurring_charges_effects self st)
    as (result & st' & cs & ms & E & Hc & _ & Hp & Ha & Ho).
  exists result, st', cs. split; [done|]. split; [done|]. split; [done|].
  unfold accounted, outcomes in *. simpl in Ha. lia.
Qed.

(** X17. In every pass, whatever the collaborators do: the number of
    messages handed to the bot is at most charged + no_method + failed, so
    at most one per selected subscription and none for a skipped one. *)
Theorem pass_messages_are_accounted self st :
  exists result st' ms,
    process_recurring_charges self st = (Return result, st')
    /\ sends_of (trace st') = sends_of (trace st) ++ ms
    /\ Z.of_nat (length ms)
       <= charged result + no_method result + failed result
    /\ Z.of_nat (length ms) <= checked result - skipped result.
Proof.
  destruct (process_recurring_charges_effects self st)
    as (result & st' & cs & ms & E & _ & Hm & _ & Ha & Ho).
  exists result, st', ms. split; [done|]. split; [done|].
  unfold accounted, outcomes in *. simpl in Ha. lia.
Qed.

(** X18. A pass only adds to the trace, and it logs its summary exactly
    when it counted a charged or a failed subscription: then once, with the
    statistics it returns; on an idle pass not at all. *)
Theorem summary_logged_iff_charged_or_failed self st :
  exists result st' new,
    process_recurring_charges self st = (Return result, st')
    /\ trace st' = trace st ++ new
    /\ summaries_of new
       = if (0 <? charged result) || (0 <? failed result)
         then [result] else [].
Proof. apply process_recurring_charges_summary. Qed.

(** X19. When the selector finds nothing, the pass returns all-zero
    statistics at once: it logs that there is nothing to do and no summary,
    and charges and notifies nobody. *)
Theorem empty_selection_returns_at_once self st w :
  _get_subscriptions_for_recurring self (world st) = (Return [], w) ->
  process_recurring_charges self st
  = (Return zero_stats,
     {| world := w; trace := trace st ++ [Log NoSubscriptions];
        stats := zero_stats |}).
Proof.
  intros Hsel.
  destruct (process_recurring_charges_shape self st)
    as [(e & w1 & E & _)|[(w1 & E & ->)|(subs & w1 & st1 & E & Hne & _)]];
    rewrite Hsel in E; [done| |].
  - by injection E as <-.
  - injection E as <- _. done.
Qed.

(** X20. The price calculator never raises: whatever the tariff lookup and
    the settings do, it returns an amount or none, and it neither charges
    nor sends nor moves a counter. *)
Theorem renewal_cost_never_raises self subscription st :
  exists amount st',
    _calculate_renewal_cost self subscription st = (Return amount, st')
    /\ stats st' = stats st
    /\ charges_of (trace st') = charges_of (trace st)
    /\ sends_of (trace st') = sends_of (trace st).
Proof. apply calculate_renewal_cost_spec. Qed.

(** X21. For a subscription without a tariff (no tariff id, or the id 0) an
    amount the price calculator returns is positive and is the price the
    settings give for the period of 30 days; nothing is logged. *)
Theorem fallback_price_is_positive self subscription st a st' :
  truthy (s_tariff_id subscription) = None ->
  _calculate_renewal_cost self subscription st = (Return (Some a), st') ->
  0 < a
  /\ get_period_price_kopeks 30 (world st) = (Return (Some a), world st')
  /\ trace st' = trace st.
Proof. apply calculate_renewal_cost_fallback. Qed.

(** X22. The three notifiers never raise, whatever [send_message] does:
    each returns, moves no counter, charges nothing, and hands the bot one
    message, addressed to the Telegram id of the user, or none when the
    service has no bot or the user no Telegram id. *)
Theorem notifiers_never_raise self user amount st :
  (exists st',
     _notify_recurring_success self user amount st = (Return tt, st')
     /\ stats st' = stats st
     /\ charges_of (trace st') = charges_of (trace st)
     /\ sends_of (trace st')
        = sends_of (trace st)
          ++ notified self user (SuccessText (format_price amount)))
  /\ (exists st',
        _notify_recurring_failure self user amount st = (Return tt, st')
        /\ stats st' = stats st
        /\ charges_of (trace st') = charges_of (trace st)
        /\ sends_of (trace st')
           = sends_of (trace st)
             ++ notified self user (FailureText (format_price amount)))
  /\ (exists st',
        _notify_no_payment_method self user st = (Return tt, st')
        /\ stats st' = stats st
        /\ charges_of (trace st') = charges_of (trace st)
        /\ sends_of (trace st')
           = sends_of (trace st) ++ notified self user NoMethodText).
Proof.
  split; [apply notify_recurring_success_spec|].
  split; [apply notify_recurring_failure_spec
         |apply notify_no_payment_method_spec].
Qed.

(** X23. Processing one subscription returns one of the four labels
    [charged], [no_method], [failed] and [skipped] and no other, so the
    last branch of the counting in the loop only ever counts [skipped]. *)
Theorem process_single_returns_known_label self subscription st label st1 :
  _process_single_recurring self subscription st = (Return label, st1) ->
  (label = "charged" \/ label = "no_method" \/ label = "failed"
   \/ label = "skipped")
  /\ (count_result label = add_skipped -> label = "skipped").
Proof.
  intros E.
  destruct (process_single_cases self subscription st)
    as (r & st1' & cs & ms & E' & _ & _ & _ & _ & Hcase).
  rewrite E in E'. injection E' as <- <-.
  assert (label = "charged" \/ label = "no_method" \/ label = "failed"
          \/ label = "skipped") as Hlabel by tauto.
  split; [exact Hlabel|].
  destruct Hlabel as [-> | [-> | [-> | ->]]]; try done;
    unfold count_result; simpl; intros Heq;
    [apply (f_equal (fun f => charged (f zero_stats))) in Heq
    |apply (f_equal (fun f => no_method (f zero_stats))) in Heq
    |apply (f_equal (fun f => failed (f zero_stats))) in Heq];
    done.
Qed.

End Pass.

End RecurringFacts.

(** * Facts about migration 0005 *)

Module MigrationFacts.
Import Migration.

Lemma tables_differ : PAYMENTS <> SAVED_METHODS.
Proof. done. Qed.

Lemma has_column_named_app name (l1 l2 : list Column) :
  has_column_named name (l1 ++ l2)
  = has_column_named name l1 || has_column_named name l2.
Proof. apply existsb_app. Qed.

Lemma filter_absent_column name (l : list Column) :
  has_column_named name l = false ->
  List.filter (fun c => negb (String.eqb (col_name c) name)) l = l.
Proof.
  induction l as [|c l IH]; simpl; [done|].
  intros Hn. apply orb_false_iff in Hn as [-> Hl]. simpl. by rewrite IH.
Qed.

(** What a guarded [add_column] that succeeds leaves behind. *)
Lemma add_column_if_missing_spec table c s s' :
  add_column_if_missing table c s = Return s' ->
  _has_column table (col_name c) s' = true
  /\ indexes s' = indexes s
  /\ (forall t, _has_table t s' = _has_table t s)
  /\ (forall t x, _has_column t x s = true -> _has_column t x s' = true)
  /\ (forall t, t <> table -> tables s' !! t = tables s !! t)
  /\ (_has_column table (col_name c) s = true -> s' = s).
Proof.
  unfold add_column_if_missing.
  destruct (_has_column table (col_name c) s) eqn:Hhas.
  { intros [= <-]. done. }
  unfold add_column.
  destruct (tables s !! table) as [columns|] eqn:Ht; [|done].
  destruct (has_column_named (col_name c) columns); [done|].
  destruct (foreign_key_ok s table columns c); [|done].
  intros [= <-]. split; [|split; [done|split; [|split; [|split]]]].
  - unfold _has_column. simpl. rewrite lookup_insert_eq.
    rewrite has_column_named_app. simpl.
    by rewrite String.eqb_refl, orb_true_r.
  - intros t. unfold _has_table. simpl.
    destruct (decide (t = table)) as [->|Hne].
    + by rewrite lookup_insert_eq, Ht.
    + by rewrite lookup_insert_ne.
  - intros t x. unfold _has_column. simpl.
    destruct (decide (t = table)) as [->|Hne].
    + rewrite lookup_insert_eq, Ht, has_column_named_app.
      intros ->. done.
    + by rewrite lookup_insert_ne.
  - intros t Hne. simpl. by rewrite lookup_insert_ne.
  - done.
Qed.

(** The state the migration brings a schema to. *)
Lemma upgrade_reaches s s' :
  upgrade s = Return s' ->
  _has_table SAVED_METHODS s' = true
  /\ Forall (fun x => _has_column PAYMENTS x s' = true) added_columns.
Proof.
  unfold upgrade.
  destruct (if _has_table SAVED_METHODS s then Return s
            else and_then
                   (create_table SAVED_METHODS saved_methods_columns s)
                   (create_index IX_USER_ACTIVE SAVED_METHODS
                      ["user_id"; "is_active"]))
    as [s0|e] eqn:H0; [|done].
  assert (_has_table SAVED_METHODS s0 = true) as Hs0.
  { destruct (_has_table SAVED_METHODS s) eqn:Hhas.
    - by injection H0 as <-.
    - unfold create_table in H0. rewrite Hhas in H0.
      destruct (forallb _ saved_methods_columns); [|done].
      unfold and_then, create_index in H0. cbn [tables indexes] in H0.
      rewrite lookup_insert_eq in H0.
      destruct (indexes s !! IX_USER_ACTIVE); [done|].
      destruct (forallb _ ["user_id"; "is_active"]); [|done].
      injection H0 as <-. unfold _has_table. simpl.
      by rewrite lookup_insert_eq. }
  cbn [and_then].
  destruct (add_column_if_missing PAYMENTS payment_method_id_column s0)
    as [s1|e] eqn:H1; [|done]. cbn [and_then].
  destruct (add_column_if_missing PAYMENTS
              (with_default "payment_method_saved" Boolean "false") s1)
    as [s2|e] eqn:H2; [|done]. cbn [and_then].
  destruct (add_column_if_missing PAYMENTS
              (with_default "is_recurring" Boolean "false") s2)
    as [s3|e] eqn:H3; [|done]. cbn [and_then].
  intros H4.
  apply add_column_if_missing_spec in H1 as (C1 & _ & T1 & K1 & _).
  apply add_column_if_missing_spec in H2 as (C2 & _ & T2 & K2 & _).
  apply add_column_if_missing_spec in H3 as (C3 & _ & T3 & K3 & _).
  apply add_column_if_missing_spec in H4 as (C4 & _ & T4 & K4 & _).
  split; [by rewrite T4, T3, T2, T1|].
  repeat constructor; auto.
Qed.

Lemma upgrade_of_upgraded s :
  _has_table SAVED_METHODS s = true ->
  Forall (fun x => _has_column PAYMENTS x s = true) added_columns ->
  upgrade s = Return s.
Proof.
  intros Ht Hc. unfold added_columns in Hc.
  apply Forall_cons in Hc as [C1 Hc]. apply Forall_cons in Hc as [C2 Hc].
  apply Forall_cons in Hc as [C3 Hc]. apply Forall_cons in Hc as [C4 _].
  unfold upgrade, add_column_if_missing. rewrite Ht. simpl.
  rewrite C1. simpl. rewrite C2. simpl. rewrite C3. simpl. by rewrite C4.
Qed.

(** With the saved-methods table in place, the migration only adds columns
    to [yookassa_payments]. *)
Lemma upgrade_with_table s s' :
  _has_table SAVED_METHODS s = true ->
  upgrade s = Return s' ->
  indexes s' = indexes s
  /\ forall t, t <> PAYMENTS -> tables s' !! t = tables s !! t.
Proof.
  intros Ht. unfold upgrade. rewrite Ht. cbn [and_then].
  destruct (add_column_if_missing PAYMENTS payment_method_id_column s)
    as [s1|e] eqn:H1; [|done]. cbn [and_then].
  destruct (add_column_if_missing PAYMENTS
              (with_default "payment_method_saved" Boolean "false") s1)
    as [s2|e] eqn:H2; [|done]. cbn [and_then].
  destruct (add_column_if_missing PAYMENTS
              (with_default "is_recurring" Boolean "false") s2)
    as [s3|e] eqn:H3; [|done]. cbn [and_then].
  intros H4.
  apply add_column_if_missing_spec in H1 as (_ & I1 & _ & _ & L1 & _).
  apply add_column_if_missing_spec in H2 as (_ & I2 & _ & _ & L2 & _).
  apply add_column_if_missing_spec in H3 as (_ & I3 & _ & _ & L3 & _).
  apply add_column_if_missing_spec in H4 as (_ & I4 & _ & _ & L4 & _).
  split; [congruence|].
  intros t Hne. by rewrite L4, L3, L2, L1.
Qed.

(** X24. The migration can be run again: on the schema a successful
    [upgrade] leaves, [upgrade] succeeds and changes nothing. *)
Theorem upgrade_is_idempotent s s' :
  upgrade s = Return s' -> upgrade s' = Return s'.
Proof.
  intros Hup. apply upgrade_reaches in Hup as [Ht Hc].
  by apply upgrade_of_upgraded.
Qed.

(** X25. On a database that already has a saved-methods table, [upgrade]
    leaves that table as it is, with whatever columns and constraints it
    has, and creates no index: the table and its index are only created
    together, when the table is missing. *)
Theorem upgrade_keeps_existing_table s s' :
  _has_table SAVED_METHODS s = true ->
  upgrade s = Return s' ->
  tables s' !! SAVED_METHODS = tables s !! SAVED_METHODS
  /\ indexes s' = indexes s.
Proof.
  intros Ht Hup.
  destruct (upgrade_with_table s s' Ht Hup) as [Hi Hl].
  split; [|done]. apply Hl. done.
Qed.

(** X26. Without the table [yookassa_payments] the migration fails: its
    columns are looked for, not found, and then added to a table that is
    not there. *)
Theorem upgrade_needs_payments_table s :
  tables s !! PAYMENTS = None ->
  upgrade s = Raise ProgrammingError.
Proof.
  intros Hp.
  assert (forall x, _has_column PAYMENTS x s = false) as Hno
    by (intros x; unfold _has_column; by rewrite Hp).
  unfold upgrade. destruct (_has_table SAVED_METHODS s) eqn:Ht.
  - cbn [and_then]. unfold add_column_if_missing. rewrite Hno.
    unfold add_column. by rewrite Hp.
  - unfold create_table. rewrite Ht.
    assert (forallb (foreign_key_ok s SAVED_METHODS saved_methods_columns)
              saved_methods_columns = false) as ->; [|done].
    apply not_true_is_false. rewrite forallb_forall. intros Hall.
    specialize (Hall (List.last saved_methods_columns
                        (plain "" Integer))).
    simpl in Hall. unfold foreign_key_ok in Hall. simpl in Hall.
    rewrite Hno in Hall. apply Bool.diff_false_true, Hall. tauto.
Qed.

Lemma add_column_fresh table c s columns :
  tables s !! table = Some columns ->
  has_column_named (col_name c) columns = false ->
  foreign_key_ok s table columns c = true ->
  add_column_if_missing table c s
  = Return {| tables := <[table := columns ++ [c]]> (tables s);
              indexes := indexes s |}.
Proof.
  intros Ht Hc Hfk. unfold add_column_if_missing, _has_column, add_column.
  by rewrite Ht, Hc, Hfk.
Qed.

Lemma drop_column_present table column s columns :
  tables s !! table = Some columns ->
  has_column_named column columns = true ->
  drop_column_if_present table column s
  = Return
      {| tables :=
           <[table := List.filter
                        (fun c => negb (String.eqb (col_name c) column))
                        columns]> (tables s);
         indexes := indexes s |}.
Proof.
  intros Ht Hc. unfold drop_column_if_present, _has_column, drop_column.
  by rewrite Ht, Hc.
Qed.

Lemma drop_column_if_present_spec table column s :
  exists s',
    drop_column_if_present table column s = Return s'
    /\ indexes s' = indexes s
    /\ forall t, _has_table t s' = _has_table t s.
Proof.
  unfold drop_column_if_present, _has_column, drop_column.
  destruct (tables s !! table) as [columns|] eqn:Ht; [|by exists s].
  destruct (has_column_named column columns); [|by exists s].
  eexists. split; [done|]. split; [done|].
  intros t. unfold _has_table. simpl.
  destruct (decide (t = table)) as [->|Hne].
  - by rewrite lookup_insert_eq, Ht.
  - by rewrite lookup_insert_ne.
Qed.

Lemma upgrade_fresh s payments :
  tables s !! SAVED_METHODS = None ->
  indexes s !! IX_USER_ACTIVE = None ->
  tables s !! PAYMENTS = Some payments ->
  has_column_named "id" payments = true ->
  Forall (fun x => has_column_named x payments = false) added_columns ->
  _has_column "users" "id" s = true ->
  upgrade s = Return (upgraded_from s payments).
Proof.
  intros Hs Hix Hp Hid Hnew Husers. unfold added_columns in Hnew.
  apply Forall_cons in Hnew as [N1 Hnew].
  apply Forall_cons in Hnew as [N2 Hnew].
  apply Forall_cons in Hnew as [N3 Hnew].
  apply Forall_cons in Hnew as [N4 _].
  assert (_has_column PAYMENTS "id" s = true) as Hpid
    by (unfold _has_column; by rewrite Hp).
  unfold upgrade, _has_table. rewrite Hs.
  unfold create_table, _has_table. rewrite Hs.
  assert (forallb (foreign_key_ok s SAVED_METHODS saved_methods_columns)
            saved_methods_columns = true) as ->.
  { simpl. unfold foreign_key_ok. simpl. by rewrite Husers, Hpid. }
  cbn [and_then]. unfold create_index. cbn [tables indexes].
  rewrite Hix, lookup_insert_eq.
  assert (forallb (fun x => has_column_named x saved_methods_columns)
            ["user_id"; "is_active"] = true) as -> by done.
  cbn [and_then].
  rewrite (add_column_fresh PAYMENTS payment_method_id_column _ payments);
    [|by cbn [tables]; rewrite lookup_insert_ne|done|done].
  cbn [and_then tables indexes].
  rewrite (add_column_fresh PAYMENTS _ _
             (payments ++ [payment_method_id_column]));
    [|by cbn [tables]; rewrite lookup_insert_eq
     |by rewrite has_column_named_app; simpl; rewrite N2|done].
  cbn [and_then tables indexes].
  rewrite (add_column_fresh PAYMENTS _ _
             ((payments ++ [payment_method_id_column])
              ++ [with_default "payment_method_saved" Boolean "false"]));
    [|by cbn [tables]; rewrite lookup_insert_eq
     |by rewrite !has_column_named_app; simpl; rewrite N3|done].
  cbn [and_then tables indexes].
  rewrite (add_column_fresh PAYMENTS _ _
             (((payments ++ [payment_method_id_column])
               ++ [with_default "payment_method_saved" Boolean "false"])
              ++ [with_default "is_recurring" Boolean "false"]));
    [|by cbn [tables]; rewrite lookup_insert_eq
     |by rewrite !has_column_named_app; simpl; rewrite N4|].
  - unfold upgraded_from. cbn [tables indexes]. f_equal. f_equal.
    rewrite !insert_insert_eq, <- !app_assoc. done.
  - unfold foreign_key_ok, _has_column. cbn [tables].
    simpl. rewrite !lookup_insert_ne by done. by rewrite lookup_insert_eq.
Qed.

Lemma downgrade_upgraded s payments :
  tables s !! SAVED_METHODS = None ->
  indexes s !! IX_USER_ACTIVE = None ->
  tables s !! PAYMENTS = Some payments ->
  Forall (fun x => has_column_named x payments = false) added_columns ->
  map_Forall (fun _ ix => ix_table ix <> SAVED_METHODS) (indexes s) ->
  unreferenced s SAVED_METHODS ->
  downgrade (upgraded_from s payments) = Return s.
Proof.
  intros Hs Hix Hp Hnew Hidx Href. unfold added_columns in Hnew.
  apply Forall_cons in Hnew as [N1 Hnew].
  apply Forall_cons in Hnew as [N2 Hnew].
  apply Forall_cons in Hnew as [N3 Hnew].
  apply Forall_cons in Hnew as [N4 _].
  unfold downgrade, upgraded_from.
  erewrite drop_column_present;
    [|by cbn [tables]; rewrite lookup_insert_eq
     |by rewrite has_column_named_app; simpl; rewrite orb_true_r].
  cbn [and_then tables indexes].
  rewrite List.filter_app, (filter_absent_column _ _ N4). simpl.
  erewrite drop_column_present;
    [|by cbn [tables]; rewrite lookup_insert_eq
     |by rewrite has_column_named_app; simpl; rewrite orb_true_r].
  cbn [and_then tables indexes].
  rewrite List.filter_app, (filter_absent_column _ _ N3). simpl.
  erewrite drop_column_present;
    [|by cbn [tables]; rewrite lookup_insert_eq
     |by rewrite has_column_named_app; simpl; rewrite orb_true_r].
  cbn [and_then tables indexes].
  rewrite List.filter_app, (filter_absent_column _ _ N2). simpl.
  erewrite drop_column_present;
    [|by cbn [tables]; rewrite lookup_insert_eq
     |by rewrite has_column_named_app; simpl; rewrite orb_true_r].
  cbn [and_then tables indexes].
  rewrite List.filter_app, (filter_absent_column _ _ N1). simpl.
  rewrite app_nil_r, !insert_insert_eq.
  unfold _has_table. cbn [tables].
  rewrite lookup_insert_ne, lookup_insert_eq by done.
  unfold drop_index. cbn [indexes]. rewrite lookup_insert_eq.
  cbn [and_then]. unfold drop_table, _has_table. cbn [tables indexes].
  rewrite lookup_insert_ne, lookup_insert_eq by done.
  rewrite decide_True.
  - f_equal. destruct s as [ts ixs]. cbn [tables indexes] in *. f_equal.
    + rewrite delete_insert_ne, delete_insert_id by done.
      by apply insert_id.
    + rewrite delete_insert_id by done.
      apply map_filter_id. intros i x Hx. by apply (Hidx i x).
  - unfold unreferenced. cbn [tables].
    apply map_Forall_insert_2; [right|apply map_Forall_insert_2; [by left|]].
    + apply (Href PAYMENTS payments) in Hp as [Heq|Hp]; [done|exact Hp].
    + exact Href.
Qed.

(** X27. Round trip. On a schema that has [users] and [yookassa_payments]
    with their [id] columns, and nothing of what the migration adds (no
    saved-methods table, no index or foreign key on it, none of the four
    columns), [upgrade] succeeds and a [downgrade] after it succeeds and
    gives the schema back: [downgrade] drops the referencing column before
    the table it references. *)
Theorem downgrade_undoes_upgrade s payments :
  tables s !! SAVED_METHODS = None ->
  indexes s !! IX_USER_ACTIVE = None ->
  map_Forall (fun _ ix => ix_table ix <> SAVED_METHODS) (indexes s) ->
  unreferenced s SAVED_METHODS ->
  tables s !! PAYMENTS = Some payments ->
  has_column_named "id" payments = true ->
  Forall (fun x => has_column_named x payments = false) added_columns ->
  _has_column "users" "id" s = true ->
  exists s',
    upgrade s = Return s'
    /\ _has_table SAVED_METHODS s' = true
    /\ Forall (fun x => _has_column PAYMENTS x s' = true) added_columns
    /\ downgrade s' = Return s.
Proof.
  intros Hs Hix Hidx Href Hp Hid Hnew Husers.
  pose proof (upgrade_fresh s payments Hs Hix Hp Hid Hnew Husers) as Hup.
  exists (upgraded_from s payments). split; [exact Hup|].
  destruct (upgrade_reaches _ _ Hup) as [Ht Hc].
  split; [exact Ht|]. split; [exact Hc|].
  by apply downgrade_upgraded.
Qed.

(** X28. [downgrade] drops the index whenever the saved-methods table is
    there: on a schema that has the table without the index (the one
    [upgrade] leaves when the table was there before it) [downgrade]
    fails. *)
Theorem downgrade_needs_the_index s :
  _has_table SAVED_METHODS s = true ->
  indexes s !! IX_USER_ACTIVE = None ->
  downgrade s = Raise ProgrammingError.
Proof.
  intros Ht Hix. unfold downgrade.
  destruct (drop_column_if_present_spec PAYMENTS "saved_payment_method_id" s)
    as (s1 & -> & I1 & T1). cbn [and_then].
  destruct (drop_column_if_present_spec PAYMENTS "is_recurring" s1)
    as (s2 & -> & I2 & T2). cbn [and_then].
  destruct (drop_column_if_present_spec PAYMENTS "payment_method_saved" s2)
    as (s3 & -> & I3 & T3). cbn [and_then].
  destruct (drop_column_if_present_spec PAYMENTS "payment_method_id" s3)
    as (s4 & -> & I4 & T4). cbn [and_then].
  rewrite T4, T3, T2, T1, Ht. unfold drop_index.
  by rewrite I4, I3, I2, I1, Hix.
Qed.

End MigrationFacts.

(** * The theorems at concrete records and collaborators *)

Module Instances.
Import Recurring Scripted.

(** Membership in a list that is written out. *)
Ltac case_elem H :=
  repeat (apply elem_of_cons in H as [-> | H]);
  try (by apply elem_of_nil in H).

(** ** Saved methods *)


Lemma delete_saved_payment_method_only_own_active_witness :
  (* alice unlinks her newest card *)
  (Cabinet.own_active shop alice 2
   /\ exists response db',
        Cabinet.delete_saved_payment_method shop t0 alice 2
        = (Return response, db')
        /\ Cabinet.success response = true)
  (* alice asks for bob's card *)
  /\ (~ Cabinet.own_active shop alice 4
      /\ Cabinet.delete_saved_payment_method shop t0 alice 4
         = (Raise (HTTPException 404 "Saved payment method not found"),
            shop)).
Proof.
  destruct (CabinetFacts.delete_saved_payment_method_only_own_active
              shop t0 alice 2) as (Hown & _ & _).
  destruct (CabinetFacts.delete_saved_payment_method_only_own_active
              shop t0 alice 4) as (_ & Hother & _).
  assert (Cabinet.own_active shop alice 2) as H2.
  { exists alice_new_card. split; [unfold shop; simpl; right; left|done]. }
  assert (~ Cabinet.own_active shop alice 4) as H4.
  { intros (m & Hin & Hid & Hu & Ha). unfold shop in Hin. simpl in Hin.
    case_elem Hin; discriminate. }
  split.
  - split; [exact H2|].
    destruct (Hown H2) as (response & db' & E & Hs & _).
    exists response, db'. split; [exact E|exact Hs].
  - split; [exact H4|exact (Hother H4)].
Defined.

(** ** The selector *)

Lemma selector_selects_when_due_witness :
  db_execute early_day = (Return shop, early_day)
  /\ (forall sub, sub ∈ subscriptions shop ->
         due_for_autopay_query sub = true -> threshold_representable sub)
  /\ exists eligible,
       _get_subscriptions_for_recurring service early_day
       = (Return eligible, early_day)
       (* alice: lead time 2 days, not yet due; bob: unset, due *)
       /\ (alice_sub ∉ eligible) /\ (bob_sub ∈ eligible).
Proof.
  assert (forall sub, sub ∈ subscriptions shop ->
            due_for_autopay_query sub = true -> threshold_representable sub)
    as Hrep.
  { intros sub Hin _. unfold shop in Hin. simpl in Hin.
    case_elem Hin; vm_compute; (split; split; discriminate). }
  assert (db_execute early_day = (Return shop, early_day)) as Hdb
    by reflexivity.
  split; [exact Hdb|]. split; [exact Hrep|].
  destruct (RecurringFacts.selector_selects_when_due service early_day shop
              early_day Hdb Hrep) as (eligible & E & Hsel).
  exists eligible. split; [exact E|]. split.
  - destruct (Hsel alice_sub (t0 + 5 * DAY)) as [Hset _];
      [left|reflexivity|reflexivity|reflexivity|].
    destruct (Hset 2 eq_refl) as (Hiff & _ & _); [discriminate|].
    rewrite Hiff. vm_compute. intros Hle. apply Hle. reflexivity.
  - destruct (Hsel bob_sub (t0 + 5 * DAY)) as [_ Hunset];
      [right; left|reflexivity|reflexivity|reflexivity|].
    destruct Hunset as (Hiff & _ & _); [reflexivity|].
    rewrite Hiff. vm_compute. discriminate.
Defined.

(** C1. A lead time stored as 0. One second before the subscription
    expires, now < E - 0 days: the claim has the subscription not selected,
    and so has the rule in the docstring of the pass,
    [expires_at <= now + autopay_days_before]. The selector returns it:
    [sub.autopay_days_before or 3] takes the stored 0 for an unset lead time
    and computes the threshold E - 3 days. *)
Theorem zero_lead_time_selected_early :
  s_status zero_lead_sub = "active"
  /\ s_autopay_enabled zero_lead_sub = true
  /\ s_expires_at zero_lead_sub = Some (t0 + 5 * DAY)
  /\ s_autopay_days_before zero_lead_sub = Some 0
  /\ now_utc last_second = (t0 + 5 * DAY) - 0 * DAY - SECOND
  /\ _get_subscriptions_for_recurring service last_second
     = (Return [zero_lead_sub], last_second)
  /\ ~ (zero_lead_sub ∈ [zero_lead_sub]
        <-> (t0 + 5 * DAY) - 0 * DAY <= now_utc last_second)
  /\ ~ (t0 + 5 * DAY <= now_utc last_second + 0 * DAY).
Proof.
  repeat (split; [reflexivity|]). split.
  - intros [Hsel _]. specialize (Hsel ltac:(left)).
    vm_compute in Hsel. apply Hsel. reflexivity.
  - vm_compute. intros Hle. apply Hle. reflexivity.
Qed.

(** ** The pass *)

Lemma pass_counts_every_subscription_witness :
  _get_subscriptions_for_recurring service (world (start gateway_down))
  = (Return [alice_sub; bob_sub], gateway_down)
  /\ exists result st',
       process_recurring_charges service (start gateway_down)
       = (Return result, st')
       /\ checked result = 2
       /\ charged result + no_method result + failed result + skipped result
          = 2.
Proof.
  split; [vm_compute; reflexivity|].
  apply (RecurringFacts.pass_counts_every_subscription service
           (start gateway_down) [alice_sub; bob_sub] gateway_down).
  vm_compute. reflexivity.
Defined.

Lemma pass_survives_query_failure_witness :
  db_execute (world (start database_down))
  = (Raise (Exception "connection refused"), database_down)
  /\ process_recurring_charges service (start database_down)
     = (Return zero_stats,
        {| world := database_down;
           trace := [Log (FetchError (Exception "connection refused"))];
           stats := zero_stats |}).
Proof.
  split; [reflexivity|].
  apply (RecurringFacts.pass_survives_query_failure service
           (start database_down) (Exception "connection refused")
           database_down).
  reflexivity.
Defined.

(** ** One subscription *)

Lemma alice_reaches_charge (w : Script) :
  database w = Return shop -> tariff w = Return None ->
  period_price_kopeks w = Return (Some 14900) ->
  description w = Return "Subscription renewal" ->
  reaches_charge service alice_sub (start w) alice alice_new_card 14900
    "Subscription renewal" (start w) w.
Proof.
  intros Hdb Ht Hp Hd. split; [reflexivity|].
  exists shop, w, [alice_old_card]. simpl. rewrite Hdb, Hd.
  repeat split.
  unfold _calculate_renewal_cost, period_price, try_except, bind, call, ret,
    with_world, start. simpl. rewrite Hp. reflexivity.
Qed.

Lemma bob_reaches_charge (w : Script) :
  database w = Return shop -> tariff w = Return None ->
  period_price_kopeks w = Return (Some 14900) ->
  description w = Return "Subscription renewal" ->
  reaches_charge service bob_sub (start w) bob bob_card 14900
    "Subscription renewal" (start w) w.
Proof.
  intros Hdb Ht Hp Hd. split; [reflexivity|].
  exists shop, w, []. simpl. rewrite Hdb, Hd.
  repeat split.
  unfold _calculate_renewal_cost, period_price, try_except, bind, call, ret,
    with_world, start. simpl. rewrite Hp. reflexivity.
Qed.

Lemma charge_exception_counts_failed_witness :
  reaches_charge service alice_sub (start gateway_down) alice alice_new_card
    14900 "Subscription renewal" (start gateway_down) gateway_down
  /\ create_recurring_charge alice_request gateway_down
     = (Raise (Exception "gateway unavailable"), charged_once gateway_down)
  /\ exists st',
       process_one service alice_sub (start gateway_down) = (Return tt, st')
       /\ stats st' = add_failed zero_stats
       /\ sends_of (trace st') = []
       /\ charges_of (trace st') = [alice_request]
       /\ for_each_subscription service [alice_sub; bob_sub]
            (start gateway_down)
          = for_each_subscription service [bob_sub] st'.
Proof.
  assert (reaches_charge service alice_sub (start gateway_down) alice
            alice_new_card 14900 "Subscription renewal" (start gateway_down)
            gateway_down) as Hreach
    by (by apply alice_reaches_charge).
  split; [exact Hreach|]. split; [reflexivity|].
  destruct (RecurringFacts.charge_exception_counts_failed service alice_sub
              (start gateway_down) alice alice_new_card 14900
              "Subscription renewal" (start gateway_down) gateway_down
              (Exception "gateway unavailable") (charged_once gateway_down)
              Hreach eq_refl) as (st' & E & Hs & Hm & Hc & Hloop).
  exists st'. repeat (split; [assumption|]).
  apply (Hloop [] [bob_sub] (start gateway_down)). reflexivity.
Defined.

(** The charge operation raises for a user with a Telegram id, the service
    has its bot: the subscription counts as failed, and no message at all is
    sent, where the claim has exactly one failure message. *)
Lemma charge_exception_sends_nothing_counterexample :
  reaches_charge service alice_sub (start gateway_down) alice alice_new_card
    14900 "Subscription renewal" (start gateway_down) gateway_down
  /\ create_recurring_charge alice_request gateway_down
     = (Raise (Exception "gateway unavailable"), charged_once gateway_down)
  /\ _bot service = Some TelegramBot
  /\ u_telegram_id alice = Some 1001
  /\ fst (process_one service alice_sub (start gateway_down)) = Return tt
  /\ failed (stats (snd (process_one service alice_sub (start gateway_down))))
     = 1
  /\ sends_of (trace (snd (process_one service alice_sub (start gateway_down))))
     = []
  /\ length
       (sends_of
          (trace (snd (process_one service alice_sub (start gateway_down)))))
     <> 1%nat.
Proof.
  split; [by apply alice_reaches_charge|].
  repeat (split; [vm_compute; reflexivity|]).
  vm_compute. discriminate.
Qed.

Lemma succeeded_charge_counts_charged_witness :
  reaches_charge service alice_sub (start due_day) alice alice_new_card
    14900 "Subscription renewal" (start due_day) due_day
  /\ create_recurring_charge alice_request due_day
     = (Return (Some succeeded_dict), charged_once due_day)
  /\ exists st1 st',
       _process_single_recurring service alice_sub (start due_day)
       = (Return "charged", st1)
       /\ process_one service alice_sub (start due_day) = (Return tt, st')
       /\ stats st' = add_charged zero_stats
       /\ sends_of (trace st') = [(1001, SuccessText "14900")].
Proof.
  assert (reaches_charge service alice_sub (start due_day) alice
            alice_new_card 14900 "Subscription renewal" (start due_day)
            due_day) as Hreach
    by (by apply alice_reaches_charge).
  assert (create_recurring_charge alice_request due_day
          = (Return (Some succeeded_dict), charged_once due_day)) as Hcharge
    by reflexivity.
  split; [exact Hreach|]. split; [exact Hcharge|].
  apply (RecurringFacts.succeeded_charge_counts_charged service alice_sub
           (start due_day) alice alice_new_card 14900 "Subscription renewal"
           (start due_day) due_day succeeded_dict (charged_once due_day)
           Hreach Hcharge).
  vm_compute. reflexivity.
Defined.

(** The charge of a user without a Telegram id succeeds: the outcome is
    [charged], and no success message is sent, where the claim has exactly
    one. *)
Lemma succeeded_charge_without_chat_counterexample :
  reaches_charge service bob_sub (start due_day) bob bob_card
    14900 "Subscription renewal" (start due_day) due_day
  /\ create_recurring_charge bob_request due_day
     = (Return (Some succeeded_dict), charged_once due_day)
  /\ succeeded_dict !! "status" = Some (PyStr "succeeded")
  /\ fst (_process_single_recurring service bob_sub (start due_day))
     = Return "charged"
  /\ sends_of
       (trace (snd (_process_single_recurring service bob_sub (start due_day))))
     = []
  /\ length
       (sends_of
          (trace
             (snd (_process_single_recurring service bob_sub (start due_day)))))
     <> 1%nat.
Proof.
  split; [by apply bob_reaches_charge|].
  repeat (split; [vm_compute; reflexivity|]).
  vm_compute. discriminate.
Qed.

Lemma no_active_method_in_empty_table user_id m :
  ~ Crud.active_method shop_without_cards user_id m.
Proof. intros (Hin & _). by apply elem_of_nil in Hin. Qed.

Lemma no_saved_method_counts_no_method_witness :
  s_user alice_sub = Some alice
  /\ db_execute (world (start cardless_day))
     = (Return shop_without_cards, cardless_day)
  /\ (forall m, ~ Crud.active_method shop_without_cards (u_id alice) m)
  /\ exists st1 st',
       _process_single_recurring service alice_sub (start cardless_day)
       = (Return "no_method", st1)
       /\ process_one service alice_sub (start cardless_day)
          = (Return tt, st')
       /\ stats st' = add_no_method zero_stats
       /\ charges_of (trace st') = []
       /\ sends_of (trace st') = [(1001, NoMethodText)].
Proof.
  assert (db_execute (world (start cardless_day))
          = (Return shop_without_cards, cardless_day)) as Hdb
    by reflexivity.
  split; [reflexivity|]. split; [exact Hdb|].
  split; [apply no_active_method_in_empty_table|].
  apply (RecurringFacts.no_saved_method_counts_no_method service alice_sub
           (start cardless_day) alice shop_without_cards cardless_day
           eq_refl Hdb (no_active_method_in_empty_table (u_id alice))).
Defined.

(** A user without a Telegram id and without a saved method: the outcome is
    [no_method], and no message is sent, where the claim has exactly one. *)
Lemma no_saved_method_without_chat_counterexample :
  s_user bob_sub = Some bob
  /\ db_execute (world (start cardless_day))
     = (Return shop_without_cards, cardless_day)
  /\ (forall m, ~ Crud.active_method shop_without_cards (u_id bob) m)
  /\ fst (_process_single_recurring service bob_sub (start cardless_day))
     = Return "no_method"
  /\ sends_of
       (trace
          (snd (_process_single_recurring service bob_sub (start cardless_day))))
     = []
  /\ length
       (sends_of
          (trace
             (snd (_process_single_recurring service bob_sub
                     (start cardless_day)))))
     <> 1%nat.
Proof.
  split; [reflexivity|]. split; [reflexivity|].
  split; [apply no_active_method_in_empty_table|].
  repeat (split; [vm_compute; reflexivity|]).
  vm_compute. discriminate.
Qed.

Lemma unusable_price_is_skipped_witness :
  s_user alice_sub = Some alice
  /\ db_execute (world (start no_price)) = (Return shop, no_price)
  /\ Crud.get_active_saved_methods shop (u_id alice)
     = [alice_new_card; alice_old_card]
  /\ _calculate_renewal_cost service alice_sub
       (with_world (start no_price) no_price)
     = (Return None, start no_price)
  /\ exists st1 st',
       _process_single_recurring service alice_sub (start no_price)
       = (Return "skipped", st1)
       /\ process_one service alice_sub (start no_price) = (Return tt, st')
       /\ stats st' = add_skipped zero_stats
       /\ charges_of (trace st') = []
       /\ sends_of (trace st') = [].
Proof.
  assert (Crud.get_active_saved_methods shop (u_id alice)
          = [alice_new_card; alice_old_card]) as Hm
    by (vm_compute; reflexivity).
  assert (_calculate_renewal_cost service alice_sub
            (with_world (start no_price) no_price)
          = (Return None, start no_price)) as Hc
    by (vm_compute; reflexivity).
  assert (db_execute (world (start no_price)) = (Return shop, no_price))
    as Hdb by reflexivity.
  split; [reflexivity|]. split; [exact Hdb|].
  split; [exact Hm|]. split; [exact Hc|].
  apply (RecurringFacts.unusable_price_is_skipped service alice_sub
           (start no_price) alice shop no_price alice_new_card
           [alice_old_card] None (start no_price) eq_refl Hdb Hm Hc).
  left. reflexivity.
Defined.

Lemma newest_method_is_charged_witness :
  Crud.active_method shop (u_id alice) alice_old_card
  /\ Crud.active_method shop (u_id alice) alice_new_card
  /\ m_created_at alice_old_card < m_created_at alice_new_card
  /\ Crud.get_active_saved_methods shop (u_id alice) !! 0%nat
     = Some alice_new_card
  /\ forall r st1,
       _process_single_recurring service alice_sub (start due_day) = (r, st1)
       -> exists request,
            charges_of (trace st1) = [request]
            /\ c_saved_method_id request = 2.
Proof.
  assert (Crud.active_method shop (u_id alice) alice_old_card) as Hold
    by (split; [left|done]).
  assert (Crud.active_method shop (u_id alice) alice_new_card) as Hnew
    by (split; [right; left|done]).
  assert (forall m, Crud.active_method shop (u_id alice) m ->
            m = alice_new_card
            \/ m_created_at m < m_created_at alice_new_card) as Hmax.
  { intros m (Hin & Hu & Ha). unfold shop in Hin. simpl in Hin.
    case_elem Hin; try discriminate; [right; reflexivity|left; reflexivity]. }
  assert (db_execute (world (start due_day)) = (Return shop, due_day))
    as Hdb by reflexivity.
  assert (m_created_at alice_old_card < m_created_at alice_new_card) as Hlt
    by reflexivity.
  assert (_calculate_renewal_cost service alice_sub
            (with_world (start due_day) due_day)
          = (Return (Some 14900), start due_day)) as Hc
    by (vm_compute; reflexivity).
  assert (get_subscription_payment_description 14900 (world (start due_day))
          = (Return "Subscription renewal", due_day)) as Hd
    by reflexivity.
  split; [exact Hold|]. split; [exact Hnew|]. split; [exact Hlt|].
  destruct (RecurringFacts.newest_method_is_charged service alice_sub
              (start due_day) alice shop due_day alice_old_card
              alice_new_card 14900 "Subscription renewal" (start due_day)
              due_day eq_refl Hdb Hold Hnew Hlt Hmax Hc eq_refl Hd)
    as (_ & Hhead & Hcharge).
  split; [exact Hhead|].
  intros r st1 E. destruct (Hcharge r st1 E) as (request & Hone & Hid & _).
  exists request. split; [exact Hone|exact Hid].
Defined.

(** ** More about saved methods *)

Lemma fresh_token_not_stored : "pm-fresh" ∉ Crud.tokens shop.
Proof.
  intros Hin. unfold Crud.tokens, shop in Hin. simpl in Hin.
  repeat (apply elem_of_cons in Hin as [Heq | Hin]; [discriminate|]).
  by apply elem_of_nil in Hin.
Qed.

Lemma create_then_lookup_witness :
  ("pm-fresh" ∉ Crud.tokens shop)
  /\ Crud.user_exists shop 7 = true
  /\ Crud.payment_exists shop None = true
  /\ exists m db',
       Crud.create_saved_payment_method shop t0 7 "pm-fresh"
         (Some "bank_card") (Some "220220") (Some "4477") (Some "Mir")
         (Some "09") (Some "2031") (Some "Mir *4477") None
       = (Return (Some m), db')
       /\ Crud.get_saved_method_by_payment_method_id db' "pm-fresh"
          = Return (Some m)
       /\ m ∈ Crud.get_active_saved_methods db' 7
       /\ m_card_first_six m = Some "220220"
       /\ m_card_last_four m = Some "4477"
       /\ m_card_type m = Some "Mir"
       /\ m_title m = Some "Mir *4477".
Proof.
  split; [exact fresh_token_not_stored|]. split; [reflexivity|].
  split; [reflexivity|].
  destruct (CrudFacts.create_then_lookup shop t0 7 "pm-fresh"
              (Some "bank_card") (Some "220220") (Some "4477") (Some "Mir")
              (Some "09") (Some "2031") (Some "Mir *4477") None
              fresh_token_not_stored eq_refl eq_refl)
    as (m & db' & E & _ & _ & _ & _ & _ & Hlookup & Hactive & _ & Hsix
        & Hfour & Htype & _ & _ & Htitle & _).
  exists m, db'. split; [exact E|]. split; [exact Hlookup|].
  split; [exact Hactive|]. split; [exact Hsix|]. split; [exact Hfour|].
  split; [exact Htype|exact Htitle].
Defined.

Lemma create_with_broken_reference_returns_none_witness :
  ("pm-fresh" ∉ Crud.tokens shop)
  /\ Crud.user_exists shop 99 = false
  /\ Crud.create_saved_payment_method shop t0 99 "pm-fresh" None None None
       None None None None None
     = (Return None, shop).
Proof.
  split; [exact fresh_token_not_stored|]. split; [reflexivity|].
  apply (CrudFacts.create_with_broken_reference_returns_none shop t0 99
           "pm-fresh" None None None None None None None None
           fresh_token_not_stored).
  left. reflexivity.
Defined.

Lemma create_twice_returns_first_witness :
  ("pm-fresh" ∉ Crud.tokens shop)
  /\ exists m db',
       Crud.create_saved_payment_method shop t0 7 "pm-fresh" None None None
         None None None None None
       = (Return (Some m), db')
       /\ Crud.create_saved_payment_method db' (t0 + DAY) 8 "pm-fresh"
            (Some "bank_card") None None None None None None None
          = (Return (Some m), db').
Proof.
  split; [exact fresh_token_not_stored|].
  destruct (Crud.create_saved_payment_method shop t0 7 "pm-fresh" None None
              None None None None None None) as [r db'] eqn:E.
  assert (exists m, r = Return (Some m)) as [m ->].
  { vm_compute in E. injection E as <- _. eauto. }
  exists m, db'. split; [reflexivity|].
  exact (CrudFacts.create_twice_returns_first shop t0 7 "pm-fresh" None None
           None None None None None None m db' (t0 + DAY) 8
           (Some "bank_card") None None None None None None None
           fresh_token_not_stored E).
Defined.

(** ** More about the cabinet *)

Lemma shop_ids_unique : NoDup (map m_id (yookassa_saved_payment_methods shop)).
Proof.
  apply (bool_decide_unpack
           (NoDup (map m_id (yookassa_saved_payment_methods shop)))).
  vm_compute. exact I.
Qed.

Lemma alice_deletes_new_card :
  Cabinet.delete_saved_payment_method shop t0 alice 2
  = (Return unlinked, Crud.deactivate_saved_method shop t0 2).
Proof. vm_compute. reflexivity. Qed.

Lemma delete_then_list_witness :
  NoDup (map m_id (yookassa_saved_payment_methods shop))
  /\ Cabinet.delete_saved_payment_method shop t0 alice 2
     = (Return unlinked, Crud.deactivate_saved_method shop t0 2)
  /\ Cabinet.total
       (Cabinet.list_saved_payment_methods
          (Crud.deactivate_saved_method shop t0 2) alice)
     = Cabinet.total (Cabinet.list_saved_payment_methods shop alice) - 1
  /\ Cabinet.list_saved_payment_methods
       (Crud.deactivate_saved_method shop t0 2) bob
     = Cabinet.list_saved_payment_methods shop bob.
Proof.
  split; [exact shop_ids_unique|]. split; [exact alice_deletes_new_card|].
  destruct (CabinetFacts.delete_then_list shop t0 alice 2 unlinked
              (Crud.deactivate_saved_method shop t0 2) shop_ids_unique
              alice_deletes_new_card) as (_ & Htotal & Hothers).
  split; [exact Htotal|]. apply Hothers. discriminate.
Defined.

Lemma delete_twice_is_not_found_witness :
  Cabinet.delete_saved_payment_method shop t0 alice 2
  = (Return unlinked, Crud.deactivate_saved_method shop t0 2)
  /\ Cabinet.delete_saved_payment_method
       (Crud.deactivate_saved_method shop t0 2) (t0 + DAY) alice 2
     = (Raise (HTTPException 404 "Saved payment method not found"),
        Crud.deactivate_saved_method shop t0 2).
Proof.
  split; [exact alice_deletes_new_card|].
  exact (CabinetFacts.delete_twice_is_not_found shop t0 alice 2 unlinked
           (Crud.deactivate_saved_method shop t0 2) (t0 + DAY)
           alice_deletes_new_card).
Defined.

(** ** More about the service *)

Lemma due_day_selection :
  _get_subscriptions_for_recurring service due_day
  = (Return [alice_sub; bob_sub], due_day).
Proof. vm_compute. reflexivity. Qed.

Lemma selector_never_selects_unqualified_witness :
  _get_subscriptions_for_recurring service due_day
  = (Return [alice_sub; bob_sub], due_day)
  /\ (alice_sub ∈ [alice_sub; bob_sub])
  /\ s_status alice_sub = ACTIVE_value
  /\ s_autopay_enabled alice_sub = true
  /\ exists expires_at,
       s_expires_at alice_sub = Some expires_at
       /\ expires_at - or_default (s_autopay_days_before alice_sub) 3 * DAY
          <= now_utc due_day.
Proof.
  assert (alice_sub ∈ [alice_sub; bob_sub]) as Hin by left.
  split; [exact due_day_selection|]. split; [exact Hin|].
  exact (RecurringFacts.selector_never_selects_unqualified service due_day
           [alice_sub; bob_sub] due_day alice_sub due_day_selection Hin).
Defined.

Lemma selector_keeps_table_order_witness :
  _get_subscriptions_for_recurring service due_day
  = (Return [alice_sub; bob_sub], due_day)
  /\ exists db,
       db_execute due_day = (Return db, due_day)
       /\ sublist [alice_sub; bob_sub] (subscriptions db).
Proof.
  split; [exact due_day_selection|].
  exact (RecurringFacts.selector_keeps_table_order service due_day
           [alice_sub; bob_sub] due_day due_day_selection).
Defined.

Lemma overflow_sub_unrepresentable : ~ threshold_representable overflow_sub.
Proof. vm_compute. intros [[_ Hle] _]. apply Hle. reflexivity. Qed.

Lemma unrepresentable_threshold_aborts_pass_witness :
  db_execute (world (start overflow_day))
  = (Return shop_with_overflow, overflow_day)
  /\ (overflow_sub ∈ subscriptions shop_with_overflow)
  /\ due_for_autopay_query overflow_sub = true
  /\ ~ threshold_representable overflow_sub
  /\ _get_subscriptions_for_recurring service (world (start overflow_day))
     = (Raise OverflowError, overflow_day)
  /\ process_recurring_charges service (start overflow_day)
     = (Return zero_stats,
        {| world := overflow_day;
           trace := [Log (FetchError OverflowError)];
           stats := zero_stats |}).
Proof.
  assert (db_execute (world (start overflow_day))
          = (Return shop_with_overflow, overflow_day)) as Hdb by reflexivity.
  assert (overflow_sub ∈ subscriptions shop_with_overflow) as Hin
    by (right; left).
  split; [exact Hdb|]. split; [exact Hin|]. split; [reflexivity|].
  split; [exact overflow_sub_unrepresentable|].
  exact (RecurringFacts.unrepresentable_threshold_aborts_pass service
           (start overflow_day) shop_with_overflow overflow_day overflow_sub
           Hdb Hin eq_refl overflow_sub_unrepresentable).
Defined.

Lemma unsuccessful_charge_counts_failed_witness :
  reaches_charge service alice_sub (start declined_day) alice alice_new_card
    14900 "Subscription renewal" (start declined_day) declined_day
  /\ create_recurring_charge alice_request declined_day
     = (Return (Some canceled_dict), charged_once declined_day)
  /\ canceled_dict !! "status" <> Some (PyStr "succeeded")
  /\ exists st1 st',
       _process_single_recurring service alice_sub (start declined_day)
       = (Return "failed", st1)
       /\ process_one service alice_sub (start declined_day)
          = (Return tt, st')
       /\ stats st' = add_failed zero_stats
       /\ charges_of (trace st') = [alice_request]
       /\ sends_of (trace st') = [(1001, FailureText "14900")].
Proof.
  assert (reaches_charge service alice_sub (start declined_day) alice
            alice_new_card 14900 "Subscription renewal" (start declined_day)
            declined_day) as Hreach
    by (by apply alice_reaches_charge).
  assert (create_recurring_charge alice_request declined_day
          = (Return (Some canceled_dict), charged_once declined_day))
    as Hcharge by reflexivity.
  assert (canceled_dict !! "status" <> Some (PyStr "succeeded")) as Hstatus
    by (vm_compute; discriminate).
  split; [exact Hreach|]. split; [exact Hcharge|]. split; [exact Hstatus|].
  apply (RecurringFacts.unsuccessful_charge_counts_failed service alice_sub
           (start declined_day) alice alice_new_card 14900
           "Subscription renewal" (start declined_day) declined_day
           (Some canceled_dict) (charged_once declined_day) Hreach Hcharge).
  right. exists canceled_dict. split; [reflexivity|exact Hstatus].
Defined.

Lemma settings_down_raises :
  _process_single_recurring service alice_sub (start settings_down)
  = (Raise (Exception "settings unavailable"), start settings_down).
Proof. vm_compute. reflexivity. Qed.

Lemma any_exception_counts_failed_witness :
  _process_single_recurring service alice_sub (start settings_down)
  = (Raise (Exception "settings unavailable"), start settings_down)
  /\ exists st',
       process_one service alice_sub (start settings_down) = (Return tt, st')
       /\ stats st' = add_failed zero_stats
       /\ trace st'
          = [Log (ChargeError 11 (Exception "settings unavailable"))]
       /\ sends_of (trace st') = [].
Proof.
  split; [exact settings_down_raises|].
  exact (RecurringFacts.any_exception_counts_failed service alice_sub
           (start settings_down) (Exception "settings unavailable")
           (start settings_down) settings_down_raises).
Defined.

Lemma idle_day_selection :
  _get_subscriptions_for_recurring service (world (start idle_day))
  = (Return [], idle_day).
Proof. vm_compute. reflexivity. Qed.

Lemma empty_selection_returns_at_once_witness :
  _get_subscriptions_for_recurring service (world (start idle_day))
  = (Return [], idle_day)
  /\ process_recurring_charges service (start idle_day)
     = (Return zero_stats,
        {| world := idle_day; trace := [Log NoSubscriptions];
           stats := zero_stats |}).
Proof.
  split; [exact idle_day_selection|].
  exact (RecurringFacts.empty_selection_returns_at_once service
           (start idle_day) idle_day idle_day_selection).
Defined.

Lemma alice_cost :
  _calculate_renewal_cost service alice_sub (start due_day)
  = (Return (Some 14900), start due_day).
Proof. vm_compute. reflexivity. Qed.

Lemma fallback_price_is_positive_witness :
  truthy (s_tariff_id alice_sub) = None
  /\ _calculate_renewal_cost service alice_sub (start due_day)
     = (Return (Some 14900), start due_day)
  /\ 0 < 14900
  /\ get_period_price_kopeks 30 (world (start due_day))
     = (Return (Some 14900), world (start due_day)).
Proof.
  split; [reflexivity|]. split; [exact alice_cost|].
  destruct (RecurringFacts.fallback_price_is_positive service alice_sub
              (start due_day) 14900 (start due_day) eq_refl alice_cost)
    as (Hpos & Hprice & _).
  split; [exact Hpos|exact Hprice].
Defined.

Lemma process_single_returns_known_label_witness :
  fst (_process_single_recurring service alice_sub (start due_day))
  = Return "charged"
  /\ ("charged" = "charged" \/ "charged" = "no_method"
      \/ "charged" = "failed" \/ "charged" = "skipped").
Proof.
  destruct (_process_single_recurring service alice_sub (start due_day))
    as [r st1] eqn:E.
  assert (r = Return "charged") as ->
    by (vm_compute in E; by injection E as <- _).
  split; [reflexivity|].
  exact (proj1 (RecurringFacts.process_single_returns_known_label service
                  alice_sub (start due_day) "charged" st1 E)).
Defined.

(** ** The migration *)

Lemma old_schema_upgrade :
  Migration.upgrade old_schema
  = Return (Migration.upgraded_from old_schema old_payments_columns).
Proof. vm_compute. reflexivity. Qed.

Lemma upgrade_is_idempotent_witness :
  Migration.upgrade old_schema
  = Return (Migration.upgraded_from old_schema old_payments_columns)
  /\ Migration.upgrade
       (Migration.upgraded_from old_schema old_payments_columns)
     = Return (Migration.upgraded_from old_schema old_payments_columns).
Proof.
  split; [exact old_schema_upgrade|].
  exact (MigrationFacts.upgrade_is_idempotent old_schema _ old_schema_upgrade).
Defined.

Lemma bare_table_upgrade :
  exists s', Migration.upgrade schema_with_bare_table = Return s'.
Proof.
  destruct (Migration.upgrade schema_with_bare_table) as [s'|e] eqn:E;
    [by exists s'|]. vm_compute in E. discriminate.
Qed.

Lemma upgrade_keeps_existing_table_witness :
  Migration._has_table Migration.SAVED_METHODS schema_with_bare_table = true
  /\ exists s',
       Migration.upgrade schema_with_bare_table = Return s'
       /\ Migration.tables s' !! Migration.SAVED_METHODS
          = Migration.tables schema_with_bare_table
              !! Migration.SAVED_METHODS
       /\ Migration.indexes s' = Migration.indexes schema_with_bare_table.
Proof.
  assert (Migration._has_table Migration.SAVED_METHODS schema_with_bare_table
          = true) as Ht by (vm_compute; reflexivity).
  split; [exact Ht|].
  destruct (Migration.upgrade schema_with_bare_table) as [s'|e] eqn:E.
  - exists s'. split; [reflexivity|].
    exact (MigrationFacts.upgrade_keeps_existing_table
             schema_with_bare_table s' Ht E).
  - exfalso. vm_compute in E. discriminate.
Defined.

Lemma upgrade_needs_payments_table_witness :
  Migration.tables schema_without_payments !! Migration.PAYMENTS = None
  /\ Migration.upgrade schema_without_payments
     = Raise Migration.ProgrammingError.
Proof.
  assert (Migration.tables schema_without_payments !! Migration.PAYMENTS
          = None) as Hp by (vm_compute; reflexivity).
  split; [exact Hp|].
  exact (MigrationFacts.upgrade_needs_payments_table
           schema_without_payments Hp).
Defined.

Lemma old_schema_unreferenced :
  Migration.unreferenced old_schema Migration.SAVED_METHODS.
Proof.
  unfold Migration.unreferenced, old_schema. simpl.
  apply map_Forall_insert_2;
    [right; repeat constructor; discriminate|].
  apply map_Forall_insert_2;
    [right; repeat constructor; discriminate|].
  apply map_Forall_empty.
Qed.

Lemma downgrade_undoes_upgrade_witness :
  Migration.tables old_schema !! Migration.SAVED_METHODS = None
  /\ Migration.indexes old_schema !! Migration.IX_USER_ACTIVE = None
  /\ Migration.unreferenced old_schema Migration.SAVED_METHODS
  /\ Migration.tables old_schema !! Migration.PAYMENTS
     = Some old_payments_columns
  /\ Migration._has_column "users" "id" old_schema = true
  /\ exists s',
       Migration.upgrade old_schema = Return s'
       /\ Migration.downgrade s' = Return old_schema.
Proof.
  assert (Migration.tables old_schema !! Migration.SAVED_METHODS = None)
    as Hs by (vm_compute; reflexivity).
  assert (Migration.indexes old_schema !! Migration.IX_USER_ACTIVE = None)
    as Hix by (vm_compute; reflexivity).
  assert (Migration.tables old_schema !! Migration.PAYMENTS
          = Some old_payments_columns) as Hp by (vm_compute; reflexivity).
  assert (Migration._has_column "users" "id" old_schema = true) as Husers
    by (vm_compute; reflexivity).
  split; [exact Hs|]. split; [exact Hix|].
  split; [exact old_schema_unreferenced|]. split; [exact Hp|].
  split; [exact Husers|].
  destruct (MigrationFacts.downgrade_undoes_upgrade old_schema
              old_payments_columns Hs Hix (map_Forall_empty _)
              old_schema_unreferenced Hp eq_refl)
    as (s' & Hup & _ & _ & Hdown); [|exact Husers|].
  - repeat constructor.
  - exists s'. split; [exact Hup|exact Hdown].
Defined.

Lemma downgrade_needs_the_index_witness :
  Migration._has_table Migration.SAVED_METHODS schema_with_bare_table = true
  /\ Migration.indexes schema_with_bare_table !! Migration.IX_USER_ACTIVE
     = None
  /\ Migration.downgrade schema_with_bare_table
     = Raise Migration.ProgrammingError.
Proof.
  assert (Migration._has_table Migration.SAVED_METHODS schema_with_bare_table
          = true) as Ht by (vm_compute; reflexivity).
  assert (Migration.indexes schema_with_bare_table
            !! Migration.IX_USER_ACTIVE = None) as Hix
    by (vm_compute; reflexivity).
  split; [exact Ht|]. split; [exact Hix|].
  exact (MigrationFacts.downgrade_needs_the_index schema_with_bare_table
           Ht Hix).
Defined.

End Instances.
